(** * Performance-report email generator: a shallow embedding

    The development follows [PerformanceSystem/enhanced_generator.py]
    (class [EnhancedEmailGenerator]), its configuration [config.py] and the
    sibling [performance_email_generator.py].

    Conventions of the embedding:
    - Python [str] values are [string]s (byte strings; the report texts,
      templates and names the theorems range over are read as ASCII, the
      emoji of the log lines are kept as their UTF-8 bytes);
    - a Python [dict] with string keys is a [gmap string string];
    - a float cell of the table is the rational [Qc] it denotes (a finite
      float, no NaN), printed by the host's [repr_float]; the floats that
      [simple_demo.py] reads with [float] are finite, infinite or nan;
    - what [enhance_with_ai] and [generate_email] return is a text or
      [None], an [option string]: the content of a response may be [None];
    - a method that logs, writes files or raises is a computation in the
      state-and-exception monad [M] over the record [World], which keeps
      the files written in full apart from the files that a write that
      raised has left behind. *)

From Stdlib Require Import Ascii String QArith Qcanon.
From stdpp Require Import base numbers strings list gmap sorting pretty.

(** ** The conviction table *)

(** One row of the table: the columns [Model], [YTD%] and [Commentary]. *)
Record ConvictionEntry := {
  Model : string;
  YTD : Qc;
  Commentary : string;
}.

(** A loaded [pandas.DataFrame]: its rows in table order (the index is the
    default [RangeIndex], so a row's label is its position) and whether the
    [YTD%] column has a numeric dtype. [read_excel] gives the column dtype
    [object] when it holds text or when the sheet has a header and no row. *)
Record DataFrame := {
  ytd_numeric : bool;
  df_rows : list ConvictionEntry;
}.

(** A row together with its index label. *)
Definition labelled : Type := nat * ConvictionEntry.

Definition label_rows (rows : list ConvictionEntry) : list labelled :=
  zip (seq 0 (length rows)) rows.

(** [DataFrame.nlargest(n, 'YTD%')] from pandas, by its documented contract:
    the first [n] rows ordered by the column in descending order, [keep] left
    at its default ['first'] (among equal values the first occurrences come
    first), no row for [n <= 0], every row when [n] exceeds the table.
    The ordering is an insertion sort that puts a row before the rows of equal
    or smaller value that come after it in the table. *)
Fixpoint insert_desc (x : labelled) (l : list labelled) : list labelled :=
  match l with
  | [] => [x]
  | y :: l' =>
      if decide (YTD x.2 < YTD y.2)%Qc then y :: insert_desc x l' else x :: l
  end.

Definition sort_desc (l : list labelled) : list labelled :=
  foldr insert_desc [] l.

Definition nlargest_rows (n : Z) (rows : list ConvictionEntry) : list labelled :=
  if decide (n ≤ 0)%Z then [] else take (Z.to_nat n) (sort_desc (label_rows rows)).

(** [a] is ranked before [b]: a larger return, or the same return and an
    earlier place in the table. *)
Definition outranks (a b : labelled) : Prop :=
  (YTD b.2 < YTD a.2)%Qc ∨ (YTD a.2 = YTD b.2 ∧ a.1 < b.1).

(** ** Python values and exceptions *)

Definition LF : string := String "010"%char EmptyString.

(** [sep.join(parts)] *)
Fixpoint join (sep : string) (parts : list string) : string :=
  match parts with
  | [] => ""
  | [p] => p
  | p :: rest => p +:+ sep +:+ join sep rest
  end.

Definition hex_digit (n : N) : ascii :=
  ascii_of_N (if decide (n < 10)%N then 48 + n else 87 + n).

(** The body of [repr(s)] between the quotes [q], for ASCII text. *)
Fixpoint repr_body (q : ascii) (s : string) : string :=
  match s with
  | EmptyString => ""
  | String c s' =>
      (if decide (c = q ∨ c = "\"%char) then String "\"%char (String c "")
       else if decide (c = "010"%char) then "\n"
       else if decide (c = "013"%char) then "\r"
       else if decide (c = "009"%char) then "\t"
       else if decide (N_of_ascii c < 32 ∨ N_of_ascii c = 127)%N
            then "\x" +:+ String (hex_digit (N_of_ascii c / 16))
                            (String (hex_digit (N_of_ascii c mod 16)) "")
       else String c "") +:+ repr_body q s'
  end.

Fixpoint has_char (c : ascii) (s : string) : bool :=
  match s with
  | EmptyString => false
  | String d s' => bool_decide (c = d) || has_char c s'
  end.

(** [repr(s)] of a [str]: single quotes, unless the text has a single quote
    and no double quote. *)
Definition py_repr (s : string) : string :=
  let q : ascii :=
    if has_char "'"%char s && negb (has_char "034"%char s) then "034"%char else "'"%char in
  String q (repr_body q s) +:+ String q "".

(** The exceptions the pipeline meets, each with what [str(e)] needs. *)
Inductive exn :=
| KeyError (key : string)
| IndexError (msg : string)
| ValueError (msg : string)
| TypeError (msg : string)
| OSError (msg : string)
| Exception (msg : string).

(** [str(e)], as the f-strings of the log lines print it. *)
Definition exn_str (e : exn) : string :=
  match e with
  | KeyError k => py_repr k
  | IndexError m | ValueError m | TypeError m | OSError m | Exception m => m
  end.

(** ** The monad of methods: a log, the files written, and exceptions *)

Inductive level := INFO | WARNING | ERROR.

(** What a run leaves behind: the records handed to [logger], oldest first;
    the files written in full with [open(path, 'w')] and [f.write], oldest
    first; and the files a write that raised has left behind, oldest first,
    each with the number of files written in full before it, its path and
    the text it was left with ([open] had created or truncated it). *)
Record World := {
  log : list (level * string);
  written : list (string * string);
  unfinished : list (nat * string * string);
}.

Definition empty_world : World := {| log := []; written := []; unfinished := [] |}.

Inductive outcome (A : Type) :=
| Returns (a : A)
| Raises (e : exn).
Arguments Returns {A} a.
Arguments Raises {A} e.

Definition M (A : Type) : Type := World → outcome A * World.

#[global] Instance M_ret : MRet M := λ A (a : A) w, (Returns a, w).

#[global] Instance M_bind : MBind M := λ A B (k : A → M B) (m : M A) w,
  match m w with
  | (Returns a, w') => k a w'
  | (Raises e, w') => (Raises e, w')
  end.

Definition raise {A} (e : exn) : M A := λ w, (Raises e, w).

(** [try: body / except Exception as e: handler e] *)
Definition try_except {A} (body : M A) (handler : exn → M A) : M A := λ w,
  match body w with
  | (Returns a, w') => (Returns a, w')
  | (Raises e, w') => handler e w'
  end.

(** A pure call that returns or raises. *)
Definition lift {A} (r : exn + A) : M A :=
  match r with
  | inl e => raise e
  | inr a => mret a
  end.

Definition logger (lvl : level) (msg : string) : M unit := λ w,
  (Returns tt, {| log := log w ++ [(lvl, msg)]; written := written w;
                  unfinished := unfinished w |}).

(** ** Regular expressions: the fragment of [re] the five patterns use

    Matching is by backtracking, as in [re]: a quantifier is greedy, it takes
    the longest run first and gives characters back only when what follows
    fails to match. [k] is what remains to be matched after [r]; the text
    taken by group 1 is threaded through as [cap]. *)

Inductive cclass :=
| CLit (c : ascii)   (* a literal; a letter stands for both cases (IGNORECASE) *)
| CDigit             (* \d *)
| CNotDigit          (* [^\d] *)
| CSpace.            (* \s *)

Inductive regex :=
| REmpty
| RChar (c : cclass)
| RStar (c : cclass)          (* c* *)
| RPlus (c : cclass)          (* c+ *)
| ROpt (r : regex)            (* r? *)
| RSeq (r1 r2 : regex)
| RGroup (r : regex).         (* ( r ), the pattern's group 1 *)

Definition is_digit (a : ascii) : bool :=
  bool_decide (48 ≤ N_of_ascii a ≤ 57)%N.

Definition is_space (a : ascii) : bool :=
  bool_decide (9 ≤ N_of_ascii a ≤ 13 ∨ 28 ≤ N_of_ascii a ≤ 32)%N.

Definition is_upper (a : ascii) : bool :=
  bool_decide (65 ≤ N_of_ascii a ≤ 90)%N.

Definition is_lower (a : ascii) : bool :=
  bool_decide (97 ≤ N_of_ascii a ≤ 122)%N.

Definition to_lower (a : ascii) : ascii :=
  if is_upper a then ascii_of_N (N_of_ascii a + 32) else a.

Definition to_upper (a : ascii) : ascii :=
  if is_lower a then ascii_of_N (N_of_ascii a - 32) else a.

Definition cmatch (c : cclass) (a : ascii) : bool :=
  match c with
  | CLit l => bool_decide (to_lower l = to_lower a)
  | CDigit => is_digit a
  | CNotDigit => negb (is_digit a)
  | CSpace => is_space a
  end.

Fixpoint star_match {A} (c : cclass) (s : string) (k : string → option A) : option A :=
  match s with
  | String a s' =>
      if cmatch c a then
        match star_match c s' k with
        | Some r => Some r
        | None => k s
        end
      else k s
  | EmptyString => k s
  end.

(** The text between the start [s] of a match and what is left, [s']. *)
Definition consumed (s s' : string) : string :=
  substring 0 (String.length s - String.length s') s.

Fixpoint rmatch {A} (r : regex) (s : string) (cap : option string)
    (k : string → option string → option A) : option A :=
  match r with
  | REmpty => k s cap
  | RChar c =>
      match s with
      | String a s' => if cmatch c a then k s' cap else None
      | EmptyString => None
      end
  | RStar c => star_match c s (λ s', k s' cap)
  | RPlus c =>
      match s with
      | String a s' => if cmatch c a then star_match c s' (λ s'', k s'' cap) else None
      | EmptyString => None
      end
  | ROpt r' =>
      match rmatch r' s cap k with
      | Some x => Some x
      | None => k s cap
      end
  | RSeq r1 r2 => rmatch r1 s cap (λ s' cap', rmatch r2 s' cap' k)
  | RGroup r' => rmatch r' s cap (λ s' _, k s' (Some (consumed s s')))
  end.

(** A match object, as far as the code reads it. *)
Record Match := { group1 : option string }.

(** [re.search(r, s, re.IGNORECASE)]: the match at the leftmost position
    that has one. *)
Fixpoint re_search (r : regex) (s : string) : option Match :=
  match rmatch r s None (λ _ cap, Some cap) with
  | Some cap => Some {| group1 := cap |}
  | None =>
      match s with
      | String _ s' => re_search r s'
      | EmptyString => None
      end
  end.

(** [m.group(1)] inside an f-string. *)
Definition group (m : Match) : string := default "None" (group1 m).

Fixpoint rlit (s : string) : regex :=
  match s with
  | EmptyString => REmpty
  | String c s' => RSeq (RChar (CLit c)) (rlit s')
  end.

Definition rcat (rs : list regex) : regex := foldr RSeq REmpty rs.

(** An optional sign, digits, an optional point, digits: the group of every
    pattern. *)
Definition number_group : regex :=
  RGroup (rcat [ROpt (RChar (CLit "-")); RPlus CDigit; ROpt (RChar (CLit ".")); RStar CDigit]).

Definition ytd_pattern : regex :=
  rcat [rlit "YTD"; RStar CNotDigit; number_group; RChar (CLit "%")].

Definition inception_pattern : regex :=
  rcat [ROpt (RSeq (rlit "Since") (RPlus CSpace)); rlit "Inception";
        RStar CNotDigit; number_group; RChar (CLit "%")].

Definition sharpe_pattern : regex :=
  rcat [rlit "Sharpe"; RPlus CSpace; rlit "Ratio"; RStar CNotDigit; number_group].

Definition beta_pattern : regex :=
  rcat [rlit "Beta"; RStar CNotDigit; number_group].

Definition drawdown_pattern : regex :=
  rcat [ROpt (RSeq (rlit "Max") (RPlus CSpace)); rlit "Drawdown";
        RStar CNotDigit; number_group; RChar (CLit "%")].

(** The body of [parse_pdf_report] once the text of the pages is in
    [all_text]: one search per metric, a key per match. *)
Definition extract_metrics (all_text : string) : gmap string string :=
  let metrics : gmap string string := ∅ in
  let metrics :=
    match re_search ytd_pattern all_text with
    | Some ytd_match => <["YTD" := group ytd_match +:+ "%"]> metrics
    | None => metrics
    end in
  let metrics :=
    match re_search inception_pattern all_text with
    | Some inception_match => <["SinceInception" := group inception_match +:+ "%"]> metrics
    | None => metrics
    end in
  let metrics :=
    match re_search sharpe_pattern all_text with
    | Some sharpe_match => <["Sharpe" := group sharpe_match]> metrics
    | None => metrics
    end in
  let metrics :=
    match re_search beta_pattern all_text with
    | Some beta_match => <["Beta" := group beta_match]> metrics
    | None => metrics
    end in
  let metrics :=
    match re_search drawdown_pattern all_text with
    | Some drawdown_match => <["MaxDrawdown" := group drawdown_match +:+ "%"]> metrics
    | None => metrics
    end in
  metrics.

(** ** [str.format] with keyword arguments only

    The template is read left to right as CPython's [MarkupIterator] reads
    it, one character at a time: literal text, the doubled braces that stand
    for one, and replacement fields. A field that is a plain name is looked
    up in the keyword arguments. A field with a conversion, a format
    specification, an attribute or an index is not interpreted here: from
    its opening brace on, the rest of the template is handed to the host's
    Python ([format_tail]), whose result is appended to what was produced. *)

Inductive fmt_state :=
| FText                     (* in literal text *)
| FOpen                     (* an opening brace was read *)
| FClose                    (* a closing brace was read *)
| FField (name : string).   (* inside a field, [name] read so far *)

Definition PY_SSIZE_T_MAX : Z := 2 ^ 63 - 1.

(** [get_integer]: the index a field name of digits denotes; [inr None] for
    a name that is not a number. *)
Fixpoint get_integer (name : string) (accumulator : Z) : exn + option Z :=
  match name with
  | EmptyString => inr (Some accumulator)
  | String c name' =>
      if is_digit c then
        let digitval := Z.of_N (N_of_ascii c - 48) in
        if decide (accumulator > (PY_SSIZE_T_MAX - digitval) / 10)%Z
        then inl (ValueError "Too many decimal digits in format string")
        else get_integer name' (accumulator * 10 + digitval)%Z
      else inr None
  end.

(** The value of the field [name] when no positional argument was passed. *)
Definition get_field (kwargs : gmap string string) (name : string) : exn + string :=
  let index_error (i : Z) :=
    IndexError ("Replacement index " +:+ pretty i +:+
                " out of range for positional args tuple") in
  match name with
  | EmptyString => inl (index_error 0%Z)
  | _ =>
      match get_integer name 0 with
      | inl e => inl e
      | inr (Some i) => inl (index_error i)
      | inr None =>
          match kwargs !! name with
          | Some v => inr v
          | None => inl (KeyError name)
          end
      end
  end.

Definition snoc (s : string) (c : ascii) : string := s +:+ String c "".

Definition starts_complex_field (c : ascii) : bool :=
  bool_decide (c = "!" ∨ c = ":" ∨ c = "." ∨ c = "[")%char.

Section format.
Variable format_tail : string → gmap string string → exn + string.
Variable kwargs : gmap string string.

Fixpoint format_go (st : fmt_state) (t : string) (out : string) : exn + string :=
  match t with
  | EmptyString =>
      match st with
      | FText => inr out
      | FOpen => inl (ValueError "Single '{' encountered in format string")
      | FClose => inl (ValueError "Single '}' encountered in format string")
      | FField _ => inl (ValueError "expected '}' before end of string")
      end
  | String c t' =>
      let in_field (name : string) :=
        if decide (c = "}"%char) then
          match get_field kwargs name with
          | inl e => inl e
          | inr v => format_go FText t' (out +:+ v)
          end
        else if decide (c = "{"%char) then
          inl (ValueError "unexpected '{' in field name")
        else if starts_complex_field c then
          match format_tail ("{" +:+ name +:+ t) kwargs with
          | inl e => inl e
          | inr rest => inr (out +:+ rest)
          end
        else format_go (FField (snoc name c)) t' out in
      match st with
      | FText =>
          if decide (c = "{"%char) then format_go FOpen t' out
          else if decide (c = "}"%char) then format_go FClose t' out
          else format_go FText t' (snoc out c)
      | FOpen =>
          if decide (c = "{"%char) then format_go FText t' (snoc out c)
          else in_field ""
      | FClose =>
          if decide (c = "}"%char) then format_go FText t' (snoc out c)
          else inl (ValueError "Single '}' encountered in format string")
      | FField name => in_field name
      end
  end.

(** [template.format] applied to the keyword arguments [kwargs] *)
Definition str_format (template : string) : exn + string :=
  format_go FText template "".
End format.

(** ** Paths and names *)

(** [str.replace(a, b)] for one-character strings. *)
Fixpoint replace_char (a b : ascii) (s : string) : string :=
  match s with
  | EmptyString => ""
  | String c s' => String (if decide (c = a) then b else c) (replace_char a b s')
  end.

(** [str.title()]: a letter after a letter is lowered, any other letter is
    raised. *)
Fixpoint title_go (previous_is_cased : bool) (s : string) : string :=
  match s with
  | EmptyString => ""
  | String c s' =>
      let cased := is_upper c || is_lower c in
      String (if previous_is_cased then to_lower c else to_upper c) (title_go cased s')
  end.

Definition title (s : string) : string := title_go false s.

(** [name.rfind('.')], counting from [i]. *)
Fixpoint rfind_dot (name : string) (i : nat) : option nat :=
  match name with
  | EmptyString => None
  | String c name' =>
      match rfind_dot name' (S i) with
      | Some j => Some j
      | None => if decide (c = "."%char) then Some i else None
      end
  end.

(** [PurePath.stem]: the file name without its last suffix. *)
Definition stem (name : string) : string :=
  match rfind_dot name 0 with
  | Some i =>
      if decide (0 < i < String.length name - 1) then substring 0 i name else name
  | None => name
  end.

(** ** The host: the file system and the parts of Python left abstract *)

(** A file of [PDF_DIR]: its name and what reading it with [pdfplumber]
    gives, either the exception raised while the document is open or the
    text of each page ([extract_text()], empty where it gives nothing). *)
Record PdfFile := {
  pdf_name : string;
  pdf_pages : exn + list string;
}.

Record Host := {
  (** [Path(__file__).parent] *)
  BASE_DIR : string;
  (** [PDF_DIR.exists()] and the files [PDF_DIR.glob] finds *)
  pdf_dir_exists : bool;
  pdf_dir_glob : list PdfFile;
  (** creating the directory of [path] (where the code does), opening the
      file and writing the text [content] to it: [None] when all of it goes
      through, the exception otherwise *)
  write_error : string → string → option exn;
  (** what a write that raises leaves at [path]: [None] when the exception
      came before the file was open (from [mkdir] or [open]), the text the
      file holds when it came after [open] had created or truncated the file
      (from [f.write] or from closing the file) *)
  write_leaves : string → string → option string;
  (** creating the directory of [path] and opening the file, when what is to
      be written is not a text and [f.write] refuses it *)
  open_error : string → option exn;
  (** the text an f-string gives for a float cell *)
  repr_float : Qc → string;
  (** [str.format] on a template that starts with a field carrying a
      conversion, a specification, an attribute or an index *)
  format_tail : string → gmap string string → exn + string;
}.

(** [config.py] *)
Definition PDF_DIR (host : Host) : string := BASE_DIR host +:+ "/reports_pdfs".
Definition OUTPUT_DIR (host : Host) : string := BASE_DIR host +:+ "/output/emails".
Definition OPENAI_MODEL : string := "gpt-4o-mini".
Definition OPENAI_TEMPERATURE : Qc := Q2Qc 0.3.
Definition MAX_CONVICTIONS : Z := 3.
Definition PDF_PAGES_TO_PARSE : list nat := [1; 2; 3].

(** The file a write that raised has left at [path], holding [text]. *)
Definition leave_unfinished (path text : string) (w : World) : World :=
  {| log := log w; written := written w;
     unfinished := unfinished w ++ [(length (written w), path, text)] |}.

(** [open(path, 'w')] followed by [f.write(content)], for a text. *)
Definition write_file (host : Host) (path content : string) : M unit := λ w,
  match write_error host path content with
  | Some e =>
      (Raises e,
       match write_leaves host path content with
       | Some text => leave_unfinished path text w
       | None => w
       end)
  | None =>
      (Returns tt, {| log := log w; written := written w ++ [(path, content)];
                      unfinished := unfinished w |})
  end.

(** [open(path, 'w')] followed by [f.write(content)], for what a method
    annotated [-> str] has returned: a text or [None]. The file is open, and
    empty, when [f.write] refuses [None]. *)
Definition write_value (host : Host) (path : string) (content : option string)
    : M unit :=
  match content with
  | Some text => write_file host path text
  | None => λ w,
      match open_error host path with
      | Some e => (Raises e, w)
      | None => (Raises (TypeError "write() argument must be str, not None"),
                 leave_unfinished path "" w)
      end
  end.

(** One line of the conviction text per selected row. *)
Definition conviction_line (host : Host) (row : ConvictionEntry) : string :=
  "✅ " +:+ Model row +:+ ": " +:+ repr_float host (YTD row) +:+ "% — " +:+ Commentary row.

Definition conv_text (host : Host) (top_convs : list labelled) : string :=
  join LF (conviction_line host <$> top_convs.*2).

(** [df.nlargest(n, 'YTD%')]: pandas refuses a column that is not numeric. *)
Definition nlargest (df : DataFrame) (n : Z) : exn + list labelled :=
  if ytd_numeric df then inr (nlargest_rows n (df_rows df))
  else inl (TypeError
    "Column 'YTD%' has dtype object, cannot use method 'nlargest' with this dtype").

(** The keyword arguments both [generate_email] methods pass to [format]. *)
Definition email_kwargs (client_name : string) (metrics : gmap string string)
    (convictions : string) : gmap string string :=
  <["Name" := client_name]>
  (<["YTD" := default "N/A" (metrics !! "YTD")]>
  (<["SinceInception" := default "N/A" (metrics !! "SinceInception")]>
  (<["Sharpe" := default "N/A" (metrics !! "Sharpe")]>
  (<["Convictions" := convictions]> ∅)))).

(** The sample data both parsers fall back on. *)
Definition sample_data : gmap string string :=
  <["YTD" := "8.5%"]>
  (<["SinceInception" := "12.3%"]>
  (<["Sharpe" := "1.42"]>
  (<["Beta" := "0.95"]>
  (<["MaxDrawdown" := "-5.2%"]> ∅)))).

(** ** The chat-completion client *)

Record ChatRequest := {
  model : string;
  messages : list (string * string);   (* role, content *)
  temperature : Qc;
}.

(** A response, as far as the code reads it: the message content of each
    choice, [None] for a message without text (a refusal, a call of a tool,
    a filtered completion). *)
Record ChatResponse := { choices : list (option string) }.

(** [client.chat.completions.create]: the response, or the exception of a
    request that failed (network, authentication, rate limit, ...). *)
Definition Client : Type := ChatRequest → exn + ChatResponse.

(** [response.choices[0].message.content] *)
Definition first_choice (response : ChatResponse) : exn + option string :=
  match choices response with
  | content :: _ => inr content
  | [] => inl (IndexError "list index out of range")
  end.

(** ** [EnhancedEmailGenerator] *)

Module Enhanced.

(** The object once [__init__] is done. [openai_client] is [None] when no
    API key was configured, [convictions_df] and [email_template] are
    [None] when loading them failed or the template file is absent. *)
Record t := {
  openai_client : option Client;
  convictions_df : option DataFrame;
  email_template : option string;
}.

Section methods.
Context (host : Host) (self : t).

(** [use_ai and self.openai_client] as a condition *)
Definition ai_enabled (use_ai : bool) : bool :=
  use_ai && bool_decide (is_Some (openai_client self)).

Definition all_text (pages : list string) : string :=
  foldl (λ all_text page_num,
           match pages !! page_num with
           | Some page_text =>
               if decide (page_text = "") then all_text
               else all_text +:+ page_text +:+ LF
           | None => all_text
           end) "" PDF_PAGES_TO_PARSE.

Definition parse_pdf_report (pdf : PdfFile) : M (gmap string string) :=
  try_except
    (pages ← lift (pdf_pages pdf);
     let metrics := extract_metrics (all_text pages) in
     logger INFO ("Extracted " +:+ pretty (size metrics) +:+ " metrics from "
                  +:+ pdf_name pdf);;
     mret metrics)
    (λ e,
     logger ERROR ("Error parsing PDF " +:+ PDF_DIR host +:+ "/" +:+ pdf_name pdf
                   +:+ ": " +:+ exn_str e);;
     mret sample_data).

(** [n or self.config.MAX_CONVICTIONS] *)
Definition n_or_default (n : option Z) : Z :=
  match n with
  | None => MAX_CONVICTIONS
  | Some n => if decide (n = 0%Z) then MAX_CONVICTIONS else n
  end.

Definition get_top_convictions (n : option Z) : M string :=
  match convictions_df self with
  | None => mret "Conviction data not available"
  | Some df =>
      let n := n_or_default n in
      try_except
        (top_convs ← lift (nlargest df n);
         mret (conv_text host top_convs))
        (λ e,
         logger ERROR ("Error getting convictions: " +:+ exn_str e);;
         mret "Error retrieving conviction data")
  end.

Definition prompt (base_email client_name : string) : string :=
  let ind := "            " in
  join LF [
    "";
    ind +:+ "You are a professional financial advisor. Please enhance this client email to make it more ";
    ind +:+ "personalized and engaging while maintaining professionalism. The client's name is "
        +:+ client_name +:+ ".";
    ind;
    ind +:+ "Key requirements:";
    ind +:+ "1. Keep all the performance numbers exactly as provided";
    ind +:+ "2. Add insightful commentary about the performance relative to market conditions";
    ind +:+ "3. Make the tone warm but professional";
    ind +:+ "4. Keep the email concise but informative";
    ind +:+ "5. Maintain the structure but improve the flow";
    ind;
    ind +:+ "Original email:";
    ind +:+ base_email;
    ind;
    ind +:+ "Enhanced email:";
    ind
  ].

(** The arguments of [chat.completions.create]. *)
Definition chat_request (base_email client_name : string) : ChatRequest := {|
  model := OPENAI_MODEL;
  messages := [
    ("system", "You are a professional financial advisor writing personalized client emails.");
    ("user", prompt base_email client_name)];
  temperature := OPENAI_TEMPERATURE;
|}.

(** What the method returns is a text or [None]: the content of the
    response is returned as it is. *)
Definition enhance_with_ai (base_email client_name : string)
    (metrics : gmap string string) : M (option string) :=
  match openai_client self with
  | None => mret (Some base_email)
  | Some client =>
      try_except
        (response ← lift (client (chat_request base_email client_name));
         enhanced_email ← lift (first_choice response);
         logger INFO ("AI enhancement completed for " +:+ client_name);;
         mret enhanced_email)
        (λ e,
         logger ERROR ("Error enhancing email with AI: " +:+ exn_str e);;
         mret (Some base_email))
  end.

Definition generate_email (client_name : string) (metrics : gmap string string)
    (convictions : string) (use_ai : bool) : M (option string) :=
  match email_template self with
  | None | Some EmptyString => mret (Some "Email template not available")
  | Some template =>
      try_except
        (base_email ← lift (str_format (format_tail host)
                              (email_kwargs client_name metrics convictions) template);
         if ai_enabled use_ai
         then enhance_with_ai base_email client_name metrics
         else mret (Some base_email))
        (λ e,
         logger ERROR ("Error generating email for " +:+ client_name +:+ ": "
                       +:+ exn_str e);;
         mret (Some ("Error generating email: " +:+ exn_str e)))
  end.

Definition client_name_of (pdf : PdfFile) : string :=
  title (replace_char "_" " " (stem (pdf_name pdf))).

Definition output_path (client_name : string) : string :=
  OUTPUT_DIR host +:+ "/" +:+ client_name +:+ ".txt".

(** The [try] block of the loop for one file: [true] when the file was
    counted, [false] when it was passed over with [continue]. *)
Definition process_report (use_ai : bool) (convictions_text : string)
    (pdf_path : PdfFile) : M bool :=
  let client_name := client_name_of pdf_path in
  metrics ← parse_pdf_report pdf_path;
  if decide (metrics = ∅) then
    logger WARNING ("No metrics extracted for " +:+ client_name);;
    mret false
  else
    email_content ← generate_email client_name metrics convictions_text use_ai;
    write_value host (output_path client_name) email_content;;
    logger INFO ("✅ Generated " +:+ (if ai_enabled use_ai then "AI-enhanced " else "")
                 +:+ "email for " +:+ client_name);;
    mret true.

(** One turn of the loop: the [try] block and its [except] clause. *)
Definition loop_body (use_ai : bool) (convictions_text : string)
    (pdf_path : PdfFile) : M bool :=
  try_except
    (process_report use_ai convictions_text pdf_path)
    (λ e,
     logger ERROR ("Error processing " +:+ pdf_name pdf_path +:+ ": "
                   +:+ exn_str e);;
     mret false).

(** The [for] loop; it returns the local [processed_count]. *)
Fixpoint process_loop (use_ai : bool) (convictions_text : string)
    (pdf_files : list PdfFile) (processed_count : nat) : M nat :=
  match pdf_files with
  | [] => mret processed_count
  | pdf_path :: rest =>
      counted ← loop_body use_ai convictions_text pdf_path;
      process_loop use_ai convictions_text rest
        (if counted : bool then S processed_count else processed_count)
  end.

Definition process_all_reports (use_ai : bool) : M unit :=
  if negb (pdf_dir_exists host) then
    logger ERROR ("PDF directory not found: " +:+ PDF_DIR host)
  else
    let pdf_files := pdf_dir_glob host in
    match pdf_files with
    | [] => logger WARNING "No PDF files found"
    | _ =>
        logger INFO ("Processing " +:+ pretty (length pdf_files)
                     +:+ " PDF reports...");;
        (if ai_enabled use_ai then logger INFO "AI enhancement enabled"
         else mret tt);;
        (* Get convictions once for all emails *)
        convictions_text ← get_top_convictions None;
        processed_count ← process_loop use_ai convictions_text pdf_files 0;
        logger INFO ("🎉 Successfully processed " +:+ pretty processed_count
                     +:+ " reports")
    end.
End methods.
End Enhanced.

(** ** [PerformanceEmailGenerator], the generator without AI enhancement *)

Module Basic.

Record t := {
  convictions_df : option DataFrame;
  email_template : option string;
}.

Section methods.
Context (host : Host) (self : t).

(** [n] defaults to 3 at the call. *)
Definition get_top_convictions (n : Z) : M string :=
  match convictions_df self with
  | None => mret "Conviction data not available"
  | Some df =>
      try_except
        (top_convs ← lift (nlargest df n);
         mret (conv_text host top_convs))
        (λ e,
         logger ERROR ("Error getting convictions: " +:+ exn_str e);;
         mret "Error retrieving conviction data")
  end.

Definition generate_email (client_name : string) (metrics : gmap string string)
    (convictions : string) : M string :=
  match email_template self with
  | None | Some EmptyString => mret "Email template not available"
  | Some template =>
      try_except
        (email_content ← lift (str_format (format_tail host)
                                 (email_kwargs client_name metrics convictions) template);
         mret email_content)
        (λ e,
         logger ERROR ("Error generating email for " +:+ client_name +:+ ": "
                       +:+ exn_str e);;
         mret ("Error generating email: " +:+ exn_str e))
  end.
End methods.
End Basic.

(** ** Sample data of the repository *)

(** The table [_create_sample_convictions] of the enhanced generator writes. *)
Definition sample_convictions : list ConvictionEntry := [
  {| Model := "US Large Cap Growth"; YTD := Q2Qc 15.2;
     Commentary := "Leading innovation companies showing robust earnings growth" |};
  {| Model := "International Developed Markets"; YTD := Q2Qc 8.3;
     Commentary := "Benefiting from currency stabilization and economic recovery" |};
  {| Model := "Technology Sector Focus"; YTD := Q2Qc 12.5;
     Commentary := "Strong performance driven by AI and cloud infrastructure investments" |};
  {| Model := "Fixed Income Core"; YTD := Q2Qc 4.1;
     Commentary := "Stable returns in volatile market environment" |};
  {| Model := "Emerging Markets"; YTD := Q2Qc (-2.1);
     Commentary := "Temporary headwinds from geopolitical concerns" |};
  {| Model := "Real Estate Investment Trusts"; YTD := Q2Qc 9.7;
     Commentary := "Solid dividend yields with capital appreciation potential" |};
  {| Model := "Small Cap Value"; YTD := Q2Qc 6.8;
     Commentary := "Attractive valuations in quality small-cap names" |};
  {| Model := "Commodities & Energy"; YTD := Q2Qc 11.3;
     Commentary := "Energy transition and commodity supercycle themes" |}
].

Definition sample_df : DataFrame :=
  {| ytd_numeric := true; df_rows := sample_convictions |}.

(** A decimal printer for the examples: sign, integer part, point, and the
    digits of the fraction (at least one, at most seventeen). It agrees with
    the text Python prints for the floats of the sample tables. *)
Fixpoint frac_digits (fuel : nat) (num den : Z) : string :=
  match fuel with
  | O => ""
  | S fuel' =>
      let d := (num * 10 / den)%Z in
      let r := (num * 10 mod den)%Z in
      pretty d +:+ (if decide (r = 0%Z) then "" else frac_digits fuel' r den)
  end.

Definition repr_decimal (q : Qc) : string :=
  let n := Z.abs (Qnum q) in
  let d := Z.pos (Qden q) in
  (if decide (Qnum q < 0)%Z then "-" else "")
  +:+ pretty (n / d)%Z +:+ "." +:+ frac_digits 17 (n mod d)%Z d.

(** A host for the examples: two reports, the second one unreadable; every
    write goes through; fields beyond plain names are refused. *)
Definition demo_reports : list PdfFile := [
  {| pdf_name := "john_smith.pdf";
     pdf_pages := inr ["PERFORMANCE REPORT";
                       "YTD Return: 5.5%" +:+ LF +:+ "Since Inception Return: 8.2%"
                       +:+ LF +:+ "Sharpe Ratio: 1.1" +:+ LF +:+ "Beta: 0.85"
                       +:+ LF +:+ "Max Drawdown: -3.2%"] |};
  {| pdf_name := "sarah_johnson.pdf";
     pdf_pages := inl (Exception "No /Root object! - Is this really a PDF?") |}
].

Definition demo_host : Host := {|
  BASE_DIR := "PerformanceSystem";
  pdf_dir_exists := true;
  pdf_dir_glob := demo_reports;
  write_error := λ _ _, None;
  write_leaves := λ _ _, None;
  open_error := λ _, None;
  repr_float := repr_decimal;
  format_tail := λ _ _, inl (ValueError "Invalid format specifier");
|}.

Definition demo_template : string :=
  "Hi {Name}," +:+ LF +:+ "YTD return: {YTD}" +:+ LF
  +:+ "Since inception: {SinceInception}" +:+ LF +:+ "Sharpe: {Sharpe}" +:+ LF
  +:+ "{Convictions}" +:+ LF.

Definition demo_generator : Enhanced.t := {|
  Enhanced.openai_client := None;
  Enhanced.convictions_df := Some sample_df;
  Enhanced.email_template := Some demo_template;
|}.

(** ** Running a method *)

Ltac unfold_m :=
  unfold mbind, M_bind, mret, M_ret, try_except, lift, raise, logger.

(** What a method returned, [d] if it raised. *)
Definition returned {A} (r : outcome A * World) (d : A) : A :=
  match r.1 with
  | Returns a => a
  | Raises _ => d
  end.

(** The line [get_top_convictions] logs when the ranking raises. *)
Definition is_conviction_error (line : level * string) : bool :=
  match line with
  | (ERROR, msg) => String.prefix "Error getting convictions: " msg
  | _ => false
  end.

(** How many times the ranking raised, read off the lines of a log. *)
Definition conviction_errors (lines : list (level * string)) : nat :=
  length (filter (λ line, is_conviction_error line = true) lines).

(** The ranking raises: the table is loaded and its column is not numeric. *)
Definition ranking_fails (self : Enhanced.t) : bool :=
  match Enhanced.convictions_df self with
  | Some df => negb (ytd_numeric df)
  | None => false
  end.

(** [w'] comes from [w] by logging only, and no logged line reports a failed
    ranking. *)
Definition only_logs (w w' : World) : Prop :=
  written w' = written w
  ∧ unfinished w' = unfinished w
  ∧ ∃ lines, log w' = log w ++ lines ∧ conviction_errors lines = 0.

(** ** Templates as the spec reads them

    The spec's [render] substitutes five named placeholders in a template
    made of literal text and placeholders. [render] below follows the spec's
    words; the theorems compare it with [generate_email], which hands the
    template text to [str.format]. *)

Inductive segment :=
| Text (text : string)
| Placeholder (name : string).

(** The five symbols the renderer substitutes. *)
Definition supported_placeholders : list string :=
  ["Name"; "YTD"; "SinceInception"; "Sharpe"; "Convictions"].

(** The template text of one segment. *)
Definition segment_source (seg : segment) : string :=
  match seg with
  | Text text => text
  | Placeholder name => "{" +:+ name +:+ "}"
  end.

(** The template text of a list of segments. *)
Definition template_of (segs : list segment) : string :=
  foldr (λ seg rest, segment_source seg +:+ rest) "" segs.

Fixpoint string_forall (P : ascii → bool) (s : string) : bool :=
  match s with
  | EmptyString => true
  | String c s' => P c && string_forall P s'
  end.

Definition is_brace (c : ascii) : bool :=
  bool_decide (c = "{" ∨ c = "}")%char.

Definition no_braces (s : string) : bool := string_forall (λ c, negb (is_brace c)) s.

(** A field name with none of the characters [str.format] gives a meaning
    to. *)
Definition plain_name (s : string) : bool :=
  string_forall (λ c, negb (is_brace c) && negb (starts_complex_field c)) s.

(** Literal text without braces, and the five placeholders only. *)
Definition plain_segment (seg : segment) : bool :=
  match seg with
  | Text text => no_braces text
  | Placeholder name => bool_decide (name ∈ supported_placeholders)
  end.

(** The value a metric placeholder receives: the metric's text, or the
    literal N/A when the record has no such key. *)
Definition metric_or_na (metrics : gmap string string) (key : string) : string :=
  match metrics !! key with
  | Some value => value
  | None => "N/A"
  end.

(** The record with the three metrics of the template made explicit. *)
Definition with_na (metrics : gmap string string) : gmap string string :=
  <["YTD" := metric_or_na metrics "YTD"]>
  (<["SinceInception" := metric_or_na metrics "SinceInception"]>
  (<["Sharpe" := metric_or_na metrics "Sharpe"]> metrics)).

(** The value each of the five placeholders receives. *)
Definition placeholder_value (client_name : string) (metrics : gmap string string)
    (convictions : string) (name : string) : string :=
  if decide (name = "Name") then client_name
  else if decide (name = "YTD") then metric_or_na metrics "YTD"
  else if decide (name = "SinceInception") then metric_or_na metrics "SinceInception"
  else if decide (name = "Sharpe") then metric_or_na metrics "Sharpe"
  else if decide (name = "Convictions") then convictions
  else "".

(** The spec's [render]: the literal text as it is, each placeholder
    replaced by its value. *)
Definition render (client_name : string) (metrics : gmap string string)
    (convictions : string) (segs : list segment) : string :=
  foldr (λ seg rest,
           match seg with
           | Text text => text
           | Placeholder name => placeholder_value client_name metrics convictions name
           end +:+ rest) "" segs.

(** The template is missing, or it names a placeholder outside the five
    after a part that renders. *)
Inductive template_mismatch (self : Enhanced.t) : Prop :=
| template_missing :
    Enhanced.email_template self = None ∨ Enhanced.email_template self = Some "" →
    template_mismatch self
| template_unknown_placeholder segs field rest :
    forallb plain_segment segs = true →
    plain_name field = true →
    field ∉ supported_placeholders →
    Enhanced.email_template self
      = Some (template_of segs +:+ "{" +:+ field +:+ "}" +:+ rest) →
    template_mismatch self.

(** ** The batch as a function of its sources *)

(** The metrics [parse_pdf_report] returns for a file. *)
Definition metrics_of (pdf : PdfFile) : gmap string string :=
  match pdf_pages pdf with
  | inl _ => sample_data
  | inr pages => extract_metrics (Enhanced.all_text pages)
  end.

(** What [generate_email] returns: a text, or [None]. *)
Definition email_value (host : Host) (self : Enhanced.t) (client_name : string)
    (metrics : gmap string string) (convictions : string) (use_ai : bool)
    : option string :=
  returned (Enhanced.generate_email host self client_name metrics convictions
              use_ai empty_world) None.

(** The text [generate_email] returns (the empty text stands for [None]). *)
Definition email_text (host : Host) (self : Enhanced.t) (client_name : string)
    (metrics : gmap string string) (convictions : string) (use_ai : bool) : string :=
  default "" (email_value host self client_name metrics convictions use_ai).

(** The text [get_top_convictions()] returns. *)
Definition convictions_text_of (host : Host) (self : Enhanced.t) : string :=
  returned (Enhanced.get_top_convictions host self None empty_world) "".

(** The email of a source, given the conviction text of the batch. *)
Definition email_of (host : Host) (self : Enhanced.t) (use_ai : bool)
    (convictions_text : string) (pdf : PdfFile) : string :=
  email_text host self (Enhanced.client_name_of pdf) (metrics_of pdf)
    convictions_text use_ai.

(** The file the email of a source is written to. *)
Definition path_of (host : Host) (pdf : PdfFile) : string :=
  Enhanced.output_path host (Enhanced.client_name_of pdf).

(** What [generate_email] returns for a source is a text. *)
Definition email_is_text (host : Host) (self : Enhanced.t) (use_ai : bool)
    (convictions_text : string) (pdf : PdfFile) : bool :=
  bool_decide (is_Some (email_value host self (Enhanced.client_name_of pdf)
                          (metrics_of pdf) convictions_text use_ai)).

(** The source is counted: metrics were found, its email is a text and the
    text was written. *)
Definition counted (host : Host) (self : Enhanced.t) (use_ai : bool)
    (convictions_text : string) (pdf : PdfFile) : bool :=
  bool_decide (metrics_of pdf ≠ ∅)
  && email_is_text host self use_ai convictions_text pdf
  && bool_decide (write_error host (path_of host pdf)
                    (email_of host self use_ai convictions_text pdf) = None).

(** The files a batch writes, in order. *)
Definition batch_written (host : Host) (self : Enhanced.t) (use_ai : bool)
    (convictions_text : string) (pdf_files : list PdfFile) : list (string * string) :=
  (λ pdf, (path_of host pdf, email_of host self use_ai convictions_text pdf))
  <$> filter (λ pdf, counted host self use_ai convictions_text pdf = true) pdf_files.

(** The error line of a file that cannot be read. *)
Definition parse_error_line (host : Host) (pdf : PdfFile) (e : exn) : level * string :=
  (ERROR, "Error parsing PDF " +:+ PDF_DIR host +:+ "/" +:+ pdf_name pdf
          +:+ ": " +:+ exn_str e).

(** ** A backend that cannot serve the request *)

(** The request cannot be served: no backend is configured, or the request
    raises, or the response has no choice to read the text from. *)
Definition ai_fails (self : Enhanced.t) (base_email client_name : string) : Prop :=
  match Enhanced.openai_client self with
  | None => True
  | Some client =>
      match client (Enhanced.chat_request base_email client_name) with
      | inl _ => True
      | inr response => choices response = []
      end
  end.

(** The backend answers, and the message of its first choice has no text:
    [response.choices[0].message.content] is [None]. *)
Definition ai_answers_without_text (self : Enhanced.t)
    (base_email client_name : string) : Prop :=
  match Enhanced.openai_client self with
  | None => False
  | Some client =>
      match client (Enhanced.chat_request base_email client_name) with
      | inl _ => False
      | inr response => head (choices response) = Some None
      end
  end.

(** ** The end of the percent patterns *)

(** The text starts with a minus sign. *)
Definition starts_with_minus (s : string) : Prop :=
  match s with
  | String c _ => c = "-"%char
  | EmptyString => False
  end.

(** What the patterns of the three percent metrics end with. *)
Definition digits_tail : regex :=
  rcat [RPlus CDigit; ROpt (RChar (CLit ".")); RStar CDigit].

(** The gap of non-digits, the number group and the percent sign. *)
Definition percent_tail : regex :=
  rcat [RStar CNotDigit; number_group; RChar (CLit "%")].

(** Where a match of the digits and the percent sign ends. *)
Definition percent_end (s : string) : option string :=
  rmatch digits_tail s None
    (λ s2 _, match s2 with
             | String a _ => if cmatch (CLit "%") a then Some s2 else None
             | EmptyString => None
             end).

(** The group and the percent sign, tried at [s] (the right-hand side of
    [number_group_percent]). *)
Definition group_at (s : string) : option (option string) :=
  match s with
  | String a s' =>
      if cmatch (CLit "-") a
      then (λ s2, Some (consumed s s2)) <$> percent_end s'
      else (λ s2, Some (consumed s s2)) <$> percent_end s
  | EmptyString => None
  end.

(** A pattern that ends with the gap, the group and the percent sign. *)
Inductive ends_with_percent_tail : regex → Prop :=
| ends_here : ends_with_percent_tail percent_tail
| ends_later r1 r2 : ends_with_percent_tail r2 → ends_with_percent_tail (RSeq r1 r2).

(** ** Generators and inputs of the examples *)

(** A generator whose table is loaded and has no row. *)
Definition empty_table_generator : Enhanced.t := {|
  Enhanced.openai_client := None;
  Enhanced.convictions_df := Some {| ytd_numeric := true; df_rows := [] |};
  Enhanced.email_template := Some demo_template;
|}.

(** A generator whose table could not be loaded. *)
Definition no_table_generator : Enhanced.t := {|
  Enhanced.openai_client := None;
  Enhanced.convictions_df := None;
  Enhanced.email_template := Some demo_template;
|}.

(** A backend whose every request fails. *)
Definition failing_client : Client := λ _, inl (Exception "Connection error.").

(** A generator with that backend configured. *)
Definition ai_generator : Enhanced.t := {|
  Enhanced.openai_client := Some failing_client;
  Enhanced.convictions_df := Some sample_df;
  Enhanced.email_template := Some demo_template;
|}.

(** A backend that answers every request with a message without text. *)
Definition silent_client : Client := λ _, inr {| choices := [None] |}.

(** A generator with that backend configured. *)
Definition silent_generator : Enhanced.t := {|
  Enhanced.openai_client := Some silent_client;
  Enhanced.convictions_df := Some sample_df;
  Enhanced.email_template := Some demo_template;
|}.

(** A report whose second page has a negative drawdown. *)
Definition drawdown_report : PdfFile := {|
  pdf_name := "emily_davis.pdf";
  pdf_pages := inr ["PERFORMANCE REPORT"; "RISK METRICS" +:+ LF +:+ "Max Drawdown: -5.2%"];
|}.

(** The template of the examples, segment by segment. *)
Definition demo_segments : list segment := [
  Text "Hi "; Placeholder "Name"; Text ("," +:+ LF +:+ "YTD return: ");
  Placeholder "YTD"; Text (LF +:+ "Since inception: ");
  Placeholder "SinceInception"; Text (LF +:+ "Sharpe: "); Placeholder "Sharpe";
  Text LF; Placeholder "Convictions"; Text LF
].

(** The sibling generator with the same table and template. *)
Definition basic_generator : Basic.t := {|
  Basic.convictions_df := Some sample_df;
  Basic.email_template := Some demo_template;
|}.

(** A record without the Sharpe ratio. *)
Definition metrics_without_sharpe : gmap string string :=
  <["YTD" := "8.5%"]> (<["SinceInception" := "12.3%"]> ∅).

(** A generator whose template names a placeholder the engine lacks. *)
Definition mismatched_generator : Enhanced.t := {|
  Enhanced.openai_client := None;
  Enhanced.convictions_df := Some sample_df;
  Enhanced.email_template := Some "Hi {Name}, your alpha is {Alpha}.";
|}.

(** A generator whose template file was absent. *)
Definition no_template_generator : Enhanced.t := {|
  Enhanced.openai_client := None;
  Enhanced.convictions_df := Some sample_df;
  Enhanced.email_template := None;
|}.

(** A template of doubled braces, and the text it renders to as a template. *)
Definition escaped_generator : Enhanced.t := {|
  Enhanced.openai_client := None;
  Enhanced.convictions_df := Some sample_df;
  Enhanced.email_template := Some "{{Name}}";
|}.

Definition rerender_generator : Enhanced.t := {|
  Enhanced.openai_client := None;
  Enhanced.convictions_df := Some sample_df;
  Enhanced.email_template := Some "{Name}";
|}.

(** A generator whose table has a column that is not numeric. *)
Definition object_column_generator : Enhanced.t := {|
  Enhanced.openai_client := None;
  Enhanced.convictions_df :=
    Some {| ytd_numeric := false; df_rows := sample_convictions |};
  Enhanced.email_template := Some demo_template;
|}.

(** ** The shape of a number a pattern extracts *)

(** The text starts with a decimal digit. *)
Definition starts_with_digit (s : string) : Prop :=
  match s with
  | String c _ => is_digit c = true
  | EmptyString => False
  end.

(** The text has no decimal digit. *)
Definition no_digit (s : string) : bool := string_forall (λ c, negb (is_digit c)) s.

(** The text is made of decimal digits. *)
Definition all_digits (s : string) : bool := string_forall is_digit s.

(** What stands behind the number group in the five patterns: the percent
    sign, or nothing. *)
Definition percent_next (s : string) : bool :=
  match s with
  | String a _ => cmatch (CLit "%") a
  | EmptyString => false
  end.

Definition anything_next (s : string) : bool := true.

(** Where a match of the digits ends, when what follows them passes [ok]. *)
Definition digits_end (ok : string → bool) (s : string) : option string :=
  rmatch digits_tail s None (λ s2 _, if ok s2 then Some s2 else None).

(** The number group tried at [s] and followed by [ok]: the group when it
    matches. *)
Definition number_at (ok : string → bool) (s : string) : option (option string) :=
  match s with
  | String a s' =>
      if cmatch (CLit "-") a
      then (λ s2, Some (consumed s s2)) <$> digits_end ok s'
      else (λ s2, Some (consumed s s2)) <$> digits_end ok s
  | EmptyString => None
  end.

(** The gap of non-digits and the number group, at the end of a pattern. *)
Definition plain_tail : regex := rcat [RStar CNotDigit; number_group].

(** A pattern that ends with the gap and the number group, with or without
    the percent sign: each of the five patterns does. *)
Inductive ends_with_number : regex → Prop :=
| number_then_percent : ends_with_number percent_tail
| number_last : ends_with_number plain_tail
| number_later r1 r2 : ends_with_number r2 → ends_with_number (RSeq r1 r2).

(** A pattern that cannot match without reading a decimal digit. *)
Inductive needs_digit : regex → Prop :=
| needs_digit_plus : needs_digit (RPlus CDigit)
| needs_digit_seq_l r1 r2 : needs_digit r1 → needs_digit (RSeq r1 r2)
| needs_digit_seq_r r1 r2 : needs_digit r2 → needs_digit (RSeq r1 r2)
| needs_digit_group r : needs_digit r → needs_digit (RGroup r).

(** A report of one page, with a metric on it. *)
Definition one_page_report : PdfFile := {|
  pdf_name := "lisa_martinez.pdf";
  pdf_pages := inr ["YTD Return: 8.5%"];
|}.

(** ** Labels and numbers in a report text *)

(** Two characters that differ in case at most: what a literal of a pattern
    matches under [re.IGNORECASE]. *)
Definition same_letter (a b : ascii) : bool := bool_decide (to_lower a = to_lower b).

(** [s] is [p], case ignored. *)
Fixpoint eq_ci (p s : string) : bool :=
  match p, s with
  | EmptyString, EmptyString => true
  | String a p', String b s' => same_letter a b && eq_ci p' s'
  | _, _ => false
  end.

(** [p] is a prefix of [s], case ignored. *)
Fixpoint prefix_ci (p s : string) : bool :=
  match p, s with
  | EmptyString, _ => true
  | String a p', String b s' => same_letter a b && prefix_ci p' s'
  | String _ _, EmptyString => false
  end.

(** [p] occurs in [s], case ignored. *)
Fixpoint occurs_ci (p s : string) : bool :=
  prefix_ci p s
  || match s with
     | String _ s' => occurs_ci p s'
     | EmptyString => false
     end.

(** A number as a report prints it: digits, and maybe a point and digits. *)
Definition decimal (int : string) (frac : option string) : string :=
  int +:+ from_option (λ f, "." +:+ f) "" frac.

(** The number ends where [t] starts: [t] does not go on with a digit, nor
    with a point when the number has none. *)
Definition number_stops (frac : option string) (t : string) : bool :=
  match t with
  | String a _ =>
      negb (is_digit a) && (bool_decide (is_Some frac) || negb (same_letter "." a))
  | EmptyString => true
  end.

(** ** The two generators side by side *)

(** A method that returns a text, read as one that returns a text or
    [None]. *)
Definition as_value (m : M string) : M (option string) :=
  text ← m; mret (Some text).

(** ** File names and client names *)

(** [str.lower()] *)
Fixpoint lower (s : string) : string :=
  match s with
  | EmptyString => ""
  | String c s' => String (to_lower c) (lower s')
  end.

(** Two reports in one directory whose names differ in case and in the
    underscore only. *)
Definition namesake_reports : list PdfFile := [
  {| pdf_name := "john_smith.pdf";
     pdf_pages := inr [""; "YTD Return: 5.5%"] |};
  {| pdf_name := "John Smith.pdf";
     pdf_pages := inr [""; "YTD Return: 9.1%"] |}
].

Definition namesake_host : Host := {|
  BASE_DIR := "PerformanceSystem";
  pdf_dir_exists := true;
  pdf_dir_glob := namesake_reports;
  write_error := λ _ _, None;
  write_leaves := λ _ _, None;
  open_error := λ _, None;
  repr_float := repr_decimal;
  format_tail := λ _ _, inl (ValueError "Invalid format specifier");
|}.

(** A host whose disk is full: a file can be created and no text written to
    it, the write raises when the file is closed and leaves the file empty. *)
Definition full_disk_host : Host := {|
  BASE_DIR := "PerformanceSystem";
  pdf_dir_exists := true;
  pdf_dir_glob := demo_reports;
  write_error := λ _ _, Some (OSError "[Errno 28] No space left on device");
  write_leaves := λ _ _, Some "";
  open_error := λ _, None;
  repr_float := repr_decimal;
  format_tail := λ _ _, inl (ValueError "Invalid format specifier");
|}.

(** ** Methods that assign to the attributes of [self]

    A constructor assigns to the attributes of the object one by one, inside
    a [try] block: what was assigned before an exception stays assigned. A
    method of this kind is a computation over the object and the world. *)

Definition Method (S A : Type) : Type := S → World → outcome A * S * World.

#[global] Instance Method_ret {S} : MRet (Method S) := λ A (a : A) self w,
  (Returns a, self, w).

#[global] Instance Method_bind {S} : MBind (Method S) :=
  λ A B (k : A → Method S B) (m : Method S A) self w,
  match m self w with
  | (Returns a, self', w') => k a self' w'
  | (Raises e, self', w') => (Raises e, self', w')
  end.

(** [try: body / except Exception as e: handler e] in such a method *)
Definition method_try {S A} (body : Method S A) (handler : exn → Method S A)
    : Method S A := λ self w,
  match body self w with
  | (Returns a, self', w') => (Returns a, self', w')
  | (Raises e, self', w') => handler e self' w'
  end.

(** A call that leaves the object alone. *)
Definition call {S A} (m : M A) : Method S A := λ self w,
  match m w with
  | (r, w') => (r, self, w')
  end.

(** An assignment to attributes of the object. *)
Definition assign {S} (f : S → S) : Method S unit := λ self w,
  (Returns tt, f self, w).

(** [for x in xs: body x] *)
Fixpoint for_each {S A} (xs : list A) (body : A → Method S unit) : Method S unit :=
  match xs with
  | [] => mret tt
  | x :: rest => body x;; for_each rest body
  end.

(** What a constructor finds outside the program: the environment variable,
    the client library, and the two files it loads. *)
Record Env := {
  (** [os.getenv("OPENAI_API_KEY")] *)
  OPENAI_API_KEY : option string;
  (** [OpenAI(api_key=key)] *)
  new_client : string → exn + Client;
  (** [CONVICTIONS_FILE.exists()] and [pd.read_excel] on the file found *)
  convictions_file_exists : bool;
  read_excel : exn + DataFrame;
  (** making the directory and writing the sample table with [to_excel]:
      [None] when it goes through; then [pd.read_excel] on the file written *)
  to_excel_error : option exn;
  read_excel_sample : exn + DataFrame;
  (** [TEMPLATE_FILE.exists()] and [open(TEMPLATE_FILE, 'r').read()] *)
  template_file_exists : bool;
  read_template : exn + string;
}.

Definition CONVICTIONS_FILE (host : Host) : string :=
  BASE_DIR host +:+ "/convictions/model_convictions.xlsx".
Definition TEMPLATE_FILE (host : Host) : string :=
  BASE_DIR host +:+ "/templates/email_template.txt".

(** [Config.validate] *)
Definition validate (host : Host) (env : Env) : list string :=
  let issues := [] in
  let issues :=
    if negb (template_file_exists env)
    then issues ++ ["Email template not found: " +:+ TEMPLATE_FILE host]
    else issues in
  let issues :=
    if bool_decide (OPENAI_API_KEY env = None)
    then issues ++ ["OPENAI_API_KEY environment variable not set"]
    else issues in
  issues.

(** ** The constructor of [EnhancedEmailGenerator] *)

Module EnhancedInit.
Section methods.
Context (host : Host) (env : Env).

Definition set_openai_client (client : Client) (self : Enhanced.t) : Enhanced.t := {|
  Enhanced.openai_client := Some client;
  Enhanced.convictions_df := Enhanced.convictions_df self;
  Enhanced.email_template := Enhanced.email_template self;
|}.

Definition set_convictions_df (df : DataFrame) (self : Enhanced.t) : Enhanced.t := {|
  Enhanced.openai_client := Enhanced.openai_client self;
  Enhanced.convictions_df := Some df;
  Enhanced.email_template := Enhanced.email_template self;
|}.

Definition set_email_template (template : string) (self : Enhanced.t) : Enhanced.t := {|
  Enhanced.openai_client := Enhanced.openai_client self;
  Enhanced.convictions_df := Enhanced.convictions_df self;
  Enhanced.email_template := Some template;
|}.

Definition _create_sample_convictions : Method Enhanced.t unit :=
  call (logger INFO "Creating sample convictions file...");;
  call (match to_excel_error env with
        | Some e => raise e
        | None => mret tt
        end);;
  call (logger INFO ("Sample convictions file created at " +:+ CONVICTIONS_FILE host)).

Definition _load_components : Method Enhanced.t unit :=
  method_try
    ((* Validate configuration *)
     let issues := validate host env in
     for_each issues (λ issue, call (logger WARNING issue));;
     (* Load convictions *)
     (if convictions_file_exists env then
        df ← call (lift (read_excel env));
        assign (set_convictions_df df);;
        call (logger INFO ("Loaded " +:+ pretty (length (df_rows df))
                           +:+ " conviction entries"))
      else
        _create_sample_convictions;;
        df ← call (lift (read_excel_sample env));
        assign (set_convictions_df df));;
     (* Load email template *)
     (if template_file_exists env then
        template ← call (lift (read_template env));
        assign (set_email_template template);;
        call (logger INFO "Email template loaded successfully")
      else mret tt))
    (λ e, call (logger ERROR ("Error loading components: " +:+ exn_str e))).

(** The object [__init__] starts from. *)
Definition blank : Enhanced.t := {|
  Enhanced.openai_client := None;
  Enhanced.convictions_df := None;
  Enhanced.email_template := None;
|}.

(** [__init__], run on the blank object. *)
Definition __init__ : Method Enhanced.t unit :=
  (match OPENAI_API_KEY env with
   | None | Some EmptyString =>
       call (logger WARNING "OpenAI API key not found. AI enhancement disabled.")
   | Some key =>
       client ← call (lift (new_client env key));
       assign (set_openai_client client);;
       call (logger INFO "OpenAI client initialized")
   end);;
  _load_components.

(** [EnhancedEmailGenerator()]: the object [__init__] leaves, or the
    exception it raises. *)
Definition new : M Enhanced.t := λ w,
  match __init__ blank w with
  | (Returns _, generator, w') => (Returns generator, w')
  | (Raises e, _, w') => (Raises e, w')
  end.
End methods.
End EnhancedInit.

(** The table the constructor ends up reading: the file found, or the
    sample file it writes when there is none. *)
Definition loaded_table (env : Env) : exn + DataFrame :=
  if convictions_file_exists env then read_excel env
  else match to_excel_error env with
       | Some e => inl e
       | None => read_excel_sample env
       end.

(** The exception that ends the loading, if any: of the table first, then
    of the template. *)
Definition load_error (env : Env) : option exn :=
  match loaded_table env with
  | inl e => Some e
  | inr _ =>
      if template_file_exists env then
        match read_template env with
        | inl e => Some e
        | inr _ => None
        end
      else None
  end.

(** An environment with an empty API key, a template, and a workbook that
    is not one. *)
Definition demo_env : Env := {|
  OPENAI_API_KEY := Some "";
  new_client := λ _, inr failing_client;
  convictions_file_exists := true;
  read_excel := inl (ValueError "Excel file format cannot be determined, you must specify an engine manually.");
  to_excel_error := None;
  read_excel_sample := inr sample_df;
  template_file_exists := true;
  read_template := inr demo_template;
|}.

(** ** Text functions of [simple_demo.py] *)

(** [s[n:]] *)
Fixpoint drop_chars (n : nat) (s : string) : string :=
  match n, s with
  | S n', String _ s' => drop_chars n' s'
  | _, _ => s
  end.

(** [sub in s] *)
Fixpoint str_contains (sub s : string) : bool :=
  String.prefix sub s
  || match s with
     | String _ s' => str_contains sub s'
     | EmptyString => false
     end.

(** [s.partition(sep)] when [sep] occurs in [s]: the text before its first
    occurrence and the text after it. *)
Fixpoint str_partition (sep s : string) : option (string * string) :=
  if String.prefix sep s then Some ("", drop_chars (String.length sep) s)
  else match s with
       | String c s' => prod_map (String c) id <$> str_partition sep s'
       | EmptyString => None
       end.

(** [s.split(sep)] for a separator that is not empty: the texts between the
    occurrences of [sep], found from left to right. Every occurrence takes
    at least one character, so the length of [s] bounds their number. *)
Fixpoint str_split_go (fuel : nat) (sep s : string) : list string :=
  match str_partition sep s with
  | Some (before, after) =>
      before :: match fuel with
                | S fuel' => str_split_go fuel' sep after
                | O => [after]
                end
  | None => [s]
  end.

Definition str_split (sep s : string) : list string :=
  str_split_go (String.length s) sep s.

(** [parts[i]] *)
Definition getitem (parts : list string) (i : nat) : exn + string :=
  match parts !! i with
  | Some part => inr part
  | None => inl (IndexError "list index out of range")
  end.

(** [s.split(sep, maxsplit)] *)
Definition str_split_max (sep : string) (maxsplit : nat) (s : string) : list string :=
  match maxsplit with
  | O => [s]
  | S fuel => str_split_go fuel sep s
  end.

(** [f.readlines()] on the text of a file: its lines, each with the line
    feed that ends it. *)
Fixpoint readlines_go (s cur : string) : list string :=
  match s with
  | EmptyString => if decide (cur = "") then [] else [cur]
  | String c s' =>
      if decide (c = "010"%char) then snoc cur c :: readlines_go s' ""
      else readlines_go s' (snoc cur c)
  end.

Definition readlines (s : string) : list string := readlines_go s "".

(** [s.lstrip(chars)], [s.rstrip(chars)] and [s.strip(chars)], where [chars]
    are the characters that pass [P] *)
Fixpoint lstrip_by (P : ascii → bool) (s : string) : string :=
  match s with
  | String c s' => if P c then lstrip_by P s' else s
  | EmptyString => ""
  end.

Fixpoint rstrip_by (P : ascii → bool) (s : string) : string :=
  match s with
  | String c s' =>
      match rstrip_by P s' with
      | EmptyString => if P c then "" else String c ""
      | r => String c r
      end
  | EmptyString => ""
  end.

Definition strip_by (P : ascii → bool) (s : string) : string :=
  rstrip_by P (lstrip_by P s).

(** [s.strip()]: white space is stripped. *)
Definition str_strip (s : string) : string := strip_by is_space s.

(** [s.strip(chars)] *)
Definition str_strip_chars (chars s : string) : string :=
  strip_by (λ c, has_char c chars) s.

(** ** [simple_demo.py] *)

(** A Python [float], as far as the demo uses it: a finite number (the
    rational it denotes; the two zeros are one), an infinity, or nan. *)
Inductive pyfloat :=
| Finite (q : Qc)
| Infinite (negative : bool)
| NaN.

#[global] Instance pyfloat_eq_dec : EqDecision pyfloat := ltac:(solve_decision).

(** [a < b] on floats: false when either of them is nan. *)
Definition float_lt (a b : pyfloat) : bool :=
  match a, b with
  | NaN, _ | _, NaN => false
  | Finite p, Finite q => bool_decide (p < q)%Qc
  | Finite _, Infinite negative => negb negative
  | Infinite negative, Finite _ => negative
  | Infinite negative1, Infinite negative2 => negative1 && negb negative2
  end.

(** The text an f-string gives for a float. *)
Definition float_text (host : Host) (x : pyfloat) : string :=
  match x with
  | Finite q => repr_float host q
  | Infinite false => "inf"
  | Infinite true => "-inf"
  | NaN => "nan"
  end.

(** A row of the table of the demo: the [dict] with the keys [Model],
    [YTD%] and [Commentary]. *)
Record DemoConviction := {
  demo_model : string;
  demo_ytd : pyfloat;
  demo_commentary : string;
}.

(** [convictions.sort(key=lambda x: x['YTD%'], reverse=True)] on keys that
    [<] orders, that is without nan: the rows in descending order of the
    key, rows with the same key in the order they had ([reverse] keeps the
    sort stable). The ordering is an insertion sort that puts a row before
    the rows of equal or smaller key that come after it in the list. *)
Fixpoint insert_by_ytd (x : DemoConviction) (l : list DemoConviction)
    : list DemoConviction :=
  match l with
  | [] => [x]
  | y :: l' =>
      if float_lt (demo_ytd x) (demo_ytd y) then y :: insert_by_ytd x l' else x :: l
  end.

Definition sort_by_ytd (l : list DemoConviction) : list DemoConviction :=
  foldr insert_by_ytd [] l.

(** What [simple_demo.py] finds in the working directory: the text of the
    template and of the table of convictions ([None] when the file does not
    exist, the exception when it cannot be read), the name and the text of
    each file [reports_pdfs/*.pdf], a text being what [f.read()] returns
    for the file; [float] on a text, which gives the float the text denotes
    (an infinity also for a number beyond the range, as [1e400]) or raises;
    and what [list.sort] leaves of rows with a nan among the keys, where
    [<] is no order and the place of a row depends on the comparisons the
    algorithm happens to make. *)
Record DemoFiles := {
  template_file : option (exn + string);
  conv_file : option (exn + string);
  report_files : list (string * (exn + string));
  py_float : string → exn + pyfloat;
  sort_with_nan : list DemoConviction → list DemoConviction;
}.

Module SimpleDemo.

#[local] Instance exn_ret : MRet (sum exn) := λ A (a : A), inr a.

#[local] Instance exn_bind : MBind (sum exn) := λ A B (k : A → exn + B) r,
  match r with
  | inl e => inl e
  | inr a => k a
  end.

Definition template_path : string := "templates/email_template.txt".
Definition conv_path : string := "convictions/model_convictions.csv".
Definition output_dir : string := "output/emails".

(** The double quote. *)
Definition quote : string := String "034" "".

Section load.
Context (files : DemoFiles).

(** The body of the loop over the lines of the table: the row of the line,
    [None] for a line with fewer than two commas. *)
Definition parse_row (line : string) : exn + option DemoConviction :=
  let parts := str_split_max "," 2 (str_strip line) in
  if decide (3 ≤ length parts) then
    model ← getitem parts 0;
    ytd_text ← getitem parts 1;
    ytd ← py_float files ytd_text;
    commentary ← getitem parts 2;
    mret (Some {| demo_model := model; demo_ytd := ytd;
                  demo_commentary := str_strip_chars quote commentary |})
  else mret None.

Fixpoint parse_rows (lines : list string) : exn + list DemoConviction :=
  match lines with
  | [] => mret []
  | line :: rest =>
      row ← parse_row line;
      convictions ← parse_rows rest;
      mret (match row with
            | Some conviction => conviction :: convictions
            | None => convictions
            end)
  end.

(** The sort of the rows by their return, descending. *)
Definition sort_convictions (convictions : list DemoConviction)
    : list DemoConviction :=
  if existsb (λ conviction, bool_decide (demo_ytd conviction = NaN)) convictions
  then sort_with_nan files convictions
  else sort_by_ytd convictions.

(** [load_convictions_csv], given what opening and reading the file gives. *)
Definition load_convictions_csv (csv : exn + string) : exn + list DemoConviction :=
  content ← csv;
  let lines := readlines content in
  headers ← getitem lines 0;
  convictions ← parse_rows (drop 1 lines);
  mret (sort_convictions convictions).
End load.

(** The body of the loop over the lines of a report. *)
Definition scan_line (metrics : gmap string string) (line : string)
    : exn + gmap string string :=
  if str_contains "YTD Return:" line then
    part ← getitem (str_split "YTD Return:" line) 1;
    mret (<["YTD" := str_strip part]> metrics)
  else if str_contains "Since Inception Return:" line then
    part ← getitem (str_split "Since Inception Return:" line) 1;
    mret (<["SinceInception" := str_strip part]> metrics)
  else if str_contains "Sharpe Ratio:" line then
    part ← getitem (str_split "Sharpe Ratio:" line) 1;
    mret (<["Sharpe" := str_strip part]> metrics)
  else mret metrics.

Fixpoint scan_lines (metrics : gmap string string) (lines : list string)
    : exn + gmap string string :=
  match lines with
  | [] => mret metrics
  | line :: rest =>
      metrics' ← scan_line metrics line;
      scan_lines metrics' rest
  end.

(** [extract_pdf_metrics], given what opening and reading the file gives:
    the exception, or the text. *)
Definition extract_pdf_metrics (file : exn + string) : exn + gmap string string :=
  content ← file;
  scan_lines ∅ (str_split LF content).

Section run.
Context (host : Host) (files : DemoFiles).

Definition client_name_of (name : string) : string :=
  title (replace_char "_" " " (stem name)).

Definition output_path (client_name : string) : string :=
  output_dir +:+ "/" +:+ client_name +:+ ".txt".

(** One line of the conviction text per row. *)
Definition conviction_line (conv : DemoConviction) : string :=
  "✅ " +:+ demo_model conv +:+ ": " +:+ float_text host (demo_ytd conv) +:+ "% — "
  +:+ demo_commentary conv.

(** The [try] block of the loop for one file: [true] when the file was
    counted, [false] when it was passed over with [continue]. *)
Definition process_report (email_template convictions_text : string)
    (pdf_path : string * (exn + string)) : M bool :=
  let client_name := client_name_of pdf_path.1 in
  metrics ← lift (extract_pdf_metrics pdf_path.2);
  if decide (metrics = ∅) then
    logger WARNING ("No metrics extracted for " +:+ client_name);;
    mret false
  else
    email_content ← lift (str_format (format_tail host)
                            (email_kwargs client_name metrics convictions_text)
                            email_template);
    write_file host (output_path client_name) email_content;;
    logger INFO ("✅ Generated email for " +:+ client_name);;
    mret true.

Definition loop_body (email_template convictions_text : string)
    (pdf_path : string * (exn + string)) : M bool :=
  try_except
    (process_report email_template convictions_text pdf_path)
    (λ e,
     logger ERROR ("Error processing " +:+ pdf_path.1 +:+ ": " +:+ exn_str e);;
     mret false).

Fixpoint process_loop (email_template convictions_text : string)
    (pdf_files : list (string * (exn + string))) (processed_count : nat) : M nat :=
  match pdf_files with
  | [] => mret processed_count
  | pdf_path :: rest =>
      counted ← loop_body email_template convictions_text pdf_path;
      process_loop email_template convictions_text rest
        (if counted : bool then S processed_count else processed_count)
  end.

(** [generate_emails]: the count and the output directory, [None] when the
    template or the table is missing. *)
Definition generate_emails : M (option (nat * string)) :=
  match template_file files with
  | None =>
      logger ERROR ("Email template not found: " +:+ template_path);;
      mret None
  | Some template_text =>
      email_template ← lift template_text;
      match conv_file files with
      | None =>
          logger ERROR ("Convictions file not found: " +:+ conv_path);;
          mret None
      | Some csv =>
          convictions ← lift (load_convictions_csv files csv);
          (* Get top 3 convictions for emails *)
          let top_convictions := take 3 convictions in
          let convictions_text := join LF (conviction_line <$> top_convictions) in
          let pdf_files := report_files files in
          logger INFO ("Processing " +:+ pretty (length pdf_files)
                       +:+ " PDF reports...");;
          processed_count ← process_loop email_template convictions_text pdf_files 0;
          logger INFO ("🎉 Successfully processed " +:+ pretty processed_count
                       +:+ " reports");;
          mret (Some (processed_count, output_dir))
      end
  end.
End run.

End SimpleDemo.

(** What the scan keeps: values under the three keys, stripped. *)
Definition scanned (metrics : gmap string string) : Prop :=
  ∀ key v, metrics !! key = Some v →
    key ∈ ["YTD"; "SinceInception"; "Sharpe"] ∧ str_strip v = v.

(** ** The batch run of [PerformanceEmailGenerator] *)

(** The clock and the working directory, for the summary report. *)
Record Clock := {
  (** [pd.Timestamp.now().strftime('%Y-%m-%d %H:%M:%S')] *)
  timestamp_now : string;
  (** the text of [path.absolute()] *)
  absolute : string → string;
}.

Module BasicBatch.
Section methods.
Context (host : Host) (clock : Clock) (self : Basic.t).

(** The metrics are simulated: the file is not opened. *)
Definition parse_report (pdf_path : PdfFile) : M (gmap string string) :=
  try_except
    (let sample_data := sample_data in
     logger INFO ("Parsed report for " +:+ pdf_name pdf_path);;
     mret sample_data)
    (λ e,
     logger ERROR ("Error parsing " +:+ PDF_DIR host +:+ "/" +:+ pdf_name pdf_path
                   +:+ ": " +:+ exn_str e);;
     mret ∅).

Definition sample_clients : list string := [
  "John_Smith.pdf";
  "Sarah_Johnson.pdf";
  "Michael_Brown.pdf";
  "Emily_Davis.pdf";
  "Robert_Wilson.pdf"
].

Fixpoint write_samples (client_files : list string) : M unit :=
  match client_files with
  | [] => mret tt
  | client_file :: rest =>
      write_file host (PDF_DIR host +:+ "/" +:+ client_file)
        ("Sample PDF placeholder for " +:+ client_file);;
      write_samples rest
  end.

(** The directory is made with the first file written to it. *)
Definition _create_sample_pdfs : M unit :=
  write_samples sample_clients;;
  logger INFO ("Created " +:+ pretty (length sample_clients)
               +:+ " sample PDF files for demonstration").

Definition summary (processed_count : nat) : string :=
  join LF [
    "";
    "Email Generation Summary Report";
    "Generated on: " +:+ timestamp_now clock;
    "";
    "📊 Processing Statistics:";
    "• Total emails generated: " +:+ pretty processed_count;
    "• Conviction models used: "
      +:+ pretty (match Basic.convictions_df self with
                  | Some df => length (df_rows df)
                  | None => 0
                  end);
    "• Output directory: " +:+ OUTPUT_DIR host;
    "";
    "📁 Files created in: " +:+ absolute clock (OUTPUT_DIR host);
    "";
    "🔄 Next Steps:";
    "1. Review generated emails in the output folder";
    "2. Add your actual PDF files to: " +:+ absolute clock (PDF_DIR host);
    "3. Update convictions data in: " +:+ absolute clock (CONVICTIONS_FILE host);
    "4. Customize email template in: " +:+ absolute clock (TEMPLATE_FILE host);
    "5. Set up OpenAI API key for advanced personalization";
    "        "
  ].

Definition summary_path : string := OUTPUT_DIR host +:+ "/generation_summary.txt".

Definition _generate_summary_report (processed_count : nat) : M unit :=
  write_file host summary_path (summary processed_count);;
  logger INFO ("Summary report saved to " +:+ summary_path).

(** The [try] block of the loop for one file: [true] when the file was
    counted, [false] when it was passed over with [continue]. *)
Definition process_report (convictions_text : string) (pdf_path : PdfFile) : M bool :=
  let client_name := Enhanced.client_name_of pdf_path in
  metrics ← parse_report pdf_path;
  if decide (metrics = ∅) then
    logger WARNING ("No metrics extracted for " +:+ client_name);;
    mret false
  else
    email_content ← Basic.generate_email host self client_name metrics convictions_text;
    write_file host (Enhanced.output_path host client_name) email_content;;
    logger INFO ("✅ Generated email for " +:+ client_name);;
    mret true.

Definition loop_body (convictions_text : string) (pdf_path : PdfFile) : M bool :=
  try_except
    (process_report convictions_text pdf_path)
    (λ e,
     logger ERROR ("Error processing " +:+ pdf_name pdf_path +:+ ": "
                   +:+ exn_str e);;
     mret false).

Fixpoint process_loop (convictions_text : string) (pdf_files : list PdfFile)
    (processed_count : nat) : M nat :=
  match pdf_files with
  | [] => mret processed_count
  | pdf_path :: rest =>
      counted ← loop_body convictions_text pdf_path;
      process_loop convictions_text rest
        (if counted : bool then S processed_count else processed_count)
  end.

Definition process_all_reports : M unit :=
  if negb (pdf_dir_exists host) then
    logger ERROR ("PDF directory not found: " +:+ PDF_DIR host);;
    _create_sample_pdfs
  else
    let pdf_files := pdf_dir_glob host in
    match pdf_files with
    | [] =>
        logger WARNING "No PDF files found. Creating sample structure...";;
        _create_sample_pdfs
    | _ =>
        logger INFO ("Processing " +:+ pretty (length pdf_files)
                     +:+ " PDF reports...");;
        (* Get convictions once for all emails *)
        convictions_text ← Basic.get_top_convictions host self 3;
        processed_count ← process_loop convictions_text pdf_files 0;
        logger INFO ("🎉 Successfully processed " +:+ pretty processed_count
                     +:+ " reports");;
        _generate_summary_report processed_count
    end.
End methods.
End BasicBatch.

(** The text [Basic.get_top_convictions(3)] returns. *)
Definition basic_convictions_text (host : Host) (self : Basic.t) : string :=
  returned (Basic.get_top_convictions host self 3 empty_world) "".

(** The email the generator without AI writes for a report: the record is
    the simulated one. *)
Definition basic_email (host : Host) (self : Basic.t) (pdf : PdfFile) : string :=
  returned (Basic.generate_email host self (Enhanced.client_name_of pdf) sample_data
              (basic_convictions_text host self) empty_world) "".

(** A clock for the examples. *)
Definition demo_clock : Clock := {|
  timestamp_now := "2025-01-31 09:00:00";
  absolute := λ path, "/srv/" +:+ path;
|}.

(** A host whose report directory is missing. *)
Definition fresh_host : Host := {|
  BASE_DIR := "PerformanceSystem";
  pdf_dir_exists := false;
  pdf_dir_glob := [];
  write_error := λ _ _, None;
  write_leaves := λ _ _, None;
  open_error := λ _, None;
  repr_float := repr_decimal;
  format_tail := λ _ _, inl (ValueError "Invalid format specifier");
|}.

(** ** The template of the repository *)

(** The template [create_sample_data] of [setup_demo.py] writes to
    [templates/email_template.txt]. *)
Definition template_content : string :=
  join LF [
    "Hi {Name},";
    "";
    "I hope this message finds you well. Here's your portfolio performance update:";
    "";
    "📊 **Portfolio Performance Summary:**";
    "• YTD return: {YTD}";
    "• Cumulative since inception: {SinceInception}";
    "• Current Sharpe Ratio: {Sharpe}";
    "";
    "🎯 **Our Highest Conviction Views Driving This Strategy:**";
    "{Convictions}";
    "";
    "📈 **Market Commentary:**";
    "Your portfolio continues to benefit from our strategic positioning across our core conviction themes. The performance metrics above reflect our disciplined approach to risk management while capitalizing on market opportunities that align with our investment philosophy.";
    "";
    "The current market environment presents both challenges and opportunities. We remain focused on quality companies with strong fundamentals and are well-positioned for the evolving economic landscape.";
    "";
    "📋 **Next Steps:**";
    "I've attached your full performance report with detailed breakdowns of holdings, allocations, and risk metrics. Please review at your convenience, and let me know if you'd like to schedule a call to discuss:";
    "";
    "• Portfolio positioning and any adjustments";
    "• Market outlook and investment strategy";
    "• Any questions about your investment goals";
    "";
    "As always, I'm here to help guide your investment journey and ensure your portfolio remains aligned with your objectives.";
    "";
    "Best regards,";
    "[Your Name]";
    "[Your Title]";
    "[Contact Information]";
    "";
    "---";
    "This email was generated using our automated performance reporting system.";
    ""
  ].

(** The same template, cut at its placeholders. *)
Definition template_segments : list segment := [
  Text "Hi ";
  Placeholder "Name";
  Text (join LF [
    ",";
    "";
    "I hope this message finds you well. Here's your portfolio performance update:";
    "";
    "📊 **Portfolio Performance Summary:**";
    "• YTD return: "]);
  Placeholder "YTD";
  Text (join LF [
    "";
    "• Cumulative since inception: "]);
  Placeholder "SinceInception";
  Text (join LF [
    "";
    "• Current Sharpe Ratio: "]);
  Placeholder "Sharpe";
  Text (join LF [
    "";
    "";
    "🎯 **Our Highest Conviction Views Driving This Strategy:**";
    ""]);
  Placeholder "Convictions";
  Text (join LF [
    "";
    "";
    "📈 **Market Commentary:**";
    "Your portfolio continues to benefit from our strategic positioning across our core conviction themes. The performance metrics above reflect our disciplined approach to risk management while capitalizing on market opportunities that align with our investment philosophy.";
    "";
    "The current market environment presents both challenges and opportunities. We remain focused on quality companies with strong fundamentals and are well-positioned for the evolving economic landscape.";
    "";
    "📋 **Next Steps:**";
    "I've attached your full performance report with detailed breakdowns of holdings, allocations, and risk metrics. Please review at your convenience, and let me know if you'd like to schedule a call to discuss:";
    "";
    "• Portfolio positioning and any adjustments";
    "• Market outlook and investment strategy";
    "• Any questions about your investment goals";
    "";
    "As always, I'm here to help guide your investment journey and ensure your portfolio remains aligned with your objectives.";
    "";
    "Best regards,";
    "[Your Name]";
    "[Your Title]";
    "[Contact Information]";
    "";
    "---";
    "This email was generated using our automated performance reporting system.";
    ""])
].

(** Generators loaded with that template. *)
Definition shipped_generator : Enhanced.t := {|
  Enhanced.openai_client := None;
  Enhanced.convictions_df := Some sample_df;
  Enhanced.email_template := Some template_content;
|}.

Definition shipped_basic_generator : Basic.t := {|
  Basic.convictions_df := Some sample_df;
  Basic.email_template := Some template_content;
|}.

Ltac unfold_exn :=
  unfold mbind, SimpleDemo.exn_bind, mret, SimpleDemo.exn_ret.

(** ** The run of the demo as a function of its reports *)

(** How the turn of the loop for a report ends: with the exception the
    [except] clause catches, with no metrics, or with the file written. *)
Definition demo_turn (host : Host) (email_template convictions_text : string)
    (pdf : string * (exn + string)) : exn + option (string * string) :=
  match SimpleDemo.extract_pdf_metrics pdf.2 with
  | inl e => inl e
  | inr metrics =>
      if decide (metrics = ∅) then inr None
      else
        let client_name := SimpleDemo.client_name_of pdf.1 in
        match str_format (format_tail host)
                (email_kwargs client_name metrics convictions_text) email_template with
        | inl e => inl e
        | inr email_content =>
            match write_error host (SimpleDemo.output_path client_name) email_content with
            | Some e => inl e
            | None => inr (Some (SimpleDemo.output_path client_name, email_content))
            end
        end
  end.

(** The line the turn logs. *)
Definition demo_turn_line (pdf : string * (exn + string))
    (turn : exn + option (string * string)) : level * string :=
  match turn with
  | inl e => (ERROR, "Error processing " +:+ pdf.1 +:+ ": " +:+ exn_str e)
  | inr None => (WARNING, "No metrics extracted for " +:+ SimpleDemo.client_name_of pdf.1)
  | inr (Some _) => (INFO, "✅ Generated email for " +:+ SimpleDemo.client_name_of pdf.1)
  end.

(** The file the turn writes, if any. *)
Definition demo_turn_file (turn : exn + option (string * string))
    : option (string * string) :=
  match turn with
  | inr (Some file) => Some file
  | _ => None
  end.

(** The files of a batch, and the lines of its turns. *)
Definition demo_files (host : Host) (email_template convictions_text : string)
    (pdf_files : list (string * (exn + string))) : list (string * string) :=
  omap (λ pdf, demo_turn_file (demo_turn host email_template convictions_text pdf))
       pdf_files.

Definition demo_lines (host : Host) (email_template convictions_text : string)
    (pdf_files : list (string * (exn + string))) : list (level * string) :=
  (λ pdf, demo_turn_line pdf (demo_turn host email_template convictions_text pdf))
  <$> pdf_files.

(** The conviction text of the demo: the first three rows of the sorted
    table. *)
Definition demo_convictions_text (host : Host) (convictions : list DemoConviction)
    : string :=
  join LF (SimpleDemo.conviction_line host <$> take 3 convictions).

(** The working directory of the examples: a template with a placeholder
    the demo does not fill, a table, and a report with a labelled line. *)
Definition mismatched_files : DemoFiles := {|
  template_file := Some (inr "Hi {Name}, your alpha is {Alpha}.");
  conv_file := Some (inr ("Model,YTD%,Commentary" +:+ LF));
  report_files := [("John_Smith.pdf", inr "YTD Return: 5.5%")];
  py_float := λ _, inl (ValueError "could not convert string to float");
  sort_with_nan := id;
|}.

(** ** The table of convictions as a text *)

(** A row as [create_sample_structure] writes it: the model, the return as
    a text, the commentary in double quotes, and the end of the line. *)
Definition csv_row (row : DemoConviction * string) : string :=
  demo_model row.1 +:+ "," +:+ row.2 +:+ ","
  +:+ SimpleDemo.quote +:+ demo_commentary row.1 +:+ SimpleDemo.quote +:+ LF.

Definition csv_text (header : string) (rows : list (DemoConviction * string))
    : string :=
  header +:+ LF +:+ foldr (λ row rest, csv_row row +:+ rest) "" rows.

(** A row that the text keeps apart from the others: no comma in the model
    and in the return, no end of line in any field, no white space before
    the model, no double quote at the ends of the commentary; the text of
    the return denotes the return, which is not nan. *)
Definition csv_safe (files : DemoFiles) (row : DemoConviction * string) : Prop :=
  has_char "," (demo_model row.1) = false
  ∧ has_char "010" (demo_model row.1) = false
  ∧ lstrip_by is_space (demo_model row.1) = demo_model row.1
  ∧ has_char "," row.2 = false
  ∧ has_char "010" row.2 = false
  ∧ has_char "010" (demo_commentary row.1) = false
  ∧ str_strip_chars SimpleDemo.quote (demo_commentary row.1) = demo_commentary row.1
  ∧ py_float files row.2 = inr (demo_ytd row.1)
  ∧ demo_ytd row.1 ≠ NaN.

(** Rows of the sample table, with a comma in a commentary, a tie and a
    return beyond the range of the floats. *)
Definition sample_rows : list (DemoConviction * string) := [
  ({| demo_model := "Fixed Income Core"; demo_ytd := Finite (Q2Qc 4.1);
      demo_commentary := "Stable returns providing portfolio ballast" |}, "4.1");
  ({| demo_model := "Emerging Markets"; demo_ytd := Finite (Q2Qc 12.5);
      demo_commentary := "Temporary headwinds, positioned for recovery" |}, "12.5");
  ({| demo_model := "Commodities & Energy"; demo_ytd := Infinite false;
      demo_commentary := "Energy transition themes" |}, "1e400");
  ({| demo_model := "Technology Sector Focus"; demo_ytd := Finite (Q2Qc 12.5);
      demo_commentary := "AI and cloud infrastructure investments" |}, "12.5")
].

(** A [float] for the examples: the texts of the sample rows. *)
Definition sample_files : DemoFiles := {|
  template_file := Some (inr demo_template);
  conv_file := Some (inr (csv_text "Model,YTD%,Commentary" sample_rows));
  report_files := [("John_Smith.pdf", inr "YTD Return: 5.5%")];
  py_float := λ text,
    if decide (text = "4.1") then inr (Finite (Q2Qc 4.1))
    else if decide (text = "12.5") then inr (Finite (Q2Qc 12.5))
    else if decide (text = "1e400") then inr (Infinite false)
    else if decide (text = "nan") then inr NaN
    else inl (ValueError ("could not convert string to float: " +:+ py_repr text));
  sort_with_nan := id;
|}.

(** [a] has no smaller return than [b]. *)
Definition no_smaller_return (a b : DemoConviction) : Prop :=
  float_lt (demo_ytd a) (demo_ytd b) = false.

(** The case analysis of [_load_components]: which of its steps raises. *)
Ltac load_components_cases env :=
  unfold EnhancedInit._create_sample_convictions;
  destruct (convictions_file_exists env);
    [destruct (read_excel env) as [?e1|?df]
    |destruct (to_excel_error env) as [?e0|];
       [|destruct (read_excel_sample env) as [?e1|?df]]];
    simpl;
    try (destruct (template_file_exists env);
           [destruct (read_template env) as [?e2|?template]|]; simpl).

(** * Theorems *)

(** ** Facts about the ranking *)

Lemma insert_desc_Permutation x l : insert_desc x l ≡ₚ x :: l.
Proof.
  induction l as [|y l IH]; simpl; [done|].
  case_decide; [|done].
  rewrite IH. apply Permutation_swap.
Qed.

Lemma sort_desc_Permutation l : sort_desc l ≡ₚ l.
Proof.
  induction l as [|x l IH]; simpl; [done|].
  by rewrite insert_desc_Permutation, IH.
Qed.

Lemma outranks_later (x y : labelled) :
  ¬ (YTD x.2 < YTD y.2)%Qc → x.1 < y.1 → outranks x y.
Proof.
  intros Hnlt Hlab. apply Qcle_ngt in Hnlt.
  destruct (Qcle_lt_or_eq _ _ Hnlt) as [?|Heq]; [by left|right; done].
Qed.

Lemma outranks_below (x y z : labelled) :
  ¬ (YTD x.2 < YTD y.2)%Qc → outranks y z → x.1 < z.1 → outranks x z.
Proof.
  intros Hnlt Hyz Hlab. apply outranks_later; [|done].
  intros Hlt. apply Hnlt. destruct Hyz as [Hzy|[Heq _]].
  - by etrans.
  - by rewrite Heq.
Qed.

Lemma insert_desc_sorted x l :
  StronglySorted outranks l →
  Forall (λ y, x.1 < y.1) l →
  StronglySorted outranks (insert_desc x l).
Proof.
  induction 1 as [|y l Hl IH Hy]; intros Hx; simpl.
  { repeat constructor. }
  apply Forall_cons in Hx as [Hxy Hxl].
  case_decide as Hlt.
  - constructor; [by apply IH|].
    rewrite insert_desc_Permutation. constructor; [by left|done].
  - constructor; [by constructor|].
    constructor; [by apply outranks_later|].
    apply Forall_forall. intros z Hz.
    apply outranks_below with y; [done| |].
    + by eapply Forall_forall in Hy.
    + by eapply Forall_forall in Hxl.
Qed.

Lemma sort_desc_sorted l :
  StronglySorted (λ a b : labelled, a.1 < b.1) l →
  StronglySorted outranks (sort_desc l).
Proof.
  induction 1 as [|x l Hl IH Hx]; simpl; [constructor|].
  apply insert_desc_sorted; [done|].
  by rewrite sort_desc_Permutation.
Qed.

Lemma label_rows_from_sorted (rows : list ConvictionEntry) k :
  StronglySorted (λ a b : labelled, a.1 < b.1) (zip (seq k (length rows)) rows).
Proof.
  revert k. induction rows as [|r rows IH]; intros k; simpl; [constructor|].
  constructor; [apply IH|].
  apply Forall_forall. intros [i e] Hin; simpl.
  apply elem_of_zip_l in Hin. apply elem_of_seq in Hin. lia.
Qed.

Lemma label_rows_lookup (rows : list ConvictionEntry) i e :
  (i, e) ∈ label_rows rows ↔ rows !! i = Some e.
Proof.
  unfold label_rows. rewrite elem_of_lookup_zip_with. split.
  - intros (j & a & b & [= -> ->] & Hj & Hb).
    apply lookup_seq in Hj as [-> _]. done.
  - intros Hi. exists i, i, e. split; [done|]. split; [|done].
    apply lookup_seq. split; [done|]. by eapply lookup_lt_Some.
Qed.

Lemma nlargest_rows_length n rows :
  length (nlargest_rows n rows) = Z.to_nat n `min` length rows.
Proof.
  unfold nlargest_rows. case_decide as Hn; simpl.
  - replace (Z.to_nat n) with 0 by lia. done.
  - rewrite length_take, (Permutation_length (sort_desc_Permutation _)).
    unfold label_rows. rewrite length_zip_with, length_seq. lia.
Qed.

Lemma nlargest_rows_sorted n rows : StronglySorted outranks (nlargest_rows n rows).
Proof.
  unfold nlargest_rows. case_decide; [constructor|].
  eapply StronglySorted_app_1_l. rewrite take_drop.
  apply sort_desc_sorted, label_rows_from_sorted.
Qed.

Lemma nlargest_rows_from_table n rows i e :
  (i, e) ∈ nlargest_rows n rows → rows !! i = Some e.
Proof.
  unfold nlargest_rows. case_decide; [by intros ?%elem_of_nil|].
  intros Hin%subseteq_take.
  rewrite sort_desc_Permutation in Hin. by apply label_rows_lookup.
Qed.

Lemma nlargest_rows_top n rows i e p :
  rows !! i = Some e → (i, e) ∉ nlargest_rows n rows →
  p ∈ nlargest_rows n rows → outranks p (i, e).
Proof.
  unfold nlargest_rows. case_decide; [by intros _ _ ?%elem_of_nil|].
  intros Hi Hout Hp.
  pose proof (sort_desc_sorted _ (label_rows_from_sorted rows 0)) as Hs.
  fold (label_rows rows) in Hs.
  rewrite <-(take_drop (Z.to_nat n)) in Hs.
  eapply StronglySorted_app_1_elem_of; [done..|].
  apply label_rows_lookup in Hi. rewrite <-sort_desc_Permutation in Hi.
  rewrite <-(take_drop (Z.to_nat n) (sort_desc _)) in Hi.
  apply elem_of_app in Hi as [?|?]; done.
Qed.

(** ** The default of [n] *)

Lemma n_or_default_nonzero n : n ≠ 0%Z → Enhanced.n_or_default (Some n) = n.
Proof. intros Hn. unfold Enhanced.n_or_default. by case_decide. Qed.

Lemma get_top_convictions_loaded host self df n w :
  Enhanced.convictions_df self = Some df →
  ytd_numeric df = true →
  Enhanced.get_top_convictions host self n w
  = (Returns (conv_text host (nlargest_rows (Enhanced.n_or_default n) (df_rows df))), w).
Proof.
  intros Hdf Hnum. unfold Enhanced.get_top_convictions, nlargest.
  rewrite Hdf, Hnum. done.
Qed.

Lemma join_cons_ne_empty sep p rest : p ≠ "" → join sep (p :: rest) ≠ "".
Proof.
  intros Hp. destruct p as [|c p]; [done|]. by destruct rest.
Qed.

Lemma conv_text_ne_empty host top_convs : top_convs ≠ [] → conv_text host top_convs ≠ "".
Proof.
  intros Hne. destruct top_convs as [|[i row] rest]; [done|].
  unfold conv_text. simpl. by apply join_cons_ne_empty.
Qed.

Lemma nlargest_rows_ne_nil n rows : (0 < n)%Z → rows ≠ [] → nlargest_rows n rows ≠ [].
Proof.
  intros Hn Hrows Hnil. pose proof (nlargest_rows_length n rows) as Hlen.
  rewrite Hnil in Hlen. destruct rows; [done|]. simpl in Hlen. lia.
Qed.

(** The sibling generator passes [n] on as it is: for [n = 0] no row is
    selected and the text is empty. *)
Lemma Basic_get_top_convictions_zero host (self : Basic.t) df w :
  Basic.convictions_df self = Some df →
  ytd_numeric df = true →
  Basic.get_top_convictions host self 0 w = (Returns "", w).
Proof.
  intros Hdf Hnum. unfold Basic.get_top_convictions, nlargest.
  by rewrite Hdf, Hnum.
Qed.

(** ** C1: the ranking *)

(** The ranking the claim C1 describes, for every [n] but 0. For every
    loaded table with a numeric [YTD%] column and
    every [n] other than 0, [get_top_convictions] formats the rows
    [nlargest] selects, and these are the [n] rows with the largest return
    (all rows when the table has fewer, none when [n] is negative): they are
    rows of the table at their own labels, they stand in descending order of
    return with equal returns in table order, and each of them is ranked
    before every row left out. On the sample table, whose returns are
    15.2, 8.3, 12.5, 4.1, -2.1, 9.7, 6.8, 11.3, the selection for [n = 3]
    has the returns 15.2, 12.5, 11.3 in that order. *)
Theorem C1_top_convictions_ranked (host : Host) (self : Enhanced.t)
    (df : DataFrame) (n : Z) (w : World) :
  Enhanced.convictions_df self = Some df →
  ytd_numeric df = true →
  n ≠ 0%Z →
  let top_convs := nlargest_rows n (df_rows df) in
  Enhanced.get_top_convictions host self (Some n) w
    = (Returns (conv_text host top_convs), w)
  ∧ length top_convs = Z.to_nat n `min` length (df_rows df)
  ∧ (∀ i e, (i, e) ∈ top_convs → df_rows df !! i = Some e)
  ∧ StronglySorted outranks top_convs
  ∧ (∀ i e p, df_rows df !! i = Some e → (i, e) ∉ top_convs →
              p ∈ top_convs → outranks p (i, e))
  ∧ YTD <$> sample_convictions
    = Q2Qc <$> [15.2; 8.3; 12.5; 4.1; -2.1; 9.7; 6.8; 11.3]%Q
  ∧ YTD <$> (nlargest_rows 3 sample_convictions).*2
    = Q2Qc <$> [15.2; 12.5; 11.3]%Q.
Proof.
  intros Hdf Hnum Hn top_convs. split_and!.
  - rewrite (get_top_convictions_loaded host self df) by done.
    by rewrite n_or_default_nonzero.
  - apply nlargest_rows_length.
  - apply nlargest_rows_from_table.
  - apply nlargest_rows_sorted.
  - apply nlargest_rows_top.
  - vm_compute. reflexivity.
  - vm_compute. reflexivity.
Qed.

(** The ranking at the sample table with [n = 3]. *)
Lemma C1_top_convictions_ranked_witness :
  Enhanced.convictions_df demo_generator = Some sample_df
  ∧ ytd_numeric sample_df = true
  ∧ 3%Z ≠ 0%Z
  ∧ Enhanced.get_top_convictions demo_host demo_generator (Some 3%Z) empty_world
    = (Returns (conv_text demo_host (nlargest_rows 3 (df_rows sample_df))), empty_world).
Proof.
  split; [reflexivity|]. split; [reflexivity|]. split; [discriminate|].
  apply (C1_top_convictions_ranked demo_host demo_generator sample_df 3 empty_world);
    [reflexivity|reflexivity|discriminate].
Defined.

(** C1 fails on the code at [n = 0]. On a loaded table with a numeric
    column, [get_top_convictions(0)] does not select the 0 entries with the
    largest return, which are none: [n or MAX_CONVICTIONS] puts 3 in the
    place of the 0, and the text of the three best rows (of all rows when
    the table has fewer) is returned, not empty when the table has a row.
    The sibling generator, with the same table and the same [n = 0],
    selects no row and returns the empty text. *)
Theorem C1_zero_selects_three_rows (host : Host) (self : Enhanced.t)
    (basic : Basic.t) (df : DataFrame) (w : World) :
  Enhanced.convictions_df self = Some df →
  Basic.convictions_df basic = Some df →
  ytd_numeric df = true →
  let selected := nlargest_rows 3 (df_rows df) in
  Enhanced.get_top_convictions host self (Some 0%Z) w
    = (Returns (conv_text host selected), w)
  ∧ length selected = 3 `min` length (df_rows df)
  ∧ nlargest_rows 0 (df_rows df) = []
  ∧ Basic.get_top_convictions host basic 0 w = (Returns "", w)
  ∧ (df_rows df ≠ [] → selected ≠ [] ∧ conv_text host selected ≠ "").
Proof.
  intros Hdf Hbasic Hnum selected. split_and!.
  - by rewrite (get_top_convictions_loaded host self df).
  - apply nlargest_rows_length.
  - done.
  - by apply (Basic_get_top_convictions_zero host basic df).
  - intros Hrows.
    assert (selected ≠ []) as Hne by (by apply nlargest_rows_ne_nil).
    split; [done|]. by apply conv_text_ne_empty.
Qed.

(** C1's failure at the sample table: three rows where the claim asks for
    none. *)
Lemma C1_zero_selects_three_rows_witness :
  Enhanced.convictions_df demo_generator = Some sample_df
  ∧ Basic.convictions_df basic_generator = Some sample_df
  ∧ ytd_numeric sample_df = true
  ∧ Enhanced.get_top_convictions demo_host demo_generator (Some 0%Z) empty_world
    = (Returns (conv_text demo_host (nlargest_rows 3 (df_rows sample_df))), empty_world)
  ∧ length (nlargest_rows 3 (df_rows sample_df)) = 3
  ∧ length (nlargest_rows 0 (df_rows sample_df)) = 0.
Proof.
  split; [reflexivity|]. split; [reflexivity|]. split; [reflexivity|].
  destruct (C1_zero_selects_three_rows demo_host demo_generator basic_generator
              sample_df empty_world) as (Hrun & Hlen & Hzero & _);
    [reflexivity..|].
  split; [exact Hrun|]. split; [exact Hlen|]. by rewrite Hzero.
Defined.

(** ** C10: [n = 0] in the enhanced generator *)

(** C10, as amended. In the enhanced generator, on a loaded table with a
    numeric column and at least one row, [get_top_convictions(0)] returns
    what the call with [n] left unset returns: the formatted text of the
    three best rows (3 is [MAX_CONVICTIONS]; all rows when the table has
    fewer), and this text is not empty. *)
Theorem C10_zero_is_treated_as_unset (host : Host) (self : Enhanced.t)
    (df : DataFrame) (w : World) :
  Enhanced.convictions_df self = Some df →
  ytd_numeric df = true →
  df_rows df ≠ [] →
  let top3 := conv_text host (nlargest_rows MAX_CONVICTIONS (df_rows df)) in
  MAX_CONVICTIONS = 3%Z
  ∧ Enhanced.get_top_convictions host self (Some 0%Z) w = (Returns top3, w)
  ∧ Enhanced.get_top_convictions host self (Some 0%Z) w
    = Enhanced.get_top_convictions host self None w
  ∧ top3 ≠ ""
  ∧ top3 ≠ conv_text host (nlargest_rows 0 (df_rows df)).
Proof.
  intros Hdf Hnum Hrows top3.
  assert (top3 ≠ "") as Hne.
  { apply conv_text_ne_empty, nlargest_rows_ne_nil; done. }
  split_and!.
  - reflexivity.
  - by rewrite (get_top_convictions_loaded host self df).
  - by rewrite !(get_top_convictions_loaded host self df).
  - exact Hne.
  - exact Hne.
Qed.

(** The amended C10 at the sample table. *)
Lemma C10_zero_is_treated_as_unset_witness :
  Enhanced.convictions_df demo_generator = Some sample_df
  ∧ ytd_numeric sample_df = true
  ∧ df_rows sample_df ≠ []
  ∧ Enhanced.get_top_convictions demo_host demo_generator (Some 0%Z) empty_world
    = (Returns (conv_text demo_host (nlargest_rows 3 (df_rows sample_df))), empty_world).
Proof.
  split; [reflexivity|]. split; [reflexivity|]. split; [discriminate|].
  apply (C10_zero_is_treated_as_unset demo_host demo_generator sample_df empty_world);
    [reflexivity|reflexivity|discriminate].
Defined.

(** C10 as stated fails: with [n = 0], a loaded table without rows gives
    the empty text, a generator without a table the placeholder, and a table
    whose column is not numeric the text of the [except] clause; none of
    them is the text of three rows. *)
Lemma C10_counterexample_nothing_to_rank :
  Enhanced.get_top_convictions demo_host empty_table_generator (Some 0%Z) empty_world
    = (Returns "", empty_world)
  ∧ Enhanced.get_top_convictions demo_host no_table_generator (Some 0%Z) empty_world
    = (Returns "Conviction data not available", empty_world)
  ∧ (Enhanced.get_top_convictions demo_host object_column_generator (Some 0%Z)
       empty_world).1
    = Returns "Error retrieving conviction data".
Proof. split_and!; vm_compute; reflexivity. Qed.

(** ** C6: the empty table *)

(** C6, as amended. When the table is loaded and has no row, [nlargest]
    selects nothing and the conviction text is the empty string (the text
    of the [except] clause when the empty column is not numeric); the
    placeholder is returned when no table is loaded, and only then. *)
Theorem C6_empty_table_gives_empty_text (host : Host) (self : Enhanced.t)
    (df : DataFrame) (n : option Z) (w : World) :
  Enhanced.convictions_df self = Some df →
  df_rows df = [] →
  nlargest_rows (Enhanced.n_or_default n) (df_rows df) = []
  ∧ (ytd_numeric df = true →
     Enhanced.get_top_convictions host self n w = (Returns "", w))
  ∧ (ytd_numeric df = false →
     (Enhanced.get_top_convictions host self n w).1
     = Returns "Error retrieving conviction data")
  ∧ (Enhanced.get_top_convictions host self n w).1
    ≠ Returns "Conviction data not available"
  ∧ (∀ self' : Enhanced.t,
       Enhanced.convictions_df self' = None ↔
       (Enhanced.get_top_convictions host self' n w).1
       = Returns "Conviction data not available").
Proof.
  intros Hdf Hrows.
  assert (nlargest_rows (Enhanced.n_or_default n) (df_rows df) = []) as Hnil.
  { rewrite Hrows. unfold nlargest_rows. case_decide; [done|]. by destruct (Z.to_nat _). }
  assert (∀ self' df', Enhanced.convictions_df self' = Some df' →
            (Enhanced.get_top_convictions host self' n w).1
            ≠ Returns "Conviction data not available") as Hloaded.
  { intros self' df' Hdf'. unfold Enhanced.get_top_convictions, nlargest.
    rewrite Hdf'. destruct (ytd_numeric df'); unfold_m; simpl.
    2: { intros [=]. }
    intros [= Heq]. revert Heq. unfold conv_text.
    destruct (nlargest_rows _ (df_rows df')) as [|[i row] rest]; simpl; [discriminate|].
    destruct rest; simpl; discriminate. }
  split_and!.
  - done.
  - intros Hnum. rewrite (get_top_convictions_loaded host self df) by done.
    by rewrite Hnil.
  - intros Hnum. unfold Enhanced.get_top_convictions, nlargest.
    by rewrite Hdf, Hnum.
  - by eapply Hloaded.
  - intros self'. split.
    + intros Hnone. unfold Enhanced.get_top_convictions. by rewrite Hnone.
    + intros Hres. destruct (Enhanced.convictions_df self') as [df'|] eqn:Hdf'; [|done].
      by eapply Hloaded in Hres.
Qed.

(** The amended C6 at an empty table of floats. *)
Lemma C6_empty_table_gives_empty_text_witness :
  Enhanced.convictions_df empty_table_generator
    = Some {| ytd_numeric := true; df_rows := [] |}
  ∧ df_rows {| ytd_numeric := true; df_rows := [] |} = []
  ∧ nlargest_rows (Enhanced.n_or_default None) [] = [].
Proof.
  split; [reflexivity|]. split; [reflexivity|].
  apply (C6_empty_table_gives_empty_text demo_host empty_table_generator
           {| ytd_numeric := true; df_rows := [] |} None empty_world);
    reflexivity.
Defined.

(** C6 as stated fails: on a loaded table with no row the conviction text is
    the empty string, not the placeholder. *)
Lemma C6_counterexample_empty_table :
  Enhanced.get_top_convictions demo_host empty_table_generator None empty_world
    = (Returns "", empty_world)
  ∧ "" ≠ "Conviction data not available".
Proof. split; [vm_compute; reflexivity|discriminate]. Qed.

(** ** What [generate_email] returns, case by case *)

Lemma generate_email_no_template host self client_name metrics convictions use_ai w :
  Enhanced.email_template self = None ∨ Enhanced.email_template self = Some "" →
  Enhanced.generate_email host self client_name metrics convictions use_ai w
  = (Returns (Some "Email template not available"), w).
Proof.
  intros [Ht|Ht]; unfold Enhanced.generate_email; by rewrite Ht.
Qed.

Lemma generate_email_format_error host self client_name metrics convictions use_ai w t e :
  Enhanced.email_template self = Some t → t ≠ "" →
  str_format (format_tail host) (email_kwargs client_name metrics convictions) t = inl e →
  Enhanced.generate_email host self client_name metrics convictions use_ai w
  = (Returns (Some ("Error generating email: " +:+ exn_str e)),
     {| log := log w ++ [(ERROR, "Error generating email for " +:+ client_name
                                 +:+ ": " +:+ exn_str e)];
        written := written w;
        unfinished := unfinished w |}).
Proof.
  intros Ht Hne Hfmt. unfold Enhanced.generate_email. rewrite Ht.
  destruct t as [|c t]; [done|]. unfold_m. by rewrite Hfmt.
Qed.

Lemma generate_email_formatted host self client_name metrics convictions use_ai w t base_email :
  Enhanced.email_template self = Some t → t ≠ "" →
  str_format (format_tail host) (email_kwargs client_name metrics convictions) t
    = inr base_email →
  Enhanced.generate_email host self client_name metrics convictions use_ai w
  = if Enhanced.ai_enabled self use_ai
    then Enhanced.enhance_with_ai self base_email client_name metrics w
    else (Returns (Some base_email), w).
Proof.
  intros Ht Hne Hfmt. unfold Enhanced.generate_email. rewrite Ht.
  destruct t as [|c t]; [done|]. unfold_m. rewrite Hfmt. simpl.
  destruct (Enhanced.ai_enabled self use_ai); [|done].
  unfold Enhanced.enhance_with_ai.
  destruct (Enhanced.openai_client self) as [client|]; [|done].
  unfold_m.
  destruct (client _) as [e|response]; simpl; [done|].
  by destruct (first_choice response).
Qed.

(** ** AI enhancement when the request fails *)

(** When no backend is configured [enhance_with_ai] is the identity and
    leaves the log alone; when the request raises or the response has no
    choice it returns the base email unchanged and writes no file. The
    email [generate_email] then returns with AI enhancement requested is the
    one it returns without. *)
Lemma enhance_falls_back_when_request_fails (host : Host) (self : Enhanced.t)
    (base_email client_name : string) (metrics : gmap string string) (w : World) :
  ai_fails self base_email client_name →
  (Enhanced.enhance_with_ai self base_email client_name metrics w).1
    = Returns (Some base_email)
  ∧ written (Enhanced.enhance_with_ai self base_email client_name metrics w).2
    = written w
  ∧ (Enhanced.openai_client self = None →
     Enhanced.enhance_with_ai self base_email client_name metrics w
     = (Returns (Some base_email), w))
  ∧ (∀ t convictions,
       Enhanced.email_template self = Some t → t ≠ "" →
       str_format (format_tail host) (email_kwargs client_name metrics convictions) t
         = inr base_email →
       (Enhanced.generate_email host self client_name metrics convictions true w).1
         = Returns (Some base_email)
       ∧ (Enhanced.generate_email host self client_name metrics convictions false w).1
         = Returns (Some base_email)).
Proof.
  intros Hfail.
  assert ((Enhanced.enhance_with_ai self base_email client_name metrics w).1
            = Returns (Some base_email)) as Hres.
  { unfold ai_fails in Hfail. unfold Enhanced.enhance_with_ai.
    destruct (Enhanced.openai_client self) as [client|]; [|done].
    unfold_m. destruct (client _) as [e|response]; simpl; [done|].
    unfold first_choice. by rewrite Hfail. }
  split_and!.
  - done.
  - unfold ai_fails in Hfail. unfold Enhanced.enhance_with_ai.
    destruct (Enhanced.openai_client self) as [client|]; [|done].
    unfold_m. destruct (client _) as [e|response]; simpl; [done|].
    unfold first_choice. by rewrite Hfail.
  - intros Hnone. unfold Enhanced.enhance_with_ai. by rewrite Hnone.
  - intros t convictions Ht Hne Hfmt.
    rewrite !(generate_email_formatted host self _ _ _ _ w t base_email) by done.
    unfold Enhanced.ai_enabled. simpl.
    split; [|done]. by destruct (bool_decide _).
Qed.

(** The fallback at a backend that refuses the connection. *)
Lemma enhance_falls_back_at_refused_connection :
  ai_fails ai_generator "Hi John Smith," "John Smith"
  ∧ (Enhanced.enhance_with_ai ai_generator "Hi John Smith," "John Smith"
       sample_data empty_world).1 = Returns (Some "Hi John Smith,").
Proof.
  split; [exact I|].
  apply (enhance_falls_back_when_request_fails demo_host ai_generator
           "Hi John Smith," "John Smith" sample_data empty_world).
  exact I.
Qed.

(** What [enhance_with_ai] does with a response whose message has no text. *)
Lemma enhance_with_ai_without_text (self : Enhanced.t)
    (base_email client_name : string) (metrics : gmap string string) (w : World) :
  ai_answers_without_text self base_email client_name →
  Enhanced.enhance_with_ai self base_email client_name metrics w
  = (Returns None,
     {| log := log w ++ [(INFO, "AI enhancement completed for " +:+ client_name)];
        written := written w;
        unfinished := unfinished w |}).
Proof.
  unfold ai_answers_without_text, Enhanced.enhance_with_ai.
  destruct (Enhanced.openai_client self) as [client|]; [|done].
  unfold_m. destruct (client _) as [e|response]; [done|]. simpl.
  unfold first_choice.
  destruct (choices response) as [|[content|] rest]; [done|done|]. by intros _.
Qed.

(** ** C3: the sign of a percent metric *)

Lemma star_match_fmap {A B} (f : A → B) c s (k1 : string → option A) k2 :
  (∀ s', k2 s' = f <$> k1 s') →
  star_match c s k2 = f <$> star_match c s k1.
Proof.
  intros Hk. induction s as [|a s IH]; simpl; [apply Hk|].
  destruct (cmatch c a); [|apply Hk].
  rewrite IH. destruct (star_match c s k1); [done|apply Hk].
Qed.

Lemma rmatch_fmap {A B} (f : A → B) r :
  ∀ s cap (k1 : string → option string → option A) k2,
    (∀ s' c, k2 s' c = f <$> k1 s' c) →
    rmatch r s cap k2 = f <$> rmatch r s cap k1.
Proof.
  induction r as [|c|c|c|r IH|r1 IH1 r2 IH2|r IH]; intros s cap k1 k2 Hk; simpl.
  - apply Hk.
  - destruct s as [|a s]; [done|]. destruct (cmatch c a); [apply Hk|done].
  - apply star_match_fmap. intros s'. apply Hk.
  - destruct s as [|a s]; [done|]. destruct (cmatch c a); [|done].
    apply star_match_fmap. intros s'. apply Hk.
  - rewrite (IH s cap k1 k2 Hk). destruct (rmatch r s cap k1); [done|apply Hk].
  - apply IH1. intros s' c. by apply IH2.
  - apply IH. intros s' c. apply Hk.
Qed.

Lemma star_match_result {A} c s (k : string → option A) x :
  star_match c s k = Some x → ∃ s', k s' = Some x.
Proof.
  induction s as [|a s IH]; simpl; [by eauto|].
  destruct (cmatch c a); [|by eauto].
  destruct (star_match c s k) as [y|]; [|by eauto].
  intros [= ->]. by apply IH.
Qed.

(** A match of [r] followed by [k] is a result of [k]. *)
Lemma rmatch_result {A} r :
  ∀ s cap (k : string → option string → option A) x,
    rmatch r s cap k = Some x → ∃ s' cap', k s' cap' = Some x.
Proof.
  induction r as [|c|c|c|r IH|r1 IH1 r2 IH2|r IH]; intros s cap k x; simpl.
  - by eauto.
  - destruct s as [|a s]; [done|]. destruct (cmatch c a); [by eauto|done].
  - intros (s' & Hs')%star_match_result. by eauto.
  - destruct s as [|a s]; [done|]. destruct (cmatch c a); [|done].
    intros (s' & Hs')%star_match_result. by eauto.
  - destruct (rmatch r s cap k) as [y|] eqn:Hr; [|by eauto].
    intros [= ->]. by eapply IH.
  - intros (s' & cap' & Hr2)%IH1. by eapply IH2.
  - intros (s' & cap' & Hk)%IH. by eauto.
Qed.

Lemma percent_end_digit s s2 :
  percent_end s = Some s2 → ∃ a s', s = String a s' ∧ is_digit a = true.
Proof.
  unfold percent_end. destruct s as [|a s]; simpl; [done|].
  destruct (is_digit a) eqn:Hd; [by eauto|done].
Qed.

(** The number group followed by the percent sign, started at [s]: the
    group is the text up to where the digits end. A sign is taken when [s]
    starts with one. *)
Lemma number_group_percent s cap :
  rmatch (rcat [number_group; RChar (CLit "%")]) s cap (λ _ cap', Some cap')
  = match s with
    | String a s' =>
        if cmatch (CLit "-") a
        then (λ s2, Some (consumed s s2)) <$> percent_end s'
        else (λ s2, Some (consumed s s2)) <$> percent_end s
    | EmptyString => None
    end.
Proof.
  assert (∀ s0 cap0,
    rmatch digits_tail s0 cap0
      (λ s2 _, rmatch (rcat [RChar (CLit "%")]) s2 (Some (consumed s s2))
                 (λ _ cap', Some cap'))
    = (λ s2, Some (consumed s s2)) <$> percent_end s0) as Htail.
  { intros s0 cap0. unfold percent_end.
    assert (∀ c1 c2 (k : string → option (option string)),
              rmatch digits_tail s0 c1 (λ s2 _, k s2)
              = rmatch digits_tail s0 c2 (λ s2 _, k s2)) as Hcap.
    { intros c1 c2 k. simpl. done. }
    rewrite (Hcap cap0 None
               (λ s2, rmatch (rcat [RChar (CLit "%")]) s2 (Some (consumed s s2))
                        (λ _ cap', Some cap'))).
    apply rmatch_fmap. intros s2 _.
    destruct s2 as [|a s2]; simpl; [done|]. by case_match. }
  change (rcat [number_group; RChar (CLit "%")])
    with (RSeq (RGroup (RSeq (ROpt (RChar (CLit "-"))) digits_tail))
               (rcat [RChar (CLit "%")])).
  cbn [rmatch].
  destruct s as [|a s']; [done|].
  destruct (cmatch (CLit "-") a) eqn:Ha.
  - rewrite !Htail.
    destruct (percent_end s') as [s2|] eqn:Hend; [done|].
    unfold percent_end. simpl.
    assert (is_digit a = false) as ->; [|done].
    unfold cmatch in Ha. apply bool_decide_eq_true in Ha. 
    assert (a = "-"%char) as ->; [|done].
    unfold to_lower in Ha. simpl in Ha. case_match eqn:Hup; [|done].
    unfold is_upper in Hup. apply bool_decide_eq_true in Hup.
    apply (f_equal N_of_ascii) in Ha. rewrite N_ascii_embedding in Ha by lia.
    simpl in Ha. lia.
  - apply Htail.
Qed.

Lemma cmatch_minus a : cmatch (CLit "-") a = true → a = "-"%char.
Proof.
  unfold cmatch. intros Ha%bool_decide_eq_true.
  unfold to_lower in Ha. simpl in Ha. case_match eqn:Hup; [|done].
  unfold is_upper in Hup. apply bool_decide_eq_true in Hup.
  apply (f_equal N_of_ascii) in Ha. rewrite N_ascii_embedding in Ha by lia.
  simpl in Ha. lia.
Qed.

Lemma digit_not_minus a : is_digit a = true → cmatch (CLit "-") a = false.
Proof.
  intros Hd. destruct (cmatch (CLit "-") a) eqn:Ha; [|done].
  apply cmatch_minus in Ha as ->. done.
Qed.

Lemma star_match_ext {A} c s (k1 k2 : string → option A) :
  (∀ s', k1 s' = k2 s') → star_match c s k1 = star_match c s k2.
Proof.
  intros Hk. induction s as [|a s IH]; simpl; [apply Hk|].
  rewrite IH, Hk. done.
Qed.

(** After the greedy run of non-digits the group never starts with a sign:
    the run has taken it, and the run gives a sign back only when the match
    from the digit behind it fails, which makes the match from the sign fail
    as well. *)
Lemma group_after_gap_has_no_sign s x :
  star_match CNotDigit s group_at = Some x →
  ∃ g, x = Some g ∧ ¬ starts_with_minus g.
Proof.
  induction s as [|a s IH]; [done|].
  cbn [star_match]. change (cmatch CNotDigit a) with (negb (is_digit a)).
  destruct (is_digit a) eqn:Hd; cbn [negb].
  - unfold group_at. rewrite (digit_not_minus a Hd).
    destruct (percent_end (String a s)) as [s2|]; [|done].
    intros [= <-]. eexists; split; [done|].
    unfold consumed. destruct (_ - _); simpl; [tauto|].
    intros ->. done.
  - destruct (star_match CNotDigit s group_at) as [y|] eqn:Hin.
    { intros [= ->]. by apply IH. }
    unfold group_at. destruct (cmatch (CLit "-") a).
    + destruct (percent_end s) as [s2|] eqn:Hend; [|done].
      apply percent_end_digit in Hend as Hs. destruct Hs as (d & s' & -> & Hdd).
      cbn [star_match] in Hin.
      change (cmatch CNotDigit d) with (negb (is_digit d)) in Hin.
      rewrite Hdd in Hin. cbn [negb] in Hin. unfold group_at in Hin.
      rewrite (digit_not_minus d Hdd), Hend in Hin. done.
    + destruct (percent_end (String a s)) as [s2|] eqn:Hend; [|done].
      apply percent_end_digit in Hend as (d & s' & [= <- <-] & Hdd). congruence.
Qed.

Lemma percent_tail_no_sign s cap x :
  rmatch percent_tail s cap (λ _ cap', Some cap') = Some x →
  ∃ g, x = Some g ∧ ¬ starts_with_minus g.
Proof.
  change percent_tail
    with (RSeq (RStar CNotDigit) (rcat [number_group; RChar (CLit "%")])).
  cbn [rmatch].
  rewrite (star_match_ext _ _ _ group_at).
  - apply group_after_gap_has_no_sign.
  - intros s'. rewrite number_group_percent. done.
Qed.

Lemma rmatch_percent_no_sign r s cap x :
  ends_with_percent_tail r →
  rmatch r s cap (λ _ cap', Some cap') = Some x →
  ∃ g, x = Some g ∧ ¬ starts_with_minus g.
Proof.
  intros Hr. revert s cap. induction Hr as [|r1 r2 Hr IH]; intros s cap.
  - apply percent_tail_no_sign.
  - cbn [rmatch]. intros (s' & cap' & Hr2)%rmatch_result. by eapply IH.
Qed.

Lemma re_search_percent_no_sign r s m :
  ends_with_percent_tail r →
  re_search r s = Some m →
  ¬ starts_with_minus (group m +:+ "%").
Proof.
  intros Hr. induction s as [|a s IH]; simpl.
  - destruct (rmatch r "" None _) as [x|] eqn:Hx; [|done].
    intros [= <-]. apply (rmatch_percent_no_sign _ _ _ _ Hr) in Hx as (g & -> & Hg).
    unfold group. simpl. by destruct g.
  - destruct (rmatch r (String a s) None _) as [x|] eqn:Hx; [|done].
    intros [= <-]. apply (rmatch_percent_no_sign _ _ _ _ Hr) in Hx as (g & -> & Hg).
    unfold group. simpl. by destruct g.
Qed.

Lemma percent_patterns_end_with_tail :
  ends_with_percent_tail ytd_pattern
  ∧ ends_with_percent_tail inception_pattern
  ∧ ends_with_percent_tail drawdown_pattern.
Proof. split_and!; repeat constructor. Qed.

Lemma extract_metrics_percent_lookup text key v :
  key = "YTD" ∨ key = "SinceInception" ∨ key = "MaxDrawdown" →
  extract_metrics text !! key = Some v →
  ∃ r m, ends_with_percent_tail r ∧ re_search r text = Some m ∧ v = group m +:+ "%".
Proof.
  destruct percent_patterns_end_with_tail as (Hytd & Hinc & Hdd).
  unfold extract_metrics.
  destruct (re_search ytd_pattern text) as [m1|] eqn:H1;
  destruct (re_search inception_pattern text) as [m2|] eqn:H2;
  destruct (re_search sharpe_pattern text) as [m3|] eqn:H3;
  destruct (re_search beta_pattern text) as [m4|] eqn:H4;
  destruct (re_search drawdown_pattern text) as [m5|] eqn:H5;
  intros [-> | [-> | ->]] Hv; simplify_map_eq; eauto 10.
Qed.

(** C3 fails on the code. Whatever the report text, a percent metric that is
    extracted never starts with a minus sign: the greedy run of non-digits
    before the number takes the sign, so the group starts at the first
    digit. For the line [Max Drawdown: -5.2%] the value extracted is [5.2%],
    by [extract_metrics] and by [parse_pdf_report] on a report whose second
    page has that line. *)
Theorem C3_percent_metric_loses_its_sign (text key v : string) :
  key = "YTD" ∨ key = "SinceInception" ∨ key = "MaxDrawdown" →
  extract_metrics text !! key = Some v →
  (¬ starts_with_minus v)
  ∧ extract_metrics "Max Drawdown: -5.2%" !! "MaxDrawdown" = Some "5.2%"
  ∧ (∃ metrics w,
       Enhanced.parse_pdf_report demo_host drawdown_report empty_world
         = (Returns metrics, w)
       ∧ metrics !! "MaxDrawdown" = Some "5.2%").
Proof.
  intros Hkey Hv. split_and!.
  - apply extract_metrics_percent_lookup in Hv as (r & m & Hr & Hm & ->); [|done].
    by eapply re_search_percent_no_sign.
  - vm_compute. reflexivity.
  - eexists _, _. split; vm_compute; reflexivity.
Qed.

(** C3's theorem at the failing input. *)
Lemma C3_percent_metric_loses_its_sign_witness :
  extract_metrics "Max Drawdown: -5.2%" !! "MaxDrawdown" = Some "5.2%"
  ∧ ¬ starts_with_minus "5.2%".
Proof.
  split; [vm_compute; reflexivity|].
  apply (C3_percent_metric_loses_its_sign "Max Drawdown: -5.2%" "MaxDrawdown" "5.2%").
  - right. right. reflexivity.
  - vm_compute. reflexivity.
Defined.

(** ** Facts about strings and [str.format] *)

Lemma app_String (c : ascii) (s t : string) : String c s +:+ t = String c (s +:+ t).
Proof. reflexivity. Qed.

Lemma app_empty_l (t : string) : "" +:+ t = t.
Proof. reflexivity. Qed.

Lemma app_assoc_string (s1 s2 s3 : string) : (s1 +:+ s2) +:+ s3 = s1 +:+ (s2 +:+ s3).
Proof.
  induction s1 as [|c s1 IH]; [done|]. by rewrite !app_String, IH.
Qed.

Lemma app_empty_r (s : string) : s +:+ "" = s.
Proof. induction s as [|c s IH]; [done|]. by rewrite app_String, IH. Qed.

Lemma snoc_app (s : string) (c : ascii) (t : string) :
  snoc s c +:+ t = s +:+ String c t.
Proof. unfold snoc. by rewrite app_assoc_string. Qed.

Lemma string_forall_app P s1 s2 :
  string_forall P (s1 +:+ s2) = string_forall P s1 && string_forall P s2.
Proof.
  induction s1 as [|c s1 IH]; [done|].
  rewrite app_String. simpl. rewrite IH. by rewrite andb_assoc.
Qed.

Section format_facts.
Variable format_tail : string → gmap string string → exn + string.
Variable kwargs : gmap string string.

Lemma format_go_text s t out :
  no_braces s = true →
  format_go format_tail kwargs FText (s +:+ t) out
  = format_go format_tail kwargs FText t (out +:+ s).
Proof.
  revert out. induction s as [|c s IH]; intros out Hs.
  { by rewrite app_empty_l, app_empty_r. }
  simpl in Hs. apply andb_true_iff in Hs as [Hc Hs].
  apply negb_true_iff, bool_decide_eq_false in Hc.
  rewrite app_String. cbn [format_go].
  rewrite !decide_False by tauto.
  rewrite IH by done. by rewrite snoc_app.
Qed.

Lemma format_go_field_rest name : ∀ acc t out,
  plain_name name = true →
  format_go format_tail kwargs (FField acc) (name +:+ String "}" t) out
  = match get_field kwargs (acc +:+ name) with
    | inl e => inl e
    | inr v => format_go format_tail kwargs FText t (out +:+ v)
    end.
Proof.
  induction name as [|c name IH]; intros acc t out Hname.
  { rewrite app_empty_l, app_empty_r. cbn [format_go].
    by rewrite decide_True. }
  simpl in Hname. apply andb_true_iff in Hname as [Hc Hname].
  apply andb_true_iff in Hc as [Hbrace Hcomplex].
  apply negb_true_iff, bool_decide_eq_false in Hbrace.
  apply negb_true_iff in Hcomplex.
  rewrite app_String. cbn [format_go].
  rewrite !decide_False by tauto. rewrite Hcomplex.
  rewrite IH by done. by rewrite snoc_app.
Qed.

(** A field with a plain name, read from its opening brace on. *)
Lemma format_go_field name t out :
  plain_name name = true →
  format_go format_tail kwargs FText ("{" +:+ name +:+ "}" +:+ t) out
  = match get_field kwargs name with
    | inl e => inl e
    | inr v => format_go format_tail kwargs FText t (out +:+ v)
    end.
Proof.
  intros Hname.
  rewrite app_String, app_empty_l. cbn [format_go].
  rewrite decide_True by done.
  destruct name as [|c name].
  { rewrite app_empty_l, app_String, app_empty_l. cbn [format_go].
    rewrite decide_False by done. by rewrite decide_True. }
  simpl in Hname. apply andb_true_iff in Hname as [Hc Hname].
  apply andb_true_iff in Hc as [Hbrace Hcomplex].
  apply negb_true_iff, bool_decide_eq_false in Hbrace.
  apply negb_true_iff in Hcomplex.
  rewrite app_String. cbn [format_go].
  rewrite !decide_False by tauto. rewrite Hcomplex.
  rewrite (app_String "}" "" t), app_empty_l.
  by rewrite (format_go_field_rest name (snoc "" c) t out).
Qed.

(** A string without braces is formatted to itself. *)
Lemma str_format_no_braces s :
  no_braces s = true → str_format format_tail kwargs s = inr s.
Proof.
  intros Hs. unfold str_format.
  rewrite <-(app_empty_r s) at 1. by rewrite format_go_text.
Qed.
End format_facts.

Lemma supported_cases name :
  name ∈ supported_placeholders →
  name = "Name" ∨ name = "YTD" ∨ name = "SinceInception" ∨ name = "Sharpe"
  ∨ name = "Convictions".
Proof.
  unfold supported_placeholders. rewrite !elem_of_cons, elem_of_nil. tauto.
Qed.

Lemma get_field_key (kwargs : gmap string string) c name :
  is_digit c = false →
  get_field kwargs (String c name)
  = match kwargs !! String c name with
    | Some v => inr v
    | None => inl (KeyError (String c name))
    end.
Proof. intros Hc. unfold get_field. cbn [get_integer]. by rewrite Hc. Qed.

Lemma get_field_supported client_name metrics convictions name :
  name ∈ supported_placeholders →
  plain_name name = true
  ∧ get_field (email_kwargs client_name metrics convictions) name
    = inr (placeholder_value client_name metrics convictions name).
Proof.
  intros Hname. apply supported_cases in Hname.
  destruct Hname as [-> | [-> | [-> | [-> | ->]]]];
    (split; [reflexivity|]); rewrite get_field_key by reflexivity;
    unfold email_kwargs; simplify_map_eq; reflexivity.
Qed.

(** On a template that starts with brace-free text and supported
    placeholders, [str.format] with the keyword arguments of
    [generate_email] computes [render] and goes on with the rest. *)
Lemma format_go_segments host client_name metrics convictions segs : ∀ t out,
  forallb plain_segment segs = true →
  format_go (format_tail host) (email_kwargs client_name metrics convictions)
            FText (template_of segs +:+ t) out
  = format_go (format_tail host) (email_kwargs client_name metrics convictions)
              FText t (out +:+ render client_name metrics convictions segs).
Proof.
  induction segs as [|seg segs IH]; intros t out Hsegs; simpl.
  { by rewrite app_empty_l, app_empty_r. }
  simpl in Hsegs. apply andb_true_iff in Hsegs as [Hseg Hsegs].
  rewrite (app_assoc_string (segment_source seg)).
  destruct seg as [text|name]; simpl in Hseg; cbn [segment_source].
  - rewrite format_go_text by done. rewrite IH by done.
    by rewrite app_assoc_string.
  - apply bool_decide_eq_true in Hseg.
    destruct (get_field_supported client_name metrics convictions name Hseg)
      as [Hplain Hget].
    rewrite app_assoc_string, (app_assoc_string name).
    rewrite format_go_field by done. rewrite Hget, IH by done.
    by rewrite app_assoc_string.
Qed.

Lemma str_format_segments host client_name metrics convictions segs :
  forallb plain_segment segs = true →
  str_format (format_tail host) (email_kwargs client_name metrics convictions)
             (template_of segs)
  = inr (render client_name metrics convictions segs).
Proof.
  intros Hsegs. unfold str_format.
  rewrite <-(app_empty_r (template_of segs)).
  by rewrite format_go_segments.
Qed.

Lemma get_field_unsupported client_name metrics convictions field :
  field ∉ supported_placeholders →
  ∃ e, get_field (email_kwargs client_name metrics convictions) field = inl e
       ∧ (get_integer field 0 = inr None → e = KeyError field).
Proof.
  intros Hfield. unfold get_field.
  destruct field as [|c field]; [eexists; split; [done|done]|].
  destruct (get_integer (String c field) 0) as [e|[i|]];
    [eexists; split; [done|done]..|].
  assert (email_kwargs client_name metrics convictions !! String c field = None)
    as ->; [|by eauto].
  unfold email_kwargs, supported_placeholders in *.
  rewrite !not_elem_of_cons in Hfield.
  destruct Hfield as (? & ? & ? & ? & ? & _).
  by rewrite !lookup_insert_ne, lookup_empty.
Qed.

(** A template that names a placeholder outside the five, after a part that
    renders: formatting raises at that field. *)
Lemma str_format_unknown_placeholder host client_name metrics convictions
    segs field rest :
  forallb plain_segment segs = true →
  plain_name field = true →
  field ∉ supported_placeholders →
  ∃ e, str_format (format_tail host) (email_kwargs client_name metrics convictions)
         (template_of segs +:+ "{" +:+ field +:+ "}" +:+ rest) = inl e
       ∧ (get_integer field 0 = inr None → e = KeyError field).
Proof.
  intros Hsegs Hplain Hfield. unfold str_format.
  rewrite format_go_segments by done. rewrite format_go_field by done.
  destruct (get_field_unsupported client_name metrics convictions field Hfield)
    as (e & -> & He).
  by eauto.
Qed.

Lemma basic_generate_email_formatted host (self : Basic.t)
    client_name metrics convictions w t email_content :
  Basic.email_template self = Some t → t ≠ "" →
  str_format (format_tail host) (email_kwargs client_name metrics convictions) t
    = inr email_content →
  Basic.generate_email host self client_name metrics convictions w
  = (Returns email_content, w).
Proof.
  intros Ht Hne Hfmt. unfold Basic.generate_email. rewrite Ht.
  destruct t as [|c t]; [done|]. unfold_m. by rewrite Hfmt.
Qed.

(** ** The batch, source by source *)

Lemma conviction_errors_app l1 l2 :
  conviction_errors (l1 ++ l2) = conviction_errors l1 + conviction_errors l2.
Proof. unfold conviction_errors. by rewrite filter_app, length_app. Qed.

Lemma conviction_errors_singleton line :
  conviction_errors [line] = if is_conviction_error line then 1 else 0.
Proof.
  unfold conviction_errors. rewrite filter_cons, filter_nil.
  destruct (is_conviction_error line); by case_decide.
Qed.

Lemma only_logs_refl w : only_logs w w.
Proof. split; [done|]. split; [done|]. exists []. by rewrite app_nil_r. Qed.

Lemma only_logs_trans w1 w2 w3 : only_logs w1 w2 → only_logs w2 w3 → only_logs w1 w3.
Proof.
  intros (Hw1 & Hu1 & l1 & Hl1 & Hc1) (Hw2 & Hu2 & l2 & Hl2 & Hc2).
  split; [congruence|]. split; [congruence|].
  exists (l1 ++ l2). split; [by rewrite Hl2, Hl1, app_assoc|].
  rewrite conviction_errors_app. lia.
Qed.

Lemma only_logs_logger lvl msg w :
  is_conviction_error (lvl, msg) = false → only_logs w (logger lvl msg w).2.
Proof.
  intros Hline. split; [done|]. split; [done|]. exists [(lvl, msg)]. split; [done|].
  by rewrite conviction_errors_singleton, Hline.
Qed.

Lemma parse_pdf_report_spec host pdf w :
  ∃ w', Enhanced.parse_pdf_report host pdf w = (Returns (metrics_of pdf), w')
        ∧ only_logs w w'
        ∧ (∀ e, pdf_pages pdf = inl e → parse_error_line host pdf e ∈ log w').
Proof.
  unfold Enhanced.parse_pdf_report, metrics_of, parse_error_line.
  destruct (pdf_pages pdf) as [e|pages]; unfold_m; simpl.
  - eexists. split; [done|]. split; [by apply only_logs_logger|].
    intros e' [= <-]. simpl. apply elem_of_app. right. apply list_elem_of_here.
  - eexists. split; [done|]. split; [by apply only_logs_logger|]. by intros e' [=].
Qed.

(** [enhance_with_ai] always returns, a text or [None] that depends on its
    arguments only, and it writes no file. *)
Lemma enhance_with_ai_returns self base_email client_name metrics :
  ∃ value, ∀ w, ∃ w',
    Enhanced.enhance_with_ai self base_email client_name metrics w = (Returns value, w')
    ∧ only_logs w w'.
Proof.
  unfold Enhanced.enhance_with_ai.
  destruct (Enhanced.openai_client self) as [client|].
  2: { exists (Some base_email). intros w. exists w. split; [done|apply only_logs_refl]. }
  unfold_m. destruct (client _) as [e|response]; simpl.
  { exists (Some base_email). intros w. eexists. split; [done|].
    by apply only_logs_logger. }
  destruct (first_choice response) as [e|content]; simpl.
  - exists (Some base_email). intros w. eexists. split; [done|].
    by apply only_logs_logger.
  - exists content. intros w. eexists. split; [done|]. by apply only_logs_logger.
Qed.

(** [generate_email] always returns, a text or [None] that depends on its
    arguments only, and it writes no file. *)
Lemma generate_email_returns host self client_name metrics convictions use_ai w :
  ∃ w',
    Enhanced.generate_email host self client_name metrics convictions use_ai w
    = (Returns (email_value host self client_name metrics convictions use_ai), w')
    ∧ only_logs w w'.
Proof.
  assert (∃ value, ∀ w0, ∃ w0',
    Enhanced.generate_email host self client_name metrics convictions use_ai w0
    = (Returns value, w0') ∧ only_logs w0 w0') as (value & Hvalue).
  { destruct (Enhanced.email_template self) as [t|] eqn:Ht.
    2: { exists (Some "Email template not available"). intros w0. exists w0.
         split; [|apply only_logs_refl]. apply generate_email_no_template. by left. }
    destruct (decide (t = "")) as [->|Hne].
    { exists (Some "Email template not available"). intros w0. exists w0.
      split; [|apply only_logs_refl]. apply generate_email_no_template. by right. }
    destruct (str_format (format_tail host)
                (email_kwargs client_name metrics convictions) t) as [e|base] eqn:Hfmt.
    { eexists. intros w0. eexists.
      split; [by apply (generate_email_format_error host self _ _ _ _ w0 t e)|].
      split; [done|]. split; [done|]. eexists. split; [done|].
      by rewrite conviction_errors_singleton. }
    destruct (Enhanced.ai_enabled self use_ai) eqn:Hai.
    - destruct (enhance_with_ai_returns self base client_name metrics) as (value & Hx).
      exists value. intros w0. destruct (Hx w0) as (w0' & Hrun & Hlogs).
      exists w0'. split; [|done].
      by rewrite (generate_email_formatted host self _ _ _ _ w0 t base), Hai.
    - exists (Some base). intros w0. exists w0. split; [|apply only_logs_refl].
      by rewrite (generate_email_formatted host self _ _ _ _ w0 t base), Hai. }
  unfold email_value, returned.
  destruct (Hvalue empty_world) as (w1 & -> & _). simpl.
  apply Hvalue.
Qed.

(** [get_top_convictions] always returns; it logs one line when the ranking
    raises and nothing otherwise. *)
Lemma get_top_convictions_returns host self w :
  ∃ w', Enhanced.get_top_convictions host self None w
        = (Returns (convictions_text_of host self), w')
        ∧ written w' = written w
        ∧ unfinished w' = unfinished w
        ∧ ∃ lines, log w' = log w ++ lines
                   ∧ conviction_errors lines = if ranking_fails self then 1 else 0.
Proof.
  unfold convictions_text_of, returned, Enhanced.get_top_convictions, ranking_fails.
  destruct (Enhanced.convictions_df self) as [df|].
  2: { exists w. split_and!; [done..|]. exists []. by rewrite app_nil_r. }
  unfold nlargest. destruct (ytd_numeric df); unfold_m; simpl.
  - exists w. split_and!; [done..|]. exists []. by rewrite app_nil_r.
  - eexists. split_and!; [done..|]. eexists. split; [done|].
    by rewrite conviction_errors_singleton.
Qed.

Lemma only_logs_elem_of w w' x : only_logs w w' → x ∈ log w → x ∈ log w'.
Proof. intros (_ & _ & lines & -> & _) Hx. apply elem_of_app. by left. Qed.

(** One turn of the loop: whether the source is counted, and what the turn
    writes. *)
Lemma loop_body_spec host self use_ai convictions_text pdf w :
  ∃ w',
    Enhanced.loop_body host self use_ai convictions_text pdf w
    = (Returns (counted host self use_ai convictions_text pdf), w')
    ∧ written w'
      = written w ++ (if counted host self use_ai convictions_text pdf
                      then [(path_of host pdf,
                             email_of host self use_ai convictions_text pdf)]
                      else [])
    ∧ (∃ lines, log w' = log w ++ lines ∧ conviction_errors lines = 0)
    ∧ (∀ e, pdf_pages pdf = inl e → parse_error_line host pdf e ∈ log w')
    ∧ (∃ files, unfinished w' = unfinished w ++ files
                ∧ length files ≤ if counted host self use_ai convictions_text pdf
                                 then 0 else 1).
Proof.
  destruct (parse_pdf_report_spec host pdf w) as (w1 & Hparse & Hlogs1 & Herr).
  destruct (generate_email_returns host self (Enhanced.client_name_of pdf)
              (metrics_of pdf) convictions_text use_ai w1)
    as (w2 & Hgen & Hlogs2).
  pose proof (only_logs_trans _ _ _ Hlogs1 Hlogs2) as Hlogs12.
  unfold Enhanced.loop_body, Enhanced.process_report, counted, email_is_text,
    email_of, email_text, path_of.
  unfold mbind, M_bind, try_except. rewrite Hparse.
  destruct (decide (metrics_of pdf = ∅)) as [Hempty|Hne].
  - rewrite bool_decide_eq_false_2 by tauto. simpl.
    eexists. split; [done|]. simpl. rewrite app_nil_r.
    destruct Hlogs1 as (Hw1 & Hu1 & lines1 & Hl1 & Hc1).
    split; [done|]. split_and!.
    + exists (lines1 ++ [(WARNING, "No metrics extracted for "
                            +:+ Enhanced.client_name_of pdf)]).
      split; [by rewrite Hl1, app_assoc|].
      rewrite conviction_errors_app, conviction_errors_singleton, Hc1. done.
    + intros e He. apply elem_of_app. left. by apply Herr.
    + exists []. rewrite app_nil_r. split; [done|simpl; lia].
  - rewrite bool_decide_eq_true_2 by done. rewrite Hgen.
    destruct Hlogs12 as (Hw12 & Hu12 & lines & Hl & Hc).
    assert (∀ e', pdf_pages pdf = inl e' → parse_error_line host pdf e' ∈ log w2)
      as Herr2.
    { intros e' He'. apply (only_logs_elem_of w1 w2); [done|]. by apply Herr. }
    destruct (email_value host self (Enhanced.client_name_of pdf) (metrics_of pdf)
                convictions_text use_ai) as [text|]; simpl.
    + unfold write_file.
      destruct (write_error host _ _) as [e|] eqn:Hwrite; simpl.
      * eexists. split; [done|]. simpl. rewrite app_nil_r.
        destruct (write_leaves host _ _) as [text'|]; simpl.
        -- split; [done|]. split_and!.
           ++ eexists. split; [by rewrite Hl, <-app_assoc|].
              rewrite conviction_errors_app, conviction_errors_singleton, Hc. done.
           ++ intros e' He'. apply elem_of_app. left. by apply Herr2.
           ++ eexists. split; [by rewrite Hu12|]. simpl. lia.
        -- split; [done|]. split_and!.
           ++ eexists. split; [by rewrite Hl, <-app_assoc|].
              rewrite conviction_errors_app, conviction_errors_singleton, Hc. done.
           ++ intros e' He'. apply elem_of_app. left. by apply Herr2.
           ++ exists []. rewrite app_nil_r. split; [done|simpl; lia].
      * eexists. split; [done|]. simpl.
        split; [by rewrite Hw12|]. split_and!.
        -- eexists. split; [by rewrite Hl, <-app_assoc|].
           rewrite conviction_errors_app, conviction_errors_singleton, Hc. done.
        -- intros e' He'. apply elem_of_app. left. by apply Herr2.
        -- exists []. rewrite app_nil_r. split; [done|simpl; lia].
    + destruct (open_error host _) as [e|]; simpl.
      * eexists. split; [done|]. simpl. rewrite app_nil_r.
        split; [done|]. split_and!.
        -- eexists. split; [by rewrite Hl, <-app_assoc|].
           rewrite conviction_errors_app, conviction_errors_singleton, Hc. done.
        -- intros e' He'. apply elem_of_app. left. by apply Herr2.
        -- exists []. rewrite app_nil_r. split; [done|simpl; lia].
      * eexists. split; [done|]. simpl. rewrite app_nil_r.
        split; [done|]. split_and!.
        -- eexists. split; [by rewrite Hl, <-app_assoc|].
           rewrite conviction_errors_app, conviction_errors_singleton, Hc. done.
        -- intros e' He'. apply elem_of_app. left. by apply Herr2.
        -- eexists. split; [by rewrite Hu12|]. simpl. lia.
Qed.

Lemma process_loop_spec host self use_ai convictions_text pdf_files :
  ∀ processed_count w, ∃ w',
    Enhanced.process_loop host self use_ai convictions_text pdf_files
      processed_count w
    = (Returns (processed_count
                + length (filter (λ pdf, counted host self use_ai convictions_text
                                           pdf = true) pdf_files)), w')
    ∧ written w'
      = written w ++ batch_written host self use_ai convictions_text pdf_files
    ∧ (∃ lines, log w' = log w ++ lines ∧ conviction_errors lines = 0)
    ∧ (∀ pdf e, pdf ∈ pdf_files → pdf_pages pdf = inl e →
                parse_error_line host pdf e ∈ log w')
    ∧ (∃ files, unfinished w' = unfinished w ++ files
                ∧ length files
                  + length (filter (λ pdf, counted host self use_ai convictions_text
                                             pdf = true) pdf_files)
                  ≤ length pdf_files).
Proof.
  induction pdf_files as [|pdf rest IH]; intros processed_count w.
  { exists w. unfold batch_written. rewrite filter_nil. simpl.
    rewrite Nat.add_0_r, app_nil_r.
    split; [done|]. split; [done|]. split; [exists []; by rewrite app_nil_r|].
    split; [by intros pdf e ?%elem_of_nil|].
    exists []. by rewrite app_nil_r. }
  destruct (loop_body_spec host self use_ai convictions_text pdf w)
    as (w1 & Hbody & Hw1 & (lines1 & Hl1 & Hc1) & Herr1 & files1 & Hu1 & Hn1).
  destruct (IH (if counted host self use_ai convictions_text pdf
                then S processed_count else processed_count) w1)
    as (w2 & Hloop & Hw2 & (lines2 & Hl2 & Hc2) & Herr2 & files2 & Hu2 & Hn2).
  assert (∃ lines, log w2 = log w ++ lines ∧ conviction_errors lines = 0) as Hlines.
  { exists (lines1 ++ lines2). split; [by rewrite Hl2, Hl1, app_assoc|].
    rewrite conviction_errors_app. lia. }
  exists w2. cbn [Enhanced.process_loop]. unfold mbind, M_bind.
  rewrite Hbody, Hloop. unfold batch_written in *. rewrite filter_cons.
  destruct (counted host self use_ai convictions_text pdf) eqn:Hc.
  - rewrite decide_True by done. simpl. split; [f_equal; f_equal; lia|].
    split; [by rewrite Hw2, Hw1, <-app_assoc|].
    split; [done|]. split.
    + intros pdf' e [->|Hin]%elem_of_cons Hpages.
      * rewrite Hl2. apply elem_of_app. left. by eapply Herr1.
      * by eapply Herr2.
    + exists (files1 ++ files2). split; [by rewrite Hu2, Hu1, app_assoc|].
      rewrite length_app. simpl in *. lia.
  - rewrite decide_False by done. simpl. split; [done|].
    split; [by rewrite Hw2, Hw1, app_nil_r|].
    split; [done|]. split.
    + intros pdf' e [->|Hin]%elem_of_cons Hpages.
      * rewrite Hl2. apply elem_of_app. left. by eapply Herr1.
      * by eapply Herr2.
    + exists (files1 ++ files2). split; [by rewrite Hu2, Hu1, app_assoc|].
      rewrite length_app. simpl in *. lia.
Qed.

Lemma process_all_reports_spec host self use_ai w :
  pdf_dir_exists host = true →
  pdf_dir_glob host ≠ [] →
  ∃ w',
    Enhanced.process_all_reports host self use_ai w = (Returns tt, w')
    ∧ written w'
      = written w ++ batch_written host self use_ai (convictions_text_of host self)
                       (pdf_dir_glob host)
    ∧ last (log w')
      = Some (INFO, "🎉 Successfully processed "
                    +:+ pretty (length (filter
                          (λ pdf, counted host self use_ai
                                    (convictions_text_of host self) pdf = true)
                          (pdf_dir_glob host)))
                    +:+ " reports")
    ∧ (∀ pdf e, pdf ∈ pdf_dir_glob host → pdf_pages pdf = inl e →
                parse_error_line host pdf e ∈ log w')
    ∧ (∃ lines, log w' = log w ++ lines
                ∧ conviction_errors lines = if ranking_fails self then 1 else 0)
    ∧ (∃ files, unfinished w' = unfinished w ++ files
                ∧ length files
                  + length (filter (λ pdf, counted host self use_ai
                                             (convictions_text_of host self) pdf = true)
                              (pdf_dir_glob host))
                  ≤ length (pdf_dir_glob host)).
Proof.
  intros Hdir Hfiles. unfold Enhanced.process_all_reports. rewrite Hdir. simpl.
  destruct (pdf_dir_glob host) as [|pdf rest] eqn:Hglob; [done|].
  rewrite <-Hglob.
  set (line0 := (INFO, "Processing " +:+ pretty (length (pdf_dir_glob host))
                       +:+ " PDF reports...")).
  set (w0 := (logger line0.1 line0.2 w).2).
  set (lines1 := if Enhanced.ai_enabled self use_ai
                 then [(INFO, "AI enhancement enabled")] else []).
  set (w1 := {| log := log w0 ++ lines1; written := written w0;
                unfinished := unfinished w0 |}).
  assert ((if Enhanced.ai_enabled self use_ai
           then logger INFO "AI enhancement enabled" else mret tt) w0
          = (Returns tt, w1)) as Hai.
  { unfold w1, lines1. destruct (Enhanced.ai_enabled self use_ai); [done|].
    unfold mret, M_ret. destruct w0. simpl. by rewrite app_nil_r. }
  assert (conviction_errors lines1 = 0) as Hc1.
  { unfold lines1. by destruct (Enhanced.ai_enabled self use_ai). }
  destruct (get_top_convictions_returns host self w1)
    as (w2 & Hconv & Hw2 & Hu2 & lines2 & Hl2 & Hc2).
  destruct (process_loop_spec host self use_ai (convictions_text_of host self)
              (pdf_dir_glob host) 0 w2)
    as (w3 & Hloop & Hw3 & (lines3 & Hl3 & Hc3) & Herr & files & Hu3 & Hn3).
  eexists. split; [|split; [|split; [|split; [|split]]]].
  - unfold mbind, M_bind.
    assert (logger INFO ("Processing " +:+ pretty (length (pdf_dir_glob host))
                         +:+ " PDF reports...") w = (Returns tt, w0)) as ->
      by reflexivity.
    rewrite Hai, Hconv, Hloop. unfold logger. reflexivity.
  - simpl. by rewrite Hw3, Hw2.
  - simpl. by rewrite last_snoc.
  - intros pdf' e Hin Hpages. simpl. apply elem_of_app. left. by eapply Herr.
  - simpl. eexists. split.
    + rewrite Hl3, Hl2. simpl. rewrite <-!app_assoc. reflexivity.
    + rewrite !conviction_errors_app, !conviction_errors_singleton.
      rewrite Hc1, Hc2, Hc3. simpl. lia.
  - simpl. exists files. split; [|done]. by rewrite Hu3, Hu2.
Qed.

(** ** C7: a response without text *)

(** C7 fails on the code. When the backend answers and the message of its
    first choice has no text, [enhance_with_ai] does not fall back to the
    base email: it returns the [None] of the response, logs the enhancement
    as completed and no error. [generate_email] with AI enhancement then
    returns [None] where without it returns the base email, and in the
    batch [f.write] refuses that value: for a report with metrics the file
    of the recipient is left empty, the report is not counted and the error
    is logged under the name of the report. *)
Theorem C7_response_without_text_is_not_replaced (host : Host) (self : Enhanced.t)
    (base_email client_name : string) (metrics : gmap string string) (w : World) :
  ai_answers_without_text self base_email client_name →
  Enhanced.enhance_with_ai self base_email client_name metrics w
    = (Returns None,
       {| log := log w ++ [(INFO, "AI enhancement completed for " +:+ client_name)];
          written := written w;
          unfinished := unfinished w |})
  ∧ (Enhanced.enhance_with_ai self base_email client_name metrics w).1
    ≠ Returns (Some base_email)
  ∧ (∀ t convictions,
       Enhanced.email_template self = Some t → t ≠ "" →
       str_format (format_tail host) (email_kwargs client_name metrics convictions) t
         = inr base_email →
       (Enhanced.generate_email host self client_name metrics convictions true w).1
         = Returns None
       ∧ (Enhanced.generate_email host self client_name metrics convictions false w).1
         = Returns (Some base_email))
  ∧ (∀ pdf convictions_text w0,
       metrics_of pdf ≠ ∅ →
       email_value host self (Enhanced.client_name_of pdf) (metrics_of pdf)
         convictions_text true = None →
       open_error host (path_of host pdf) = None →
       ∃ w0',
         Enhanced.loop_body host self true convictions_text pdf w0
           = (Returns false, w0')
         ∧ written w0' = written w0
         ∧ unfinished w0'
           = unfinished w0 ++ [(length (written w0), path_of host pdf, "")]
         ∧ last (log w0')
           = Some (ERROR, "Error processing " +:+ pdf_name pdf
                          +:+ ": write() argument must be str, not None")).
Proof.
  intros Hsilent.
  pose proof (enhance_with_ai_without_text self base_email client_name metrics w
                Hsilent) as Hrun.
  split_and!.
  - done.
  - by rewrite Hrun.
  - intros t convictions Ht Hne Hfmt.
    rewrite !(generate_email_formatted host self _ _ _ _ w t base_email) by done.
    unfold Enhanced.ai_enabled. simpl.
    assert (bool_decide (is_Some (Enhanced.openai_client self)) = true) as ->.
    { unfold ai_answers_without_text in Hsilent. apply bool_decide_eq_true.
      by destruct (Enhanced.openai_client self). }
    by rewrite Hrun.
  - intros pdf convictions_text w0 Hmetrics Hvalue Hopen.
    destruct (parse_pdf_report_spec host pdf w0) as (w1 & Hparse & Hlogs1 & _).
    destruct (generate_email_returns host self (Enhanced.client_name_of pdf)
                (metrics_of pdf) convictions_text true w1)
      as (w2 & Hgen & Hlogs2).
    destruct (only_logs_trans _ _ _ Hlogs1 Hlogs2) as (Hw & Hu & _).
    unfold Enhanced.loop_body, Enhanced.process_report.
    unfold mbind, M_bind, try_except. rewrite Hparse.
    rewrite decide_False by done. rewrite Hgen, Hvalue.
    unfold path_of in Hopen. simpl. rewrite Hopen. simpl.
    eexists. split; [done|]. simpl. split; [done|].
    split; [by rewrite Hu, Hw|]. by rewrite last_snoc.
Qed.

(** C7's failure at a backend that answers without text: no email for the
    recipient, where the base email is at hand. *)
Lemma C7_response_without_text_is_not_replaced_witness :
  ai_answers_without_text silent_generator "Hi John Smith," "John Smith"
  ∧ (Enhanced.enhance_with_ai silent_generator "Hi John Smith," "John Smith"
       sample_data empty_world).1 = Returns None.
Proof.
  split; [reflexivity|].
  destruct (C7_response_without_text_is_not_replaced demo_host silent_generator
              "Hi John Smith," "John Smith" sample_data empty_world) as (Hrun & _).
  - reflexivity.
  - by rewrite Hrun.
Defined.

(** The batch with that backend: both reports have metrics, no email is
    written, both files are left empty; without AI enhancement both emails
    are written. *)
Lemma batch_with_response_without_text :
  last (log (Enhanced.process_all_reports demo_host silent_generator true
               empty_world).2)
  = Some (INFO, "🎉 Successfully processed 0 reports")
  ∧ written (Enhanced.process_all_reports demo_host silent_generator true
               empty_world).2 = []
  ∧ unfinished (Enhanced.process_all_reports demo_host silent_generator true
                  empty_world).2
    = [(0, "PerformanceSystem/output/emails/John Smith.txt", "");
       (0, "PerformanceSystem/output/emails/Sarah Johnson.txt", "")]
  ∧ last (log (Enhanced.process_all_reports demo_host silent_generator false
                 empty_world).2)
    = Some (INFO, "🎉 Successfully processed 2 reports").
Proof. split_and!; vm_compute; reflexivity. Qed.

(** ** C8: one conviction text for the batch *)

(** C8. A batch run returns, and the files it writes are, in order, the
    emails of the sources it counts, each rendered with one and the same
    conviction text: the text the call of [get_top_convictions] before the
    loop returns, which does not depend on the source. The ranking is
    computed once for the run: when it raises, the log of the run has the
    error line of the ranking exactly once, however many sources the batch
    has, and no such line when the run ends before the loop. *)
Theorem C8_one_conviction_text_for_the_batch (host : Host) (self : Enhanced.t)
    (use_ai : bool) (w : World) :
  let convictions_text := convictions_text_of host self in
  let batch_runs := pdf_dir_exists host && bool_decide (pdf_dir_glob host ≠ []) in
  (∀ w0, (Enhanced.get_top_convictions host self None w0).1
         = Returns convictions_text)
  ∧ (∃ w' lines,
       Enhanced.process_all_reports host self use_ai w = (Returns tt, w')
       ∧ written w'
         = written w ++
           (if pdf_dir_exists host
            then batch_written host self use_ai convictions_text (pdf_dir_glob host)
            else [])
       ∧ log w' = log w ++ lines
       ∧ conviction_errors lines
         = if batch_runs && ranking_fails self then 1 else 0)
  ∧ (∀ path content,
       (path, content) ∈ batch_written host self use_ai convictions_text
                           (pdf_dir_glob host) →
       ∃ pdf, pdf ∈ pdf_dir_glob host
              ∧ path = Enhanced.output_path host (Enhanced.client_name_of pdf)
              ∧ content = email_text host self (Enhanced.client_name_of pdf)
                            (metrics_of pdf) convictions_text use_ai).
Proof.
  intros convictions_text batch_runs. split_and!.
  - intros w0. by destruct (get_top_convictions_returns host self w0) as (w' & -> & _).
  - unfold batch_runs. destruct (pdf_dir_exists host) eqn:Hdir.
    + destruct (pdf_dir_glob host) as [|pdf rest] eqn:Hglob.
      * unfold Enhanced.process_all_reports. rewrite Hdir, Hglob. simpl.
        eexists _, _. split; [done|]. simpl. rewrite app_nil_r. done.
      * rewrite <-Hglob.
        destruct (process_all_reports_spec host self use_ai w)
          as (w' & Hrun & Hw & _ & _ & (lines & Hl & Hc) & _);
          [done|by rewrite Hglob|].
        exists w', lines. rewrite bool_decide_eq_true_2 by by rewrite Hglob.
        done.
    + unfold Enhanced.process_all_reports. rewrite Hdir. simpl.
      eexists _, _. split; [done|]. simpl. rewrite app_nil_r. done.
  - intros path content Hin. unfold batch_written in Hin.
    apply list_elem_of_fmap in Hin as (pdf & [= -> ->] & Hpdf).
    apply list_elem_of_filter in Hpdf as [_ Hpdf]. by exists pdf.
Qed.

(** With a table whose column is not numeric the ranking raises; the batch
    of two reports logs its error line once and writes the same conviction
    text into both emails. *)
Lemma batch_of_two_ranks_once :
  conviction_errors
    (log (Enhanced.process_all_reports demo_host object_column_generator false
            empty_world).2) = 1
  ∧ (written (Enhanced.process_all_reports demo_host object_column_generator false
                empty_world).2).*1
    = ["PerformanceSystem/output/emails/John Smith.txt";
       "PerformanceSystem/output/emails/Sarah Johnson.txt"]
  ∧ convictions_text_of demo_host object_column_generator
    = "Error retrieving conviction data".
Proof. split_and!; vm_compute; reflexivity. Qed.

(** ** C2: a source that cannot be read *)

Lemma filter_all {A} (P : A → Prop) `{∀ x, Decision (P x)} (l : list A) :
  Forall P l → filter P l = l.
Proof.
  induction 1 as [|x l Hx Hl IH]; [done|].
  rewrite filter_cons_True by done. by rewrite IH.
Qed.

Lemma sample_data_not_empty : sample_data ≠ ∅.
Proof.
  intros Heq. apply (f_equal (λ m : gmap string string, m !! "YTD")) in Heq.
  by vm_compute in Heq.
Qed.

(** C2, as amended. In a batch whose readable sources all yield at least one
    metric and whose writes go through (the file system takes every text,
    and every email is a text), a source that cannot be read is not
    skipped: the run returns, the error of the source is logged, the
    fallback record stands for its metrics, its email is written, and the
    count the run reports is the number N of sources. *)
Theorem C2_unreadable_source_is_processed_with_fallback (host : Host)
    (self : Enhanced.t) (use_ai : bool) (w : World) :
  pdf_dir_exists host = true →
  pdf_dir_glob host ≠ [] →
  (∀ pdf pages, pdf ∈ pdf_dir_glob host → pdf_pages pdf = inr pages →
                extract_metrics (Enhanced.all_text pages) ≠ ∅) →
  (∀ path content, write_error host path content = None) →
  (∀ pdf, pdf ∈ pdf_dir_glob host →
          email_is_text host self use_ai (convictions_text_of host self) pdf = true) →
  ∃ w',
    Enhanced.process_all_reports host self use_ai w = (Returns tt, w')
    ∧ last (log w')
      = Some (INFO, "🎉 Successfully processed "
                    +:+ pretty (length (pdf_dir_glob host)) +:+ " reports")
    ∧ (∀ pdf e, pdf ∈ pdf_dir_glob host → pdf_pages pdf = inl e →
         parse_error_line host pdf e ∈ log w'
         ∧ (Enhanced.parse_pdf_report host pdf w).1 = Returns sample_data
         ∧ (Enhanced.output_path host (Enhanced.client_name_of pdf),
            email_text host self (Enhanced.client_name_of pdf) sample_data
              (convictions_text_of host self) use_ai) ∈ written w').
Proof.
  intros Hdir Hfiles Hmetrics Hwrite Htext.
  assert (∀ pdf, pdf ∈ pdf_dir_glob host →
            counted host self use_ai (convictions_text_of host self) pdf = true)
    as Hcounted.
  { intros pdf Hin. unfold counted. rewrite Hwrite, (Htext pdf Hin).
    rewrite (bool_decide_eq_true_2 (None = None)) by done.
    rewrite !andb_true_r. apply bool_decide_eq_true. unfold metrics_of.
    destruct (pdf_pages pdf) as [e|pages] eqn:Hpages.
    - apply sample_data_not_empty.
    - by eapply Hmetrics. }
  assert (filter (λ pdf, counted host self use_ai (convictions_text_of host self)
                           pdf = true) (pdf_dir_glob host) = pdf_dir_glob host)
    as Hall.
  { apply filter_all, Forall_forall, Hcounted. }
  destruct (process_all_reports_spec host self use_ai w Hdir Hfiles)
    as (w' & Hrun & Hw & Hlast & Herr).
  exists w'. split; [done|]. rewrite Hall in Hlast. split; [done|].
  intros pdf e Hin Hpages. split_and!.
  - by eapply Herr.
  - destruct (parse_pdf_report_spec host pdf w) as (w1 & -> & _). simpl.
    unfold metrics_of. by rewrite Hpages.
  - rewrite Hw. apply elem_of_app. right. unfold batch_written. rewrite Hall.
    apply list_elem_of_fmap. exists pdf. split; [|done].
    unfold path_of, email_of, metrics_of. by rewrite Hpages.
Qed.

(** The amended C2 at the two reports of the examples, the second of which
    cannot be read. *)
Lemma C2_unreadable_source_is_processed_with_fallback_witness :
  pdf_dir_exists demo_host = true
  ∧ pdf_dir_glob demo_host ≠ []
  ∧ (∀ path content, write_error demo_host path content = None)
  ∧ Forall (λ pdf, email_is_text demo_host demo_generator false
                     (convictions_text_of demo_host demo_generator) pdf = true)
      (pdf_dir_glob demo_host)
  ∧ ∃ w',
      Enhanced.process_all_reports demo_host demo_generator false empty_world
        = (Returns tt, w')
      ∧ last (log w') = Some (INFO, "🎉 Successfully processed 2 reports").
Proof.
  assert (Forall (λ pdf, email_is_text demo_host demo_generator false
                           (convictions_text_of demo_host demo_generator) pdf = true)
            (pdf_dir_glob demo_host)) as Htext.
  { repeat apply Forall_cons_2; [vm_compute; reflexivity..|apply Forall_nil_2]. }
  split; [reflexivity|]. split; [discriminate|]. split; [reflexivity|].
  split; [exact Htext|].
  destruct (C2_unreadable_source_is_processed_with_fallback demo_host
              demo_generator false empty_world) as (w' & Hrun & Hlast & _).
  - reflexivity.
  - discriminate.
  - intros pdf pages Hin Hpages.
    apply elem_of_cons in Hin as [->|Hin].
    + injection Hpages as <-. vm_compute. discriminate.
    + apply elem_of_cons in Hin as [->|Hin]; [discriminate|].
      by apply elem_of_nil in Hin.
  - reflexivity.
  - intros pdf Hin. exact (proj1 (Forall_forall _ _) Htext pdf Hin).
  - exists w'. split; [exact Hrun|exact Hlast].
Defined.

(** C2 as stated fails: of the two reports of the examples one cannot be
    read, and the run reports 2 processed reports, not 1; the email of the
    unreadable report is written, from the fallback record. *)
Lemma C2_counterexample_unreadable_is_counted :
  length (pdf_dir_glob demo_host) = 2
  ∧ pdf_pages <$> pdf_dir_glob demo_host !! 1
    = Some (inl (Exception "No /Root object! - Is this really a PDF?"))
  ∧ last (log (Enhanced.process_all_reports demo_host demo_generator false
                 empty_world).2)
    = Some (INFO, "🎉 Successfully processed 2 reports")
  ∧ (written (Enhanced.process_all_reports demo_host demo_generator false
                empty_world).2).*1
    = ["PerformanceSystem/output/emails/John Smith.txt";
       "PerformanceSystem/output/emails/Sarah Johnson.txt"]
  ∧ 2 ≠ 2 - 1.
Proof. split_and!; [vm_compute; reflexivity..|discriminate]. Qed.

(** ** C5: a template the engine cannot serve *)

Lemma template_with_field_not_empty segs field rest :
  template_of segs +:+ "{" +:+ field +:+ "}" +:+ rest ≠ "".
Proof. by destruct (template_of segs). Qed.

(** With a missing template or a placeholder outside the five, what
    [generate_email] returns is a text. *)
Lemma mismatch_email_is_text host self client_name metrics convictions use_ai :
  template_mismatch self →
  ∃ text, email_value host self client_name metrics convictions use_ai = Some text.
Proof.
  intros Hmismatch. unfold email_value, returned.
  destruct Hmismatch as [Hmissing|segs field rest Hsegs Hplain Hfield Ht].
  - rewrite (generate_email_no_template host self client_name metrics convictions
               use_ai empty_world Hmissing). by eexists.
  - destruct (str_format_unknown_placeholder host client_name metrics convictions
                segs field rest Hsegs Hplain Hfield) as (e & Hfmt & _).
    rewrite (generate_email_format_error host self client_name metrics
               convictions use_ai empty_world _ e Ht
               (template_with_field_not_empty segs field rest) Hfmt). by eexists.
Qed.

(** C5, as amended. When the template is missing or names a placeholder
    outside the five, [generate_email] raises nothing: it returns a text,
    the fixed notice for a missing template or the message of the exception
    it caught and logged (so for every template on which formatting
    raises), and it writes no file. The loop takes that text
    for the email: for a source with metrics whose file can be written it
    writes the text to the recipient's file and counts the source. *)
Theorem C5_template_mismatch_is_returned_as_text (host : Host) (self : Enhanced.t)
    (client_name : string) (metrics : gmap string string) (convictions : string)
    (use_ai : bool) (w : World) :
  template_mismatch self →
  let text := email_text host self client_name metrics convictions use_ai in
  (∃ w',
     Enhanced.generate_email host self client_name metrics convictions use_ai w
       = (Returns (Some text), w')
     ∧ written w' = written w)
  ∧ (text = "Email template not available"
     ∨ ∃ e, text = "Error generating email: " +:+ exn_str e
            ∧ (Enhanced.generate_email host self client_name metrics convictions
                 use_ai w).2
              = {| log := log w ++ [(ERROR, "Error generating email for "
                                            +:+ client_name +:+ ": " +:+ exn_str e)];
                   written := written w;
                   unfinished := unfinished w |})
  ∧ (∀ t e,
       Enhanced.email_template self = Some t → t ≠ "" →
       str_format (format_tail host) (email_kwargs client_name metrics convictions) t
         = inl e →
       text = "Error generating email: " +:+ exn_str e)
  ∧ (∀ pdf convictions_text w0,
       metrics_of pdf ≠ ∅ →
       write_error host (path_of host pdf)
         (email_of host self use_ai convictions_text pdf) = None →
       ∃ w0',
         Enhanced.loop_body host self use_ai convictions_text pdf w0
           = (Returns true, w0')
         ∧ written w0'
           = written w0 ++ [(path_of host pdf,
                             email_of host self use_ai convictions_text pdf)]).
Proof.
  intros Hmismatch text.
  destruct (generate_email_returns host self client_name metrics convictions
              use_ai w) as (w' & Hrun & Hw & _).
  destruct (mismatch_email_is_text host self client_name metrics convictions
              use_ai Hmismatch) as (text' & Hvalue).
  assert (text = text') as <-.
  { unfold text, email_text. by rewrite Hvalue. }
  rewrite Hvalue in Hrun.
  split_and!.
  - by exists w'.
  - destruct Hmismatch as [Hmissing|segs field rest Hsegs Hplain Hfield Ht].
    + left. pose proof (generate_email_no_template host self client_name metrics
                          convictions use_ai w Hmissing) as Hrun'.
      rewrite Hrun in Hrun'. congruence.
    + right.
      destruct (str_format_unknown_placeholder host client_name metrics convictions
                  segs field rest Hsegs Hplain Hfield) as (e & Hfmt & _).
      pose proof (generate_email_format_error host self client_name metrics
                    convictions use_ai w _ e Ht
                    (template_with_field_not_empty segs field rest) Hfmt) as Hrun'.
      exists e. rewrite Hrun'. split; [|done].
      rewrite Hrun in Hrun'. congruence.
  - intros t e Ht Hne Hfmt.
    pose proof (generate_email_format_error host self client_name metrics
                  convictions use_ai w t e Ht Hne Hfmt) as Hrun'.
    rewrite Hrun in Hrun'. congruence.
  - intros pdf convictions_text w0 Hmetrics Hwrite.
    destruct (loop_body_spec host self use_ai convictions_text pdf w0)
      as (w0' & Hbody & Hw0 & _).
    assert (counted host self use_ai convictions_text pdf = true) as Hcounted.
    { unfold counted, email_is_text. rewrite Hwrite.
      destruct (mismatch_email_is_text host self (Enhanced.client_name_of pdf)
                  (metrics_of pdf) convictions_text use_ai Hmismatch) as (t & ->).
      by rewrite !bool_decide_eq_true_2. }
    rewrite Hcounted in Hbody, Hw0. by exists w0'.
Qed.

(** The amended C5 at a template that names the placeholder [Alpha]. *)
Lemma C5_template_mismatch_is_returned_as_text_witness :
  template_mismatch mismatched_generator
  ∧ ∃ w',
      Enhanced.generate_email demo_host mismatched_generator "John Smith"
        sample_data "" false empty_world
      = (Returns (Some (email_text demo_host mismatched_generator "John Smith"
                          sample_data "" false)), w')
      ∧ written w' = written empty_world.
Proof.
  assert (template_mismatch mismatched_generator) as Hmismatch.
  { apply (template_unknown_placeholder mismatched_generator
             [Text "Hi "; Placeholder "Name"; Text ", your alpha is "]
             "Alpha" ".").
    - reflexivity.
    - reflexivity.
    - vm_compute. intros Hin. inversion Hin; subst.
      repeat match goal with H : _ ∈ _ |- _ => inversion H; clear H; subst end.
    - reflexivity. }
  split; [exact Hmismatch|].
  apply (C5_template_mismatch_is_returned_as_text demo_host mismatched_generator
           "John Smith" sample_data "" false empty_world Hmismatch).
Defined.

(** C5 as stated fails: with an unknown placeholder, and with no template,
    [generate_email] returns a text as for any email, and the batch run
    writes one file per report and reports both reports as processed. *)
Lemma C5_counterexample_error_is_swallowed :
  Enhanced.generate_email demo_host mismatched_generator "John Smith"
    sample_data "" false empty_world
  = (Returns (Some "Error generating email: 'Alpha'"),
     {| log := [(ERROR, "Error generating email for John Smith: 'Alpha'")];
        written := [];
        unfinished := [] |})
  ∧ Enhanced.generate_email demo_host no_template_generator "John Smith"
      sample_data "" false empty_world
    = (Returns (Some "Email template not available"), empty_world)
  ∧ (Enhanced.process_all_reports demo_host mismatched_generator false
       empty_world).1 = Returns tt
  ∧ written (Enhanced.process_all_reports demo_host mismatched_generator false
               empty_world).2
    = [("PerformanceSystem/output/emails/John Smith.txt",
        "Error generating email: 'Alpha'");
       ("PerformanceSystem/output/emails/Sarah Johnson.txt",
        "Error generating email: 'Alpha'")]
  ∧ last (log (Enhanced.process_all_reports demo_host mismatched_generator false
                 empty_world).2)
    = Some (INFO, "🎉 Successfully processed 2 reports").
Proof. split_and!; vm_compute; reflexivity. Qed.

(** ** C9: rendering twice *)

Lemma no_braces_app s1 s2 :
  no_braces (s1 +:+ s2) = no_braces s1 && no_braces s2.
Proof. apply string_forall_app. Qed.

Lemma render_no_braces client_name metrics convictions segs :
  forallb plain_segment segs = true →
  no_braces client_name = true →
  no_braces convictions = true →
  (∀ key value, metrics !! key = Some value → no_braces value = true) →
  no_braces (render client_name metrics convictions segs) = true.
Proof.
  intros Hsegs Hname Hconv Hmetrics.
  assert (∀ key, no_braces (metric_or_na metrics key) = true) as Hna.
  { intros key. unfold metric_or_na.
    destruct (metrics !! key) as [value|] eqn:Hkey; [by eapply Hmetrics|done]. }
  induction segs as [|seg segs IH]; [done|].
  simpl in Hsegs. apply andb_true_iff in Hsegs as [Hseg Hsegs].
  simpl. rewrite no_braces_app, (IH Hsegs), andb_true_r.
  destruct seg as [text|name]; [done|].
  unfold placeholder_value. repeat case_decide; done.
Qed.

Lemma template_empty_render_empty client_name metrics convictions segs :
  template_of segs = "" → render client_name metrics convictions segs = "".
Proof.
  induction segs as [|seg segs IH]; [done|]. simpl.
  destruct seg as [text|name]; simpl; [|done].
  destruct text; [|done]. rewrite !app_empty_l. apply IH.
Qed.

(** C9, as amended. For a template of brace-free text and the five
    placeholders and a context whose name, metric values and conviction text
    hold no brace, the rendered output holds no brace, so none of the
    placeholders; and every non-empty text without braces, this output
    among them, is rendered to itself: rendering the output again changes
    nothing. *)
Theorem C9_rendering_brace_free_text_is_a_no_op (host : Host) (self : Enhanced.t)
    (segs : list segment) (client_name : string) (metrics : gmap string string)
    (convictions : string) (w : World) :
  forallb plain_segment segs = true →
  Enhanced.email_template self = Some (template_of segs) →
  no_braces client_name = true →
  no_braces convictions = true →
  (∀ key value, metrics !! key = Some value → no_braces value = true) →
  let rendered := render client_name metrics convictions segs in
  rendered ≠ "" →
  Enhanced.generate_email host self client_name metrics convictions false w
    = (Returns (Some rendered), w)
  ∧ no_braces rendered = true
  ∧ (∀ (again : Enhanced.t) (text : string),
       Enhanced.email_template again = Some text →
       no_braces text = true → text ≠ "" →
       Enhanced.generate_email host again client_name metrics convictions false w
         = (Returns (Some text), w))
  ∧ (∀ again : Enhanced.t,
       Enhanced.email_template again = Some rendered →
       Enhanced.generate_email host again client_name metrics convictions false w
         = (Returns (Some rendered), w)).
Proof.
  intros Hsegs Ht Hname Hconv Hmetrics rendered Hne.
  assert (∀ (again : Enhanced.t) (text : string),
            Enhanced.email_template again = Some text →
            no_braces text = true → text ≠ "" →
            Enhanced.generate_email host again client_name metrics convictions
              false w = (Returns (Some text), w)) as Hagain.
  { intros again text Hagain Htext Htext_ne.
    by rewrite (generate_email_formatted host again _ _ _ _ w text text Hagain
                  Htext_ne (str_format_no_braces _ _ _ Htext)). }
  assert (no_braces rendered = true) as Hfree by by apply render_no_braces.
  split_and!.
  - rewrite (generate_email_formatted host self _ _ _ _ w _ rendered Ht); [done| |].
    + intros Hempty. apply Hne.
      by apply template_empty_render_empty.
    + by apply str_format_segments.
  - done.
  - done.
  - intros again Hagain_t. by apply Hagain.
Qed.

(** The amended C9 at the template of the examples. *)
Lemma C9_rendering_brace_free_text_is_a_no_op_witness :
  forallb plain_segment demo_segments = true
  ∧ Enhanced.email_template demo_generator = Some (template_of demo_segments)
  ∧ no_braces "John Smith" = true
  ∧ no_braces "(convictions)" = true
  ∧ render "John Smith" ∅ "(convictions)" demo_segments ≠ ""
  ∧ no_braces (render "John Smith" ∅ "(convictions)" demo_segments) = true.
Proof.
  split; [reflexivity|]. split; [reflexivity|]. split; [reflexivity|].
  split; [reflexivity|]. split; [discriminate|].
  apply (C9_rendering_brace_free_text_is_a_no_op demo_host demo_generator
           demo_segments "John Smith" ∅ "(convictions)" empty_world).
  - reflexivity.
  - reflexivity.
  - reflexivity.
  - reflexivity.
  - intros key value Hkey. rewrite lookup_empty in Hkey. discriminate Hkey.
  - discriminate.
Defined.

(** C9 as stated fails: the template with the doubled braces renders to a
    text that is the placeholder of the name, and rendering that text again
    with the same context gives the name. *)
Lemma C9_counterexample_escaped_braces :
  Enhanced.generate_email demo_host escaped_generator "Bob" ∅ "" false empty_world
  = (Returns (Some "{Name}"), empty_world)
  ∧ Enhanced.email_template rerender_generator = Some "{Name}"
  ∧ Enhanced.generate_email demo_host rerender_generator "Bob" ∅ "" false empty_world
    = (Returns (Some "Bob"), empty_world)
  ∧ "Bob" ≠ "{Name}".
Proof. split_and!; [vm_compute; reflexivity..|discriminate]. Qed.

(** ** C4: absent metrics *)

Lemma email_kwargs_with_na client_name metrics convictions :
  email_kwargs client_name (with_na metrics) convictions
  = email_kwargs client_name metrics convictions.
Proof.
  unfold email_kwargs, with_na, metric_or_na.
  rewrite lookup_insert_eq.
  rewrite lookup_insert_ne, lookup_insert_eq by done.
  rewrite !lookup_insert_ne, lookup_insert_eq by done.
  by destruct (metrics !! "YTD"), (metrics !! "SinceInception"),
       (metrics !! "Sharpe").
Qed.

Lemma basic_generate_email_returns host (self : Basic.t)
    client_name metrics convictions w :
  ∃ text w',
    Basic.generate_email host self client_name metrics convictions w
    = (Returns text, w')
    ∧ only_logs w w'.
Proof.
  unfold Basic.generate_email.
  destruct (Basic.email_template self) as [[|c t]|].
  - eexists _, w. split; [done|apply only_logs_refl].
  - unfold_m. destruct (str_format _ _ _) as [e|email_content]; simpl.
    + eexists _, _. split; [done|]. by apply only_logs_logger.
    + eexists _, w. split; [done|apply only_logs_refl].
  - eexists _, w. split; [done|apply only_logs_refl].
Qed.

(** C4. For every template made of literal text and the five placeholders
    and every render context, both generators return the template with each
    placeholder replaced by its value, where a metric among [YTD],
    [SinceInception], [Sharpe] that the record lacks stands as the literal
    N/A and a metric it has stands as its own text; the call returns (no
    exception, nothing logged), whichever metrics are absent. Whatever the
    template, an absent metric is rendered as the same metric with the
    value N/A would be, and [generate_email] returns and never raises. *)
Theorem C4_absent_metric_renders_as_NA (host : Host) (self : Enhanced.t)
    (basic : Basic.t) (segs : list segment) (client_name : string)
    (metrics : gmap string string) (convictions : string) (w : World) :
  forallb plain_segment segs = true →
  template_of segs ≠ "" →
  Enhanced.email_template self = Some (template_of segs) →
  Basic.email_template basic = Some (template_of segs) →
  Enhanced.generate_email host self client_name metrics convictions false w
    = (Returns (Some (render client_name metrics convictions segs)), w)
  ∧ Basic.generate_email host basic client_name metrics convictions w
    = (Returns (render client_name metrics convictions segs), w)
  ∧ (∀ key, key ∈ ["YTD"; "SinceInception"; "Sharpe"] →
       (metrics !! key = None →
        placeholder_value client_name metrics convictions key = "N/A")
       ∧ (∀ value, metrics !! key = Some value →
            placeholder_value client_name metrics convictions key = value))
  ∧ (∀ (any : Enhanced.t) (use_ai : bool),
       Enhanced.generate_email host any client_name metrics convictions use_ai w
       = Enhanced.generate_email host any client_name (with_na metrics)
           convictions use_ai w
       ∧ ∃ value w',
           Enhanced.generate_email host any client_name metrics convictions
             use_ai w = (Returns value, w'))
  ∧ (∀ any : Basic.t,
       Basic.generate_email host any client_name metrics convictions w
       = Basic.generate_email host any client_name (with_na metrics) convictions w
       ∧ ∃ text w',
           Basic.generate_email host any client_name metrics convictions w
           = (Returns text, w')).
Proof.
  intros Hsegs Hne Hself Hbasic.
  pose proof (str_format_segments host client_name metrics convictions segs Hsegs)
    as Hfmt.
  split_and!.
  - by rewrite (generate_email_formatted host self _ _ _ _ w _ _ Hself Hne Hfmt).
  - by apply (basic_generate_email_formatted host basic _ _ _ w _ _ Hbasic Hne Hfmt).
  - intros key Hkey.
    assert (key = "YTD" ∨ key = "SinceInception" ∨ key = "Sharpe") as Hcases.
    { revert Hkey. rewrite !elem_of_cons, elem_of_nil. tauto. }
    unfold placeholder_value, metric_or_na.
    destruct Hcases as [-> | [-> | ->]]; simpl; split.
    all: try (intros ->; done). all: intros value ->; done.
  - intros any use_ai. split.
    + unfold Enhanced.generate_email, Enhanced.enhance_with_ai.
      by rewrite email_kwargs_with_na.
    + destruct (generate_email_returns host any client_name metrics convictions
                  use_ai w) as (w' & Hrun & _).
      by eauto.
  - intros any. split.
    + unfold Basic.generate_email. by rewrite email_kwargs_with_na.
    + destruct (basic_generate_email_returns host any client_name metrics
                  convictions w) as (text & w' & Hrun & _).
      by eauto.
Qed.

(** C4 at a template with all five placeholders and a record that lacks
    [Sharpe]. *)
Lemma C4_absent_metric_renders_as_NA_witness :
  forallb plain_segment demo_segments = true
  ∧ template_of demo_segments ≠ ""
  ∧ Enhanced.email_template demo_generator = Some (template_of demo_segments)
  ∧ Basic.email_template basic_generator = Some (template_of demo_segments)
  ∧ Enhanced.generate_email demo_host demo_generator "John Smith"
      metrics_without_sharpe "(convictions)" false empty_world
    = (Returns (Some ("Hi John Smith," +:+ LF +:+ "YTD return: 8.5%" +:+ LF
                      +:+ "Since inception: 12.3%" +:+ LF +:+ "Sharpe: N/A" +:+ LF
                      +:+ "(convictions)" +:+ LF)), empty_world).
Proof.
  split; [reflexivity|]. split; [discriminate|].
  split; [reflexivity|]. split; [reflexivity|].
  apply (C4_absent_metric_renders_as_NA demo_host demo_generator basic_generator
           demo_segments "John Smith" metrics_without_sharpe "(convictions)"
           empty_world); [reflexivity|discriminate|reflexivity|reflexivity].
Defined.

(** ** What the patterns extract *)

Lemma star_match_result_len {A} c s (k : string → option A) x :
  star_match c s k = Some x →
  ∃ s', String.length s' ≤ String.length s ∧ k s' = Some x.
Proof.
  induction s as [|a s IH]; cbn [star_match]; [by eauto|].
  destruct (cmatch c a); [|by eauto].
  destruct (star_match c s k) as [y|]; [|by eauto].
  intros [= ->]. destruct (IH eq_refl) as (s' & Hlen & Hk).
  exists s'. split; [simpl; lia|done].
Qed.

Lemma rmatch_result_len {A} r :
  ∀ s cap (k : string → option string → option A) x,
    rmatch r s cap k = Some x →
    ∃ s' cap', String.length s' ≤ String.length s ∧ k s' cap' = Some x.
Proof.
  induction r as [|c|c|c|r IH|r1 IH1 r2 IH2|r IH]; intros s cap k x; cbn [rmatch].
  - by eauto.
  - destruct s as [|a s]; [done|]. destruct (cmatch c a); [|done].
    intros Hk. exists s, cap. split; [simpl; lia|done].
  - intros (s' & Hlen & Hs')%star_match_result_len. by eauto.
  - destruct s as [|a s]; [done|]. destruct (cmatch c a); [|done].
    intros (s' & Hlen & Hs')%star_match_result_len.
    exists s', cap. split; [simpl; lia|done].
  - destruct (rmatch r s cap k) as [y|] eqn:Hr; [|by eauto].
    intros [= ->]. by eapply IH.
  - intros (s' & cap' & Hlen & Hr2)%IH1.
    apply IH2 in Hr2 as (s'' & cap'' & Hlen' & Hk).
    exists s'', cap''. split; [lia|done].
  - intros (s' & cap' & Hlen & Hk)%IH. by eauto.
Qed.

(** The digits start at a digit and take at least that digit. *)
Lemma digits_end_digit ok s s2 :
  digits_end ok s = Some s2 →
  ∃ a s', s = String a s' ∧ is_digit a = true
          ∧ String.length s2 ≤ String.length s'.
Proof.
  unfold digits_end.
  change digits_tail
    with (RSeq (RPlus CDigit) (rcat [ROpt (RChar (CLit ".")); RStar CDigit])).
  cbn [rmatch]. destruct s as [|a s]; [done|].
  change (cmatch CDigit a) with (is_digit a).
  destruct (is_digit a) eqn:Hd; [|done].
  intros (s1 & Hlen1 & Hr)%star_match_result_len.
  apply rmatch_result_len in Hr as (s3 & cap' & Hlen3 & Hk).
  destruct (ok s3); [|done]. injection Hk as <-.
  exists a, s. split; [done|]. split; [done|lia].
Qed.

(** The number group followed by [tl], started at [s]. *)
Lemma number_group_at (ok : string → bool) tl s cap :
  (∀ s2 (c : option string),
     rmatch tl s2 c (λ _ cap', Some cap')
     = if ok s2 then Some c else @None (option string)) →
  rmatch (RSeq number_group tl) s cap (λ _ cap', Some cap') = number_at ok s.
Proof.
  intros Htl.
  assert (∀ s0 cap0,
    rmatch digits_tail s0 cap0
      (λ s2 _, rmatch tl s2 (Some (consumed s s2)) (λ _ cap', Some cap'))
    = (λ s2, Some (consumed s s2)) <$> digits_end ok s0) as Htail.
  { intros s0 cap0. unfold digits_end.
    assert (∀ c1 c2 (k : string → option (option string)),
              rmatch digits_tail s0 c1 (λ s2 _, k s2)
              = rmatch digits_tail s0 c2 (λ s2 _, k s2)) as Hcap.
    { intros c1 c2 k. simpl. done. }
    rewrite (Hcap cap0 None
               (λ s2, rmatch tl s2 (Some (consumed s s2)) (λ _ cap', Some cap'))).
    apply rmatch_fmap. intros s2 _. rewrite Htl. by destruct (ok s2). }
  change (RSeq number_group tl)
    with (RSeq (RGroup (RSeq (ROpt (RChar (CLit "-"))) digits_tail)) tl).
  cbn [rmatch].
  destruct s as [|a s']; [done|].
  unfold number_at.
  destruct (cmatch (CLit "-") a) eqn:Ha.
  - rewrite !Htail.
    destruct (digits_end ok s') as [s2|] eqn:Hend; [done|].
    destruct (digits_end ok (String a s')) as [s2|] eqn:Hend'; [|done].
    apply digits_end_digit in Hend' as (d & s'' & [= <- <-] & Hd & _).
    by rewrite (digit_not_minus a Hd) in Ha.
  - apply Htail.
Qed.

(** After the greedy run of non-digits the group starts at a digit. *)
Lemma number_after_gap_starts_with_digit ok s x :
  star_match CNotDigit s (number_at ok) = Some x →
  ∃ g, x = Some g ∧ starts_with_digit g.
Proof.
  induction s as [|a s IH]; [done|].
  cbn [star_match]. change (cmatch CNotDigit a) with (negb (is_digit a)).
  destruct (is_digit a) eqn:Hd; cbn [negb].
  - unfold number_at. rewrite (digit_not_minus a Hd).
    destruct (digits_end ok (String a s)) as [s2|] eqn:Hend; [|done].
    apply digits_end_digit in Hend as (d & s' & [= <- <-] & _ & Hlen).
    intros [= <-]. eexists; split; [done|].
    unfold consumed. cbn [String.length].
    rewrite Nat.sub_succ_l by done. simpl. done.
  - destruct (star_match CNotDigit s (number_at ok)) as [y|] eqn:Hin.
    { intros [= ->]. by apply IH. }
    unfold number_at. destruct (cmatch (CLit "-") a).
    + destruct (digits_end ok s) as [s2|] eqn:Hend; [|done].
      apply digits_end_digit in Hend as Hs. destruct Hs as (d & s' & -> & Hdd & _).
      cbn [star_match] in Hin.
      change (cmatch CNotDigit d) with (negb (is_digit d)) in Hin.
      rewrite Hdd in Hin. cbn [negb] in Hin. unfold number_at in Hin.
      rewrite (digit_not_minus d Hdd), Hend in Hin. done.
    + destruct (digits_end ok (String a s)) as [s2|] eqn:Hend; [|done].
      apply digits_end_digit in Hend as (d & s' & [= <- <-] & Hdd & _). congruence.
Qed.

Lemma rmatch_number_starts_with_digit r s cap x :
  ends_with_number r →
  rmatch r s cap (λ _ cap', Some cap') = Some x →
  ∃ g, x = Some g ∧ starts_with_digit g.
Proof.
  intros Hr. revert s cap. induction Hr as [| |r1 r2 Hr IH]; intros s cap.
  - change percent_tail
      with (RSeq (RStar CNotDigit) (RSeq number_group (rcat [RChar (CLit "%")]))).
    cbn [rmatch]. rewrite (star_match_ext _ _ _ (number_at percent_next)).
    + apply number_after_gap_starts_with_digit.
    + intros s'. apply (number_group_at percent_next). intros s2 c.
      destruct s2 as [|b s2]; simpl; [done|]. by case_match.
  - change plain_tail with (RSeq (RStar CNotDigit) (RSeq number_group REmpty)).
    cbn [rmatch]. rewrite (star_match_ext _ _ _ (number_at anything_next)).
    + apply number_after_gap_starts_with_digit.
    + intros s'. by apply (number_group_at anything_next REmpty).
  - cbn [rmatch]. intros (s' & cap' & Hr2)%rmatch_result. by eapply IH.
Qed.

Lemma re_search_group r s m :
  re_search r s = Some m →
  ∃ s' , rmatch r s' None (λ _ cap', Some cap') = Some (group1 m).
Proof.
  induction s as [|a s IH]; cbn [re_search].
  - destruct (rmatch r "" None _) as [x|] eqn:Hx; [|done].
    intros [= <-]. by eauto.
  - destruct (rmatch r (String a s) None _) as [x|] eqn:Hx; [|done].
    intros [= <-]. by eauto.
Qed.

Lemma patterns_end_with_number :
  Forall ends_with_number
    [ytd_pattern; inception_pattern; sharpe_pattern; beta_pattern; drawdown_pattern].
Proof. repeat constructor. Qed.

(** Each value of the record is the group of one of the five patterns, with
    or without the percent sign. *)
Lemma extract_metrics_lookup text key v :
  extract_metrics text !! key = Some v →
  ∃ r m, ends_with_number r ∧ re_search r text = Some m
         ∧ (v = group m ∨ v = group m +:+ "%").
Proof.
  pose proof patterns_end_with_number as Hpat.
  rewrite !Forall_cons in Hpat. destruct Hpat as (H1 & H2 & H3 & H4 & H5 & _).
  unfold extract_metrics.
  destruct (re_search ytd_pattern text) as [m1|] eqn:E1;
  destruct (re_search inception_pattern text) as [m2|] eqn:E2;
  destruct (re_search sharpe_pattern text) as [m3|] eqn:E3;
  destruct (re_search beta_pattern text) as [m4|] eqn:E4;
  destruct (re_search drawdown_pattern text) as [m5|] eqn:E5;
  intros Hv;
  repeat match type of Hv with
  | <[?k := _]> _ !! key = Some _ =>
      destruct (decide (k = key)) as [<-|?];
      [rewrite lookup_insert_eq in Hv; injection Hv as <-; by eauto 10
      |rewrite lookup_insert_ne in Hv by done]
  end; by rewrite lookup_empty in Hv.
Qed.

(** Whatever the report text, every value [extract_metrics] puts in the
    record starts with a decimal digit: a number is never extracted with
    its sign, the Sharpe ratio and the beta included, and never empty. *)
Theorem extracted_value_starts_with_digit (text key v : string) :
  extract_metrics text !! key = Some v → starts_with_digit v.
Proof.
  intros (r & m & Hr & Hm & Hv)%extract_metrics_lookup.
  apply re_search_group in Hm as (s' & Hm).
  apply (rmatch_number_starts_with_digit _ _ _ _ Hr) in Hm as (g & Hg & Hd).
  unfold group in Hv. rewrite Hg in Hv. simpl in Hv.
  destruct g as [|d g]; [done|]. by destruct Hv as [-> | ->].
Qed.

Lemma extracted_value_starts_with_digit_witness :
  extract_metrics ("Sharpe Ratio: -0.35" +:+ LF +:+ "Beta: -1.2") !! "Beta" = Some "1.2"
  ∧ starts_with_digit "1.2".
Proof.
  split; [vm_compute; reflexivity|].
  apply (extracted_value_starts_with_digit
           ("Sharpe Ratio: -0.35" +:+ LF +:+ "Beta: -1.2") "Beta" "1.2").
  vm_compute. reflexivity.
Defined.

(** ** Reports without a digit on the pages read *)

Lemma no_digit_tail a s : no_digit (String a s) = true → is_digit a = false ∧ no_digit s = true.
Proof.
  unfold no_digit. simpl. intros [Ha Hs]%andb_true_iff.
  by apply negb_true_iff in Ha.
Qed.

Lemma star_match_no_digit {A} c s (k : string → option A) :
  no_digit s = true → (∀ s', no_digit s' = true → k s' = None) →
  star_match c s k = None.
Proof.
  intros Hs Hk. induction s as [|a s IH]; cbn [star_match]; [by apply Hk|].
  destruct (no_digit_tail a s Hs) as [_ Hs'].
  rewrite (IH Hs'), (Hk _ Hs). by destruct (cmatch c a).
Qed.

(** On a text without digits a pattern fails when what follows it does. *)
Lemma rmatch_no_digit {A} r :
  ∀ s cap (k : string → option string → option A),
    no_digit s = true →
    (∀ s' cap', no_digit s' = true → k s' cap' = None) →
    rmatch r s cap k = None.
Proof.
  induction r as [|c|c|c|r IH|r1 IH1 r2 IH2|r IH]; intros s cap k Hs Hk; cbn [rmatch].
  - by apply Hk.
  - destruct s as [|a s]; [done|]. destruct (no_digit_tail a s Hs) as [_ Hs'].
    rewrite (Hk _ cap Hs'). by destruct (cmatch c a).
  - apply star_match_no_digit; [done|]. intros s' Hs'. by apply Hk.
  - destruct s as [|a s]; [done|]. destruct (no_digit_tail a s Hs) as [_ Hs'].
    rewrite star_match_no_digit; [by destruct (cmatch c a)|done|].
    intros s' Hs''. by apply Hk.
  - rewrite IH by done. by apply Hk.
  - apply IH1; [done|]. intros s' cap' Hs'. by apply IH2.
  - apply IH; [done|]. intros s' cap' Hs'. by apply Hk.
Qed.

Lemma rmatch_needs_digit {A} r :
  needs_digit r →
  ∀ s cap (k : string → option string → option A),
    no_digit s = true → rmatch r s cap k = None.
Proof.
  induction 1 as [|r1 r2 Hr IH|r1 r2 Hr IH|r Hr IH]; intros s cap k Hs; cbn [rmatch].
  - destruct s as [|a s]; [done|]. destruct (no_digit_tail a s Hs) as [Ha _].
    change (cmatch CDigit a) with (is_digit a). by rewrite Ha.
  - by apply IH.
  - apply rmatch_no_digit; [done|]. intros s' cap' Hs'. by apply IH.
  - by apply IH.
Qed.

Lemma re_search_no_digit r s :
  needs_digit r → no_digit s = true → re_search r s = None.
Proof.
  intros Hr. induction s as [|a s IH]; intros Hs; cbn [re_search].
  - by rewrite rmatch_needs_digit.
  - rewrite rmatch_needs_digit by done.
    destruct (no_digit_tail a s Hs) as [_ Hs']. by apply IH.
Qed.

Lemma number_group_needs_digit : needs_digit number_group.
Proof. apply needs_digit_group, needs_digit_seq_r, needs_digit_seq_l, needs_digit_plus. Qed.

Lemma patterns_need_digit :
  Forall needs_digit
    [ytd_pattern; inception_pattern; sharpe_pattern; beta_pattern; drawdown_pattern].
Proof.
  pose proof number_group_needs_digit as Hn.
  repeat apply Forall_cons_2; [..|apply Forall_nil_2].
  - unfold ytd_pattern, rcat. cbn [foldr].
    by do 2 apply needs_digit_seq_r; apply needs_digit_seq_l.
  - unfold inception_pattern, rcat. cbn [foldr].
    by do 3 apply needs_digit_seq_r; apply needs_digit_seq_l.
  - unfold sharpe_pattern, rcat. cbn [foldr].
    by do 4 apply needs_digit_seq_r; apply needs_digit_seq_l.
  - unfold beta_pattern, rcat. cbn [foldr].
    by do 2 apply needs_digit_seq_r; apply needs_digit_seq_l.
  - unfold drawdown_pattern, rcat. cbn [foldr].
    by do 3 apply needs_digit_seq_r; apply needs_digit_seq_l.
Qed.

Lemma extract_metrics_no_digit text :
  no_digit text = true → extract_metrics text = ∅.
Proof.
  intros Ht. pose proof patterns_need_digit as Hpat.
  rewrite !Forall_cons in Hpat. destruct Hpat as (H1 & H2 & H3 & H4 & H5 & _).
  unfold extract_metrics. by rewrite !re_search_no_digit.
Qed.

Lemma no_digit_app s1 s2 :
  no_digit (s1 +:+ s2) = no_digit s1 && no_digit s2.
Proof. apply string_forall_app. Qed.

(** The text handed to the patterns has a digit only where one of the pages
    read has. *)
Lemma all_text_no_digit pages :
  (∀ i page, i ∈ PDF_PAGES_TO_PARSE → pages !! i = Some page → no_digit page = true) →
  no_digit (Enhanced.all_text pages) = true.
Proof.
  intros Hpages. unfold Enhanced.all_text.
  assert (∀ l acc, l ⊆ PDF_PAGES_TO_PARSE → no_digit acc = true →
    no_digit (foldl (λ all_text page_num,
                match pages !! page_num with
                | Some page_text =>
                    if decide (page_text = "") then all_text
                    else all_text +:+ page_text +:+ LF
                | None => all_text
                end) acc l) = true) as Hfold.
  { induction l as [|i l IH]; intros acc Hl Hacc; [done|]. cbn [foldl].
    apply IH; [set_solver|].
    destruct (pages !! i) as [page|] eqn:Hi; [|done].
    case_decide; [done|].
    rewrite !no_digit_app, Hacc, (Hpages i page); [done| |done].
    apply Hl. apply list_elem_of_here. }
  by apply Hfold.
Qed.

(** A report that can be read and has no decimal digit on the pages read,
    the second to the fourth, yields no metric, whatever its first page and
    its pages after the fourth say: the loop logs that, warns that no
    metrics were extracted, writes no file and does not count the report. *)
Theorem report_without_digit_on_pages_read_is_skipped (host : Host)
    (self : Enhanced.t) (use_ai : bool) (convictions_text : string)
    (pdf : PdfFile) (pages : list string) (w : World) :
  pdf_pages pdf = inr pages →
  (∀ i page, i ∈ PDF_PAGES_TO_PARSE → pages !! i = Some page → no_digit page = true) →
  extract_metrics (Enhanced.all_text pages) = ∅
  ∧ Enhanced.loop_body host self use_ai convictions_text pdf w
    = (Returns false,
       {| log := log w ++
            [(INFO, "Extracted 0 metrics from " +:+ pdf_name pdf);
             (WARNING, "No metrics extracted for " +:+ Enhanced.client_name_of pdf)];
          written := written w;
          unfinished := unfinished w |}).
Proof.
  intros Hpdf Hpages.
  assert (extract_metrics (Enhanced.all_text pages) = ∅) as Hnone.
  { by apply extract_metrics_no_digit, all_text_no_digit. }
  split; [done|].
  unfold Enhanced.loop_body, Enhanced.process_report, Enhanced.parse_pdf_report.
  rewrite Hpdf. unfold_m. cbn [lift]. unfold_m. rewrite Hnone.
  rewrite decide_True by done. simpl. rewrite <-app_assoc. done.
Qed.

(** The report of one page: the metric on its only page is not read. *)
Lemma report_without_digit_on_pages_read_is_skipped_witness :
  pdf_pages one_page_report = inr ["YTD Return: 8.5%"]
  ∧ Enhanced.loop_body demo_host demo_generator false "" one_page_report empty_world
    = (Returns false,
       {| log := [(INFO, "Extracted 0 metrics from lisa_martinez.pdf");
                  (WARNING, "No metrics extracted for Lisa Martinez")];
          written := [];
          unfinished := [] |}).
Proof.
  split; [reflexivity|].
  apply (report_without_digit_on_pages_read_is_skipped demo_host demo_generator
           false "" one_page_report ["YTD Return: 8.5%"] empty_world).
  - reflexivity.
  - intros i page Hi Hpage. unfold PDF_PAGES_TO_PARSE in Hi.
    rewrite !elem_of_cons, elem_of_nil in Hi.
    destruct Hi as [-> | [-> | [-> | []]]]; discriminate.
Defined.

(** ** A label, a gap and a number *)

Lemma length_app_string (s1 s2 : string) :
  String.length (s1 +:+ s2) = String.length s1 + String.length s2.
Proof. induction s1 as [|c s1 IH]; [done|]. rewrite app_String. simpl. by rewrite IH. Qed.

Lemma substring_app_prefix (s1 s2 : string) :
  substring 0 (String.length s1) (s1 +:+ s2) = s1.
Proof.
  induction s1 as [|c s1 IH]; [by destruct s2|].
  rewrite app_String. simpl. by rewrite IH.
Qed.

Lemma consumed_app (s1 s2 : string) : consumed (s1 +:+ s2) s2 = s1.
Proof.
  unfold consumed. rewrite length_app_string.
  replace (String.length s1 + String.length s2 - String.length s2)
    with (String.length s1) by lia.
  apply substring_app_prefix.
Qed.

(** A greedy run stops at the first character it cannot take, and is not
    shortened when what follows matches there. *)
Lemma star_match_greedy {A} c run s (k : string → option A) x :
  string_forall (cmatch c) run = true →
  match s with String a _ => cmatch c a = false | EmptyString => True end →
  k s = Some x →
  star_match c (run +:+ s) k = Some x.
Proof.
  intros Hrun Hs Hk. induction run as [|b run IH].
  - rewrite app_empty_l. destruct s as [|a s]; cbn [star_match]; [done|].
    by rewrite Hs.
  - simpl in Hrun. apply andb_true_iff in Hrun as [Hb Hrun].
    rewrite app_String. cbn [star_match]. by rewrite Hb, (IH Hrun).
Qed.

Lemma rmatch_rlit {A} p : ∀ label t cap (k : string → option string → option A),
  eq_ci p label = true → rmatch (rlit p) (label +:+ t) cap k = k t cap.
Proof.
  induction p as [|a p IH]; intros label t cap k Heq;
    destruct label as [|b label]; try done.
  simpl in Heq. apply andb_true_iff in Heq as [Hab Heq].
  rewrite app_String. cbn [rlit rmatch].
  change (cmatch (CLit a) b) with (same_letter a b). rewrite Hab.
  by apply IH.
Qed.

Lemma rmatch_rlit_fail {A} p : ∀ s cap (k : string → option string → option A),
  prefix_ci p s = false → rmatch (rlit p) s cap k = None.
Proof.
  induction p as [|a p IH]; intros s cap k Hp; [done|].
  cbn [rlit rmatch]. destruct s as [|b s]; [done|].
  change (cmatch (CLit a) b) with (same_letter a b).
  simpl in Hp. destruct (same_letter a b); [|done]. by apply IH.
Qed.

(** The number group takes the whole number. *)
Lemma number_group_matches {A} int frac t cap
    (k : string → option string → option A) x :
  int ≠ "" → all_digits int = true →
  from_option all_digits true frac = true →
  number_stops frac t = true →
  k t (Some (decimal int frac)) = Some x →
  rmatch number_group (decimal int frac +:+ t) cap k = Some x.
Proof.
  intros Hne Hint Hfrac Hstop Hk.
  destruct int as [|d int']; [done|].
  unfold all_digits in Hint. simpl in Hint.
  apply andb_true_iff in Hint as [Hd Hint].
  set (s := decimal (String d int') frac +:+ t).
  set (k' := λ s' (_ : option string), k s' (Some (consumed s s'))).
  assert (k' t cap = Some x) as Hk'.
  { unfold k', s. by rewrite consumed_app. }
  assert (match t with String a _ => cmatch CDigit a = false | EmptyString => True end)
    as Hnodigit.
  { destruct t as [|a t]; [done|]. simpl in Hstop.
    apply andb_true_iff in Hstop as [Ha _]. by apply negb_true_iff in Ha. }
  assert (rmatch (rcat [ROpt (RChar (CLit ".")); RStar CDigit])
            (from_option (λ f, "." +:+ f) "" frac +:+ t) cap k' = Some x) as Hfp.
  { destruct frac as [f|]; cbn [from_option].
    - rewrite app_assoc_string, app_String, app_empty_l. cbn [rcat foldr rmatch].
      replace (cmatch (CLit ".") ".") with true by reflexivity.
      rewrite (star_match_greedy CDigit f t _ x); done.
    - rewrite app_empty_l. cbn [rcat foldr rmatch].
      assert (star_match CDigit t (λ s', k' s' cap) = Some x) as Hstar.
      { by apply (star_match_greedy CDigit "" t). }
      rewrite Hstar. destruct t as [|a t]; [done|].
      simpl in Hstop. apply andb_true_iff in Hstop as [_ Hdot].
      apply negb_true_iff in Hdot.
      change (cmatch (CLit ".") a) with (same_letter "." a). by rewrite Hdot. }
  change number_group
    with (RGroup (RSeq (ROpt (RChar (CLit "-")))
                       (RSeq (RPlus CDigit)
                             (rcat [ROpt (RChar (CLit ".")); RStar CDigit])))).
  change (rmatch (RGroup ?r) ?s0 cap k) with (rmatch r s0 cap (λ s' _, k s' (Some (consumed s0 s')))).
  fold s. fold k'.
  unfold s at 1. unfold decimal. rewrite !app_String.
  cbn [rmatch]. rewrite (digit_not_minus d Hd).
  change (cmatch CDigit d) with (is_digit d). rewrite Hd.
  rewrite app_assoc_string.
  apply star_match_greedy; [done| |done].
  destruct frac as [f|]; simpl; [done|]. by rewrite app_empty_l.
Qed.

Lemma rmatch_seq {A} r1 r2 s cap (k : string → option string → option A) :
  rmatch (RSeq r1 r2) s cap k = rmatch r1 s cap (λ s' cap', rmatch r2 s' cap' k).
Proof. reflexivity. Qed.

Lemma re_search_here r s cap :
  rmatch r s None (λ _ cap', Some cap') = Some cap →
  re_search r s = Some {| group1 := cap |}.
Proof. intros Hr. destruct s; cbn [re_search]; by rewrite Hr. Qed.

Lemma re_search_skip r c s :
  rmatch r (String c s) None (λ _ cap', Some cap') = None →
  re_search r (String c s) = re_search r s.
Proof. intros Hr. cbn [re_search]. by rewrite Hr. Qed.

Lemma same_letter_eq a b c :
  same_letter a b = true → same_letter c b = same_letter c a.
Proof.
  unfold same_letter. intros Hab%bool_decide_eq_true. by rewrite Hab.
Qed.

(** No match of the label starts before the label and runs into it. *)
Lemma ytd_not_before c suf label x :
  eq_ci "YTD" label = true →
  prefix_ci "YTD" (String c suf) = false →
  prefix_ci "YTD" (String c suf +:+ label +:+ x) = false.
Proof.
  intros Heq Hp.
  destruct label as [|l1 [|l2 [|l3 [|l4 label]]]]; cbn [eq_ci] in Heq;
    rewrite ?andb_false_r in Heq; try done.
  apply andb_true_iff in Heq as [H1 Heq]. apply andb_true_iff in Heq as [H2 _].
  destruct suf as [|c2 [|c3 suf]]; rewrite ?app_String, ?app_empty_l;
    cbn [prefix_ci] in *.
  - rewrite (same_letter_eq _ _ "T" H1).
    replace (same_letter "T" "Y") with false by reflexivity.
    by rewrite andb_false_r.
  - rewrite (same_letter_eq _ _ "D" H1).
    replace (same_letter "D" "Y") with false by reflexivity.
    by rewrite !andb_false_r.
  - done.
Qed.

Lemma beta_not_before c suf label x :
  eq_ci "Beta" label = true →
  prefix_ci "Beta" (String c suf) = false →
  prefix_ci "Beta" (String c suf +:+ label +:+ x) = false.
Proof.
  intros Heq Hp.
  destruct label as [|l1 [|l2 [|l3 [|l4 [|l5 label]]]]]; cbn [eq_ci] in Heq;
    rewrite ?andb_false_r in Heq; try done.
  apply andb_true_iff in Heq as [H1 _].
  destruct suf as [|c2 [|c3 [|c4 suf]]]; rewrite ?app_String, ?app_empty_l;
    cbn [prefix_ci] in *.
  - rewrite (same_letter_eq _ _ "e" H1).
    replace (same_letter "e" "B") with false by reflexivity.
    by rewrite andb_false_r.
  - rewrite (same_letter_eq _ _ "t" H1).
    replace (same_letter "t" "B") with false by reflexivity.
    by rewrite !andb_false_r.
  - rewrite (same_letter_eq _ _ "a" H1).
    replace (same_letter "a" "B") with false by reflexivity.
    by rewrite !andb_false_r.
  - done.
Qed.

Lemma decimal_starts_with_digit int frac t :
  int ≠ "" → all_digits int = true →
  match decimal int frac +:+ t with
  | String a _ => cmatch CNotDigit a = false
  | EmptyString => True
  end.
Proof.
  intros Hne Hint. destruct int as [|d int]; [done|].
  unfold decimal. rewrite !app_String.
  unfold all_digits in Hint. simpl in Hint. apply andb_true_iff in Hint as [Hd _].
  change (cmatch CNotDigit d) with (negb (is_digit d)). by rewrite Hd.
Qed.

Lemma re_search_ytd pre label gap int frac rest :
  occurs_ci "YTD" pre = false →
  eq_ci "YTD" label = true →
  no_digit gap = true →
  int ≠ "" → all_digits int = true →
  from_option all_digits true frac = true →
  re_search ytd_pattern
    (pre +:+ label +:+ gap +:+ decimal int frac +:+ "%" +:+ rest)
  = Some {| group1 := Some (decimal int frac) |}.
Proof.
  intros Hpre Hlabel Hgap Hne Hint Hfrac.
  change ytd_pattern
    with (RSeq (rlit "YTD")
            (RSeq (RStar CNotDigit) (RSeq number_group (rcat [RChar (CLit "%")])))).
  induction pre as [|c pre IH].
  - rewrite app_empty_l. apply re_search_here.
    rewrite rmatch_seq, rmatch_rlit by done.
    rewrite rmatch_seq.
    change (rmatch (RStar ?c) ?s ?cap ?k) with (star_match c s (λ s', k s' cap)).
    apply star_match_greedy; [exact Hgap|by apply decimal_starts_with_digit|].
    rewrite rmatch_seq. apply number_group_matches; [done..| |].
    + rewrite app_String. cbn [number_stops]. by rewrite orb_true_r.
    + rewrite app_String, app_empty_l. reflexivity.
  - cbn [occurs_ci] in Hpre. apply orb_false_iff in Hpre as [Hhere Hpre].
    rewrite app_String, re_search_skip; [by apply IH|].
    rewrite rmatch_seq. apply rmatch_rlit_fail.
    rewrite <-app_String. by apply ytd_not_before.
Qed.

(** Where the text has the label YTD (in any case) for the first time, then
    characters that are no digits, then a number and the percent sign, the
    record has the number and the percent sign under the key YTD. The gap
    between the label and the number may hold anything but a digit: a sign
    in it is not part of the value. *)
Theorem ytd_return_is_found (pre label gap int rest : string)
    (frac : option string) :
  occurs_ci "YTD" pre = false →
  eq_ci "YTD" label = true →
  no_digit gap = true →
  int ≠ "" → all_digits int = true →
  from_option all_digits true frac = true →
  extract_metrics (pre +:+ label +:+ gap +:+ decimal int frac +:+ "%" +:+ rest)
    !! "YTD" = Some (decimal int frac +:+ "%").
Proof.
  intros Hpre Hlabel Hgap Hne Hint Hfrac.
  unfold extract_metrics. rewrite re_search_ytd by done.
  repeat case_match; by simplify_map_eq.
Qed.

(** The line of the sample reports, after a heading. *)
Lemma ytd_return_is_found_witness :
  extract_metrics ("PERFORMANCE SUMMARY" +:+ LF +:+ "YTD Return: 8.5%" +:+ LF
                   +:+ "Rolling 12-Month: 10.6%") !! "YTD" = Some "8.5%".
Proof.
  apply (ytd_return_is_found ("PERFORMANCE SUMMARY" +:+ LF) "YTD" " Return: " "8"
           (LF +:+ "Rolling 12-Month: 10.6%") (Some "5"));
    solve [reflexivity | discriminate].
Defined.

Lemma re_search_beta pre label gap int frac rest :
  occurs_ci "Beta" pre = false →
  eq_ci "Beta" label = true →
  no_digit gap = true →
  int ≠ "" → all_digits int = true →
  from_option all_digits true frac = true →
  number_stops frac rest = true →
  re_search beta_pattern (pre +:+ label +:+ gap +:+ decimal int frac +:+ rest)
  = Some {| group1 := Some (decimal int frac) |}.
Proof.
  intros Hpre Hlabel Hgap Hne Hint Hfrac Hstop.
  change beta_pattern
    with (RSeq (rlit "Beta") (RSeq (RStar CNotDigit) (RSeq number_group REmpty))).
  induction pre as [|c pre IH].
  - rewrite app_empty_l. apply re_search_here.
    rewrite rmatch_seq, rmatch_rlit by done.
    rewrite rmatch_seq.
    change (rmatch (RStar ?c) ?s ?cap ?k) with (star_match c s (λ s', k s' cap)).
    apply star_match_greedy; [exact Hgap|by apply decimal_starts_with_digit|].
    rewrite rmatch_seq. by apply number_group_matches.
  - cbn [occurs_ci] in Hpre. apply orb_false_iff in Hpre as [Hhere Hpre].
    rewrite app_String, re_search_skip; [by apply IH|].
    rewrite rmatch_seq. apply rmatch_rlit_fail.
    rewrite <-app_String. by apply beta_not_before.
Qed.

(** The beta is the first number behind the first label Beta, wherever that
    number stands: the gap of non-digits between them may run over the ends
    of lines and over the labels of other metrics. *)
Theorem beta_is_the_next_number (pre label gap int rest : string)
    (frac : option string) :
  occurs_ci "Beta" pre = false →
  eq_ci "Beta" label = true →
  no_digit gap = true →
  int ≠ "" → all_digits int = true →
  from_option all_digits true frac = true →
  number_stops frac rest = true →
  extract_metrics (pre +:+ label +:+ gap +:+ decimal int frac +:+ rest)
    !! "Beta" = Some (decimal int frac).
Proof.
  intros Hpre Hlabel Hgap Hne Hint Hfrac Hstop.
  unfold extract_metrics. rewrite re_search_beta by done.
  repeat case_match; by simplify_map_eq.
Qed.

(** A report without a beta: the drawdown of the next line is taken. *)
Lemma beta_is_the_next_number_witness :
  extract_metrics ("Beta: n/a" +:+ LF +:+ "Max Drawdown: -5.2%") !! "Beta"
  = Some "5.2".
Proof.
  apply (beta_is_the_next_number "" "Beta" (": n/a" +:+ LF +:+ "Max Drawdown: -")
           "5" "%" (Some "2"));
    solve [reflexivity | discriminate].
Defined.

(** ** The two generators side by side *)

(** The generator without AI enhancement and the enhanced generator, loaded
    with the same table and the same template, give the same email whenever
    the enhanced one does not enhance, and the same conviction text for
    every [n] but 0; the texts their batch runs use, [get_top_convictions(3)]
    and [get_top_convictions()], are the same. *)
Theorem generators_agree (host : Host) (enhanced : Enhanced.t) (basic : Basic.t)
    (client_name : string) (metrics : gmap string string) (convictions : string)
    (use_ai : bool) (n : Z) (w : World) :
  Enhanced.email_template enhanced = Basic.email_template basic →
  Enhanced.convictions_df enhanced = Basic.convictions_df basic →
  (Enhanced.ai_enabled enhanced use_ai = false →
   Enhanced.generate_email host enhanced client_name metrics convictions use_ai w
   = as_value (Basic.generate_email host basic client_name metrics convictions) w)
  ∧ (n ≠ 0%Z →
     Enhanced.get_top_convictions host enhanced (Some n) w
     = Basic.get_top_convictions host basic n w)
  ∧ Enhanced.get_top_convictions host enhanced None w
    = Basic.get_top_convictions host basic 3 w.
Proof.
  intros Htemplate Htable. split_and!.
  - intros Hai. unfold as_value, Enhanced.generate_email, Basic.generate_email.
    rewrite <-Htemplate, Hai.
    destruct (Enhanced.email_template enhanced) as [[|c t]|]; [done| |done].
    unfold_m. by destruct (str_format _ _ _).
  - intros Hn. unfold Enhanced.get_top_convictions, Basic.get_top_convictions.
    rewrite <-Htable. by rewrite n_or_default_nonzero.
  - unfold Enhanced.get_top_convictions, Basic.get_top_convictions.
    by rewrite <-Htable.
Qed.

Lemma generators_agree_witness :
  Enhanced.generate_email demo_host demo_generator "John Smith" sample_data "" true
    empty_world
  = as_value (Basic.generate_email demo_host basic_generator "John Smith"
                sample_data "") empty_world.
Proof.
  apply (generators_agree demo_host demo_generator basic_generator "John Smith"
           sample_data "" true 3 empty_world); reflexivity.
Defined.

(** ** Client names and output files *)

Lemma to_lower_idemp c : to_lower (to_lower c) = to_lower c.
Proof. destruct c as [[] [] [] [] [] [] [] []]; vm_compute; reflexivity. Qed.

Lemma to_upper_to_lower c : to_upper (to_lower c) = to_upper c.
Proof. destruct c as [[] [] [] [] [] [] [] []]; vm_compute; reflexivity. Qed.

Lemma cased_to_lower c :
  is_upper (to_lower c) || is_lower (to_lower c) = is_upper c || is_lower c.
Proof. destruct c as [[] [] [] [] [] [] [] []]; vm_compute; reflexivity. Qed.

(** Title case does not depend on the case of the letters it is given. *)
Lemma title_go_lower b s : title_go b (lower s) = title_go b s.
Proof.
  revert b. induction s as [|c s IH]; intros b; [done|].
  cbn [lower title_go]. rewrite cased_to_lower, IH.
  by rewrite to_lower_idemp, to_upper_to_lower.
Qed.

(** Report files whose names, the suffix apart, differ only in the case of
    letters and in underscores for spaces have the same client name, hence
    the same output file: in one batch the email written last replaces the
    other. *)
Theorem namesakes_share_an_output_file (host : Host) (pdf1 pdf2 : PdfFile) :
  lower (replace_char "_" " " (stem (pdf_name pdf1)))
  = lower (replace_char "_" " " (stem (pdf_name pdf2))) →
  Enhanced.client_name_of pdf1 = Enhanced.client_name_of pdf2
  ∧ path_of host pdf1 = path_of host pdf2.
Proof.
  intros Hnames.
  assert (Enhanced.client_name_of pdf1 = Enhanced.client_name_of pdf2) as Heq.
  { unfold Enhanced.client_name_of, title.
    rewrite <-(title_go_lower false (replace_char _ _ (stem (pdf_name pdf1)))).
    rewrite <-(title_go_lower false (replace_char _ _ (stem (pdf_name pdf2)))).
    by rewrite Hnames. }
  split; [done|]. unfold path_of. by rewrite Heq.
Qed.

(** The batch of the two namesakes writes twice to one file. *)
Lemma namesakes_share_an_output_file_witness :
  path_of namesake_host {| pdf_name := "john_smith.pdf"; pdf_pages := inr [] |}
  = path_of namesake_host {| pdf_name := "John Smith.pdf"; pdf_pages := inr [] |}
  ∧ (written (Enhanced.process_all_reports namesake_host demo_generator false
                empty_world).2).*1
    = ["PerformanceSystem/output/emails/John Smith.txt";
       "PerformanceSystem/output/emails/John Smith.txt"].
Proof.
  split; [|vm_compute; reflexivity].
  apply (namesakes_share_an_output_file namesake_host
           {| pdf_name := "john_smith.pdf"; pdf_pages := inr [] |}
           {| pdf_name := "John Smith.pdf"; pdf_pages := inr [] |}).
  reflexivity.
Defined.

Lemma rfind_dot_none ext i : has_char "." ext = false → rfind_dot ext i = None.
Proof.
  revert i. induction ext as [|c ext IH]; intros i Hext; [done|].
  simpl in Hext. apply orb_false_iff in Hext as [Hc Hext].
  apply bool_decide_eq_false in Hc.
  cbn [rfind_dot]. rewrite IH by done. by rewrite decide_False by congruence.
Qed.

Lemma rfind_dot_last base ext i :
  has_char "." ext = false →
  rfind_dot (base +:+ "." +:+ ext) i = Some (i + String.length base).
Proof.
  intros Hext. revert i. induction base as [|c base IH]; intros i.
  - rewrite app_empty_l, app_String, app_empty_l. cbn [rfind_dot].
    rewrite rfind_dot_none by done. rewrite decide_True by done.
    simpl. f_equal. lia.
  - rewrite app_String. cbn [rfind_dot]. rewrite IH. simpl. f_equal. lia.
Qed.

(** The stem of [base.ext] is [base]: only the last suffix is removed. *)
Lemma stem_suffix base ext :
  base ≠ "" → ext ≠ "" → has_char "." ext = false →
  stem (base +:+ "." +:+ ext) = base.
Proof.
  intros Hbase Hext Hdot. unfold stem. rewrite rfind_dot_last by done. simpl.
  rewrite !length_app_string. simpl.
  destruct base as [|c base]; [done|]. destruct ext as [|d ext]; [done|].
  rewrite decide_True by (simpl; lia).
  apply substring_app_prefix.
Qed.

Lemma replace_char_title_go b s :
  replace_char "_" " " (title_go b s) = title_go b (replace_char "_" " " s).
Proof.
  revert b. induction s as [|c s IH]; intros b; [done|].
  cbn [title_go replace_char]. rewrite IH.
  assert (∀ c b, (if decide ((if b : bool then to_lower c else to_upper c) = "_"%char)
                  then " "%char else (if b then to_lower c else to_upper c))
                 = (if b then to_lower (if decide (c = "_"%char) then " "%char else c)
                    else to_upper (if decide (c = "_"%char) then " "%char else c))
                 ∧ is_upper (if decide (c = "_"%char) then " "%char else c)
                   || is_lower (if decide (c = "_"%char) then " "%char else c)
                   = is_upper c || is_lower c) as Hchar.
  { clear. intros c b.
    destruct c as [[] [] [] [] [] [] [] []]; destruct b; vm_compute; done. }
  destruct (Hchar c b) as [-> ->]. done.
Qed.

Lemma replace_char_idemp s :
  replace_char "_" " " (replace_char "_" " " s) = replace_char "_" " " s.
Proof.
  induction s as [|c s IH]; [done|]. cbn [replace_char]. rewrite IH.
  f_equal. destruct (decide (c = "_"%char)) as [->|Hc]; [done|].
  by rewrite decide_False.
Qed.

Lemma title_go_idemp b s : title_go b (title_go b s) = title_go b s.
Proof.
  revert b. induction s as [|c s IH]; intros b; [done|].
  cbn [title_go].
  assert (∀ c b, is_upper (if b : bool then to_lower c else to_upper c)
                 || is_lower (if b then to_lower c else to_upper c)
                 = is_upper c || is_lower c
                 ∧ (if b then to_lower (if b then to_lower c else to_upper c)
                    else to_upper (if b then to_lower c else to_upper c))
                   = (if b then to_lower c else to_upper c)) as Hchar.
  { clear. intros c b.
    destruct c as [[] [] [] [] [] [] [] []]; destruct b; vm_compute; done. }
  destruct (Hchar c b) as [-> ->]. by rewrite IH.
Qed.

Lemma title_go_not_empty b s : s ≠ "" → title_go b s ≠ "".
Proof. by destruct s. Qed.

Lemma replace_char_not_empty a b s : s ≠ "" → replace_char a b s ≠ "".
Proof. by destruct s. Qed.

(** The client of the report [client.pdf] is [client] in title case with its
    underscores as spaces: of the file name only the last suffix is taken
    off. A client name is a fixed point: the report named after it has that
    same client name. *)
Theorem client_name_of_report_file (client : string) (pages : exn + list string) :
  client ≠ "" →
  let client_name :=
    Enhanced.client_name_of {| pdf_name := client +:+ ".pdf"; pdf_pages := pages |} in
  client_name = title (replace_char "_" " " client)
  ∧ Enhanced.client_name_of
      {| pdf_name := client_name +:+ ".pdf"; pdf_pages := pages |} = client_name.
Proof.
  intros Hclient client_name.
  assert (client_name = title (replace_char "_" " " client)) as Hname.
  { unfold client_name, Enhanced.client_name_of. cbn [pdf_name].
    change (client +:+ ".pdf") with (client +:+ "." +:+ "pdf").
    by rewrite (stem_suffix client "pdf"). }
  split; [done|].
  unfold Enhanced.client_name_of. cbn [pdf_name].
  change (client_name +:+ ".pdf") with (client_name +:+ "." +:+ "pdf").
  rewrite (stem_suffix client_name "pdf"); [|rewrite Hname|done..].
  2: { by apply title_go_not_empty, replace_char_not_empty. }
  rewrite Hname. unfold title.
  by rewrite replace_char_title_go, replace_char_idemp, title_go_idemp.
Qed.

Lemma client_name_of_report_file_witness :
  Enhanced.client_name_of {| pdf_name := "j.r._o'brien" +:+ ".pdf"; pdf_pages := inr [] |}
  = "J.R. O'Brien".
Proof.
  apply (client_name_of_report_file "j.r._o'brien" (inr [])). discriminate.
Defined.

(** ** The count a run reports *)

Lemma app_inj_r (t a b : string) : a +:+ t = b +:+ t → a = b.
Proof.
  revert b. induction a as [|c a IH]; intros [|d b] Heq.
  - done.
  - apply (f_equal String.length) in Heq.
    rewrite app_empty_l, app_String in Heq. simpl in Heq.
    rewrite length_app_string in Heq. lia.
  - apply (f_equal String.length) in Heq.
    rewrite app_empty_l, app_String in Heq. simpl in Heq.
    rewrite length_app_string in Heq. lia.
  - rewrite !app_String in Heq. injection Heq as -> Heq. f_equal. by apply IH.
Qed.

(** Two client names with the same output file are the same name. *)
Lemma output_path_inj host : Inj (=) (=) (Enhanced.output_path host).
Proof.
  intros name1 name2 Heq. unfold Enhanced.output_path in Heq.
  apply String.app_inj in Heq. apply (String.app_inj "/") in Heq.
  by apply app_inj_r in Heq.
Qed.

(** When the directory has reports, the run returns, and the number in its
    last log line is the number of emails it has written in full. Each of
    them went to the output file of a report, and a report has at most one
    of the two: an email written in full, or a file that a write that
    raised has left behind, which is not counted. Two emails may have gone
    to one file; when no two reports have the same client name, the emails
    written in full are in files of their own. *)
Theorem reported_count_is_emails_written_in_full (host : Host) (self : Enhanced.t)
    (use_ai : bool) (w : World) :
  pdf_dir_exists host = true →
  pdf_dir_glob host ≠ [] →
  ∃ w' emails files,
    Enhanced.process_all_reports host self use_ai w = (Returns tt, w')
    ∧ written w' = written w ++ emails
    ∧ unfinished w' = unfinished w ++ files
    ∧ last (log w')
      = Some (INFO, "🎉 Successfully processed " +:+ pretty (length emails)
                    +:+ " reports")
    ∧ length emails + length files ≤ length (pdf_dir_glob host)
    ∧ (∀ path, path ∈ emails.*1 →
         ∃ pdf, pdf ∈ pdf_dir_glob host ∧ path = path_of host pdf)
    ∧ (NoDup (Enhanced.client_name_of <$> pdf_dir_glob host) → NoDup emails.*1).
Proof.
  intros Hdir Hfiles.
  destruct (process_all_reports_spec host self use_ai w Hdir Hfiles)
    as (w' & Hrun & Hw & Hlast & _ & _ & files & Hu & Hn).
  exists w', (batch_written host self use_ai (convictions_text_of host self)
                (pdf_dir_glob host)), files.
  unfold batch_written. rewrite length_fmap.
  split; [done|]. split; [done|]. split; [done|]. split; [done|].
  split; [lia|]. rewrite <-list_fmap_compose. split.
  - intros path (pdf & -> & Hin)%list_elem_of_fmap.
    apply list_elem_of_filter in Hin as [_ Hin]. by exists pdf.
  - intros Hnames.
    change (NoDup ((Enhanced.output_path host ∘ Enhanced.client_name_of)
                     <$> filter (λ pdf, counted host self use_ai
                                          (convictions_text_of host self) pdf = true)
                           (pdf_dir_glob host))).
    rewrite list_fmap_compose.
    apply (@NoDup_fmap_2 _ _ _ (output_path_inj host)).
    eapply sublist_NoDup; [exact Hnames|].
    apply fmap_sublist, sublist_filter.
Qed.

Lemma reported_count_is_emails_written_in_full_witness :
  ∃ w' emails files,
    Enhanced.process_all_reports namesake_host demo_generator false empty_world
      = (Returns tt, w')
    ∧ written w' = written empty_world ++ emails
    ∧ unfinished w' = unfinished empty_world ++ files
    ∧ last (log w')
      = Some (INFO, "🎉 Successfully processed " +:+ pretty (length emails)
                    +:+ " reports")
    ∧ length emails + length files ≤ length (pdf_dir_glob namesake_host)
    ∧ (∀ path, path ∈ emails.*1 →
         ∃ pdf, pdf ∈ pdf_dir_glob namesake_host ∧ path = path_of namesake_host pdf)
    ∧ (NoDup (Enhanced.client_name_of <$> pdf_dir_glob namesake_host)
       → NoDup emails.*1).
Proof.
  apply (reported_count_is_emails_written_in_full namesake_host demo_generator false
           empty_world); [reflexivity|discriminate].
Defined.

(** The run over the two namesakes reports two emails and leaves one file. *)
Lemma namesakes_are_counted_twice :
  last (log (Enhanced.process_all_reports namesake_host demo_generator false
               empty_world).2)
  = Some (INFO, "🎉 Successfully processed 2 reports")
  ∧ remove_dups (written (Enhanced.process_all_reports namesake_host demo_generator
                            false empty_world).2).*1
    = ["PerformanceSystem/output/emails/John Smith.txt"].
Proof. split; vm_compute; reflexivity. Qed.

(** ** A file that cannot be written *)

(** When writing the email of a report with metrics raises, no email is
    written in full and the report is not counted: the error is logged under
    the name of the report file, the line of a generated email is not, and
    the loop goes on. The output file is as the write that raised has left
    it: untouched when [mkdir] or [open] raised, created or truncated, with
    the text that reached it, when [f.write] or closing the file raised. *)
Theorem write_failure_is_logged_and_skipped (host : Host) (self : Enhanced.t)
    (use_ai : bool) (convictions_text : string) (pdf : PdfFile) (e : exn)
    (w : World) :
  metrics_of pdf ≠ ∅ →
  email_is_text host self use_ai convictions_text pdf = true →
  write_error host (path_of host pdf)
    (email_of host self use_ai convictions_text pdf) = Some e →
  ∃ w',
    Enhanced.loop_body host self use_ai convictions_text pdf w = (Returns false, w')
    ∧ written w' = written w
    ∧ unfinished w'
      = unfinished w
        ++ match write_leaves host (path_of host pdf)
                   (email_of host self use_ai convictions_text pdf) with
           | Some text => [(length (written w), path_of host pdf, text)]
           | None => []
           end
    ∧ last (log w')
      = Some (ERROR, "Error processing " +:+ pdf_name pdf +:+ ": " +:+ exn_str e).
Proof.
  intros Hmetrics Htext Hwrite.
  destruct (parse_pdf_report_spec host pdf w) as (w1 & Hparse & Hlogs1 & _).
  destruct (generate_email_returns host self (Enhanced.client_name_of pdf)
              (metrics_of pdf) convictions_text use_ai w1)
    as (w2 & Hgen & Hlogs2).
  destruct (only_logs_trans _ _ _ Hlogs1 Hlogs2) as (Hw & Hu & _).
  unfold Enhanced.loop_body, Enhanced.process_report.
  unfold mbind, M_bind, try_except. rewrite Hparse.
  rewrite decide_False by done. rewrite Hgen.
  unfold email_is_text in Htext. apply bool_decide_eq_true in Htext as [text Hvalue].
  unfold path_of, email_of, email_text in *. rewrite Hvalue in *. simpl in Hwrite.
  simpl. unfold write_file. rewrite Hwrite.
  destruct (write_leaves host _ text) as [text'|]; simpl.
  - eexists. split; [done|]. simpl. split; [done|].
    split; [by rewrite Hu, Hw|]. by rewrite last_snoc.
  - eexists. split; [done|]. simpl. split; [done|].
    split; [by rewrite Hu, app_nil_r|]. by rewrite last_snoc.
Qed.

Lemma write_failure_is_logged_and_skipped_witness :
  ∃ w',
    Enhanced.loop_body full_disk_host demo_generator false "" drawdown_report
      empty_world = (Returns false, w')
    ∧ written w' = written empty_world
    ∧ unfinished w'
      = unfinished empty_world
        ++ match write_leaves full_disk_host (path_of full_disk_host drawdown_report)
                   (email_of full_disk_host demo_generator false "" drawdown_report)
           with
           | Some text => [(length (written empty_world),
                            path_of full_disk_host drawdown_report, text)]
           | None => []
           end
    ∧ last (log w')
      = Some (ERROR, "Error processing emily_davis.pdf: "
                     +:+ "[Errno 28] No space left on device").
Proof.
  apply (write_failure_is_logged_and_skipped full_disk_host demo_generator false ""
           drawdown_report (OSError "[Errno 28] No space left on device")
           empty_world).
  - vm_compute. discriminate.
  - vm_compute. reflexivity.
  - reflexivity.
Defined.

(** On the full disk the file of the recipient is left empty. *)
Lemma full_disk_leaves_an_empty_file :
  unfinished (Enhanced.loop_body full_disk_host demo_generator false ""
                drawdown_report empty_world).2
  = [(0, "PerformanceSystem/output/emails/Emily Davis.txt", "")].
Proof. vm_compute. reflexivity. Qed.

(** ** The constructor of the enhanced generator *)

Lemma for_each_logger {S} lvl (xs : list string) (self : S) w :
  for_each xs (λ x, call (logger lvl x)) self w
  = (Returns tt, self,
     {| log := log w ++ ((λ x, (lvl, x)) <$> xs); written := written w; unfinished := unfinished w |}).
Proof.
  revert w. induction xs as [|x xs IH]; intros w.
  - simpl. unfold mret, Method_ret. destruct w. simpl. by rewrite app_nil_r.
  - cbn [for_each]. unfold mbind, Method_bind, call, logger. rewrite IH.
    simpl. by rewrite <-app_assoc.
Qed.

(** [_load_components] returns, leaves the client alone and only logs. *)
Lemma load_components_returns (host : Host) (env : Env) (self : Enhanced.t) (w : World) :
  ∃ generator w',
    EnhancedInit._load_components host env self w = (Returns tt, generator, w')
    ∧ Enhanced.openai_client generator = Enhanced.openai_client self
    ∧ ∃ lines, log w' = log w ++ lines.
Proof.
  unfold EnhancedInit._load_components, method_try, load_error, loaded_table.
  unfold mbind at 1. unfold Method_bind at 1. rewrite for_each_logger.
  load_components_cases env;
    (eexists _, _; split; [done|]; simpl; split; [done|];
     by (eexists; rewrite <-?app_assoc)).
Qed.

(** [_load_components] never raises and writes no file. It loads the table
    first and the template after it, and stops at the first exception: the
    table is assigned when it could be read, the template only when the
    table was read before it and the template file is there and can be
    read. The exception that stopped the loading is the last line logged. *)
Theorem load_components_stops_at_first_failure (host : Host) (env : Env)
    (self : Enhanced.t) (w : World) :
  ∃ generator w',
    EnhancedInit._load_components host env self w = (Returns tt, generator, w')
    ∧ written w' = written w
    ∧ Enhanced.openai_client generator = Enhanced.openai_client self
    ∧ Enhanced.convictions_df generator
      = match loaded_table env with
        | inr df => Some df
        | inl _ => Enhanced.convictions_df self
        end
    ∧ Enhanced.email_template generator
      = match loaded_table env, template_file_exists env, read_template env with
        | inr _, true, inr template => Some template
        | _, _, _ => Enhanced.email_template self
        end
    ∧ (∀ e, load_error env = Some e →
         last (log w') = Some (ERROR, "Error loading components: " +:+ exn_str e)).
Proof.
  unfold EnhancedInit._load_components, method_try, load_error, loaded_table.
  unfold mbind at 1. unfold Method_bind at 1. rewrite for_each_logger.
  load_components_cases env;
    (eexists _, _; split; [done|]; simpl; split_and!;
     first [ done | by (intros e' [= <-]; rewrite last_snoc) ]).
Qed.

(** With a workbook that cannot be read the template is not loaded, though
    its file is there. *)
Lemma workbook_error_leaves_template_unloaded :
  template_file_exists demo_env = true
  ∧ read_template demo_env = inr demo_template
  ∧ ∃ generator w',
      EnhancedInit._load_components demo_host demo_env EnhancedInit.blank empty_world
        = (Returns tt, generator, w')
      ∧ Enhanced.email_template generator = None
      ∧ Enhanced.convictions_df generator = None.
Proof. split_and!; [done..|]. eexists _, _. split_and!; vm_compute; reflexivity. Qed.

(** An API key that is set and empty is not among the issues [validate]
    reports, and the constructor makes no client for it: the generator it
    returns has AI enhancement disabled, with the warning of a key that was
    not found. *)
Theorem empty_api_key_disables_ai (host : Host) (env : Env) (w : World) :
  OPENAI_API_KEY env = Some "" →
  ("OPENAI_API_KEY environment variable not set" ∉ validate host env)
  ∧ ∃ generator w',
      EnhancedInit.new host env w = (Returns generator, w')
      ∧ Enhanced.openai_client generator = None
      ∧ (∀ use_ai, Enhanced.ai_enabled generator use_ai = false)
      ∧ (WARNING, "OpenAI API key not found. AI enhancement disabled.") ∈ log w'.
Proof.
  intros Hkey. split.
  - unfold validate. rewrite Hkey.
    rewrite (bool_decide_eq_false_2 (Some "" = None)) by done.
    destruct (template_file_exists env); simpl.
    + apply not_elem_of_nil.
    + rewrite list_elem_of_singleton. intros Heq.
      apply (f_equal (λ s, String.get 0 s)) in Heq. simpl in Heq. done.
  - unfold EnhancedInit.new, EnhancedInit.__init__. rewrite Hkey.
    unfold mbind, Method_bind, call, logger.
    set (w0 := {| log := log w ++ _; written := written w; unfinished := unfinished w |}).
    destruct (load_components_returns host env EnhancedInit.blank w0)
      as (generator & w' & Hload & Hclient & lines & Hlines).
    rewrite Hload. exists generator, w'. split; [done|]. split; [done|].
    split.
    { intros use_ai. unfold Enhanced.ai_enabled. rewrite Hclient. simpl.
      by rewrite andb_false_r. }
    rewrite Hlines. apply elem_of_app. left. apply elem_of_app. right.
    apply list_elem_of_here.
Qed.

Lemma empty_api_key_disables_ai_witness :
  OPENAI_API_KEY demo_env = Some ""
  ∧ ∃ generator w',
      EnhancedInit.new demo_host demo_env empty_world = (Returns generator, w')
      ∧ Enhanced.openai_client generator = None.
Proof.
  split; [reflexivity|].
  destruct (empty_api_key_disables_ai demo_host demo_env empty_world eq_refl)
    as (_ & generator & w' & Hnew & Hclient & _).
  exists generator, w'. split; [exact Hnew|exact Hclient].
Defined.

(** ** The scan of a report for its labelled lines *)

Lemma prefix_app p s : String.prefix p s = true → ∃ rest, s = p +:+ rest.
Proof.
  revert s. induction p as [|a p IH]; intros s Hp.
  - exists s. by rewrite app_empty_l.
  - destruct s as [|b s]; [done|]. simpl in Hp.
    destruct (ascii_dec a b) as [->|]; [|done].
    destruct (IH s Hp) as (rest & ->). exists rest. by rewrite app_String.
Qed.

Lemma prefix_app_true p rest : String.prefix p (p +:+ rest) = true.
Proof.
  induction p as [|a p IH]; [by destruct rest|].
  rewrite app_String. simpl. by destruct (ascii_dec a a).
Qed.

Lemma drop_chars_app p rest : drop_chars (String.length p) (p +:+ rest) = rest.
Proof.
  induction p as [|a p IH]; [by destruct rest|]. by rewrite app_String.
Qed.

Lemma str_contains_partition sep s :
  str_contains sep s = true → is_Some (str_partition sep s).
Proof.
  induction s as [|c s IH]; cbn [str_contains str_partition].
  - rewrite orb_false_r. by intros ->.
  - destruct (String.prefix sep (String c s)); [done|]. simpl.
    intros [x Hx]%IH. rewrite Hx. by eexists.
Qed.

(** Where the separator occurs, [split] gives at least two parts. *)
Lemma str_split_second sep s :
  str_contains sep s = true → ∃ part, getitem (str_split sep s) 1 = inr part.
Proof.
  intros [[before after] Hp]%str_contains_partition.
  unfold str_split, getitem. destruct (String.length s) as [|fuel];
    cbn [str_split_go]; rewrite Hp; [by eexists|].
  destruct fuel; cbn [str_split_go];
    destruct (str_partition sep after) as [[b a]|]; by eexists.
Qed.

Lemma rstrip_by_idemp P s : rstrip_by P (rstrip_by P s) = rstrip_by P s.
Proof.
  induction s as [|c s IH]; [done|]. cbn [rstrip_by].
  destruct (rstrip_by P s) as [|d r] eqn:Hr.
  - destruct (P c) eqn:Hc; [done|]. cbn [rstrip_by]. by rewrite Hc.
  - cbn [rstrip_by]. cbn [rstrip_by] in IH.
    destruct (rstrip_by P r) as [|d' r'] eqn:Hr'.
    + destruct (P d); [done|]. injection IH as <-. done.
    + by rewrite IH.
Qed.

Lemma lstrip_by_start P s :
  match lstrip_by P s with
  | String c _ => P c = false
  | EmptyString => True
  end.
Proof.
  induction s as [|c s IH]; [done|]. cbn [lstrip_by].
  by destruct (P c) eqn:Hc.
Qed.

Lemma rstrip_by_start P c s :
  P c = false → ∃ r, rstrip_by P (String c s) = String c r.
Proof.
  intros Hc. cbn [rstrip_by]. destruct (rstrip_by P s); rewrite ?Hc; by eexists.
Qed.

(** A stripped text is stripped: it has none of the characters at either
    end. *)
Lemma strip_by_idemp P s : strip_by P (strip_by P s) = strip_by P s.
Proof.
  unfold strip_by. pose proof (lstrip_by_start P s) as Hs.
  destruct (lstrip_by P s) as [|c t]; [done|].
  destruct (rstrip_by_start P c t Hs) as (r & Hr). rewrite Hr.
  cbn [lstrip_by]. rewrite Hs, <-Hr. apply rstrip_by_idemp.
Qed.

Lemma str_strip_idemp s : str_strip (str_strip s) = str_strip s.
Proof. apply strip_by_idemp. Qed.

Lemma scanned_insert key part metrics :
  key ∈ ["YTD"; "SinceInception"; "Sharpe"] →
  scanned metrics → scanned (<[key := str_strip part]> metrics).
Proof.
  intros Hkey Hm key' v. destruct (decide (key = key')) as [<-|Hne].
  - rewrite lookup_insert_eq. intros [= <-]. split; [done|apply str_strip_idemp].
  - rewrite lookup_insert_ne by done. apply Hm.
Qed.

Lemma scan_line_scanned metrics line :
  scanned metrics →
  ∃ metrics', SimpleDemo.scan_line metrics line = inr metrics' ∧ scanned metrics'.
Proof.
  intros Hm. unfold SimpleDemo.scan_line. unfold_exn.
  destruct (str_contains "YTD Return:" line) eqn:H1.
  { destruct (str_split_second _ _ H1) as (part & ->). eexists. split; [done|].
    apply scanned_insert; [|done]. set_solver. }
  destruct (str_contains "Since Inception Return:" line) eqn:H2.
  { destruct (str_split_second _ _ H2) as (part & ->). eexists. split; [done|].
    apply scanned_insert; [|done]. set_solver. }
  destruct (str_contains "Sharpe Ratio:" line) eqn:H3.
  { destruct (str_split_second _ _ H3) as (part & ->). eexists. split; [done|].
    apply scanned_insert; [|done]. set_solver. }
  by eexists.
Qed.

Lemma scan_lines_scanned lines : ∀ metrics,
  scanned metrics →
  ∃ metrics', SimpleDemo.scan_lines metrics lines = inr metrics' ∧ scanned metrics'.
Proof.
  induction lines as [|line lines IH]; intros metrics Hm; [by eexists|].
  cbn [SimpleDemo.scan_lines]. unfold mbind at 1. unfold SimpleDemo.exn_bind at 1.
  destruct (scan_line_scanned metrics line Hm) as (metrics' & -> & Hm').
  by apply IH.
Qed.

(** On a file that can be read, [extract_pdf_metrics] of the demo never
    raises, whatever the text: the part behind a label is there whenever
    the label is in the line. The record it returns has keys among YTD,
    SinceInception and Sharpe only, and each value is stripped of the white
    space at its ends. *)
Theorem scan_never_fails_on_text (content : string) :
  ∃ metrics,
    SimpleDemo.extract_pdf_metrics (inr content) = inr metrics
    ∧ ∀ key v, metrics !! key = Some v →
        key ∈ ["YTD"; "SinceInception"; "Sharpe"] ∧ str_strip v = v.
Proof.
  unfold SimpleDemo.extract_pdf_metrics. unfold_exn.
  destruct (scan_lines_scanned (str_split LF content) ∅) as (metrics & Hrun & Hm).
  { by intros key v ?. }
  by exists metrics.
Qed.

Lemma has_char_app c s1 s2 : has_char c (s1 +:+ s2) = has_char c s1 || has_char c s2.
Proof.
  induction s1 as [|d s1 IH]; [done|]. rewrite app_String. simpl.
  by rewrite IH, orb_assoc.
Qed.

Lemma has_char_forall (P : ascii → bool) c s :
  string_forall P s = true → P c = false → has_char c s = false.
Proof.
  intros Hs Hc. induction s as [|d s IH]; [done|]. simpl in *.
  apply andb_true_iff in Hs as [Hd Hs]. rewrite (IH Hs), orb_false_r.
  apply bool_decide_eq_false. by intros ->; congruence.
Qed.

(** The text before the first [c] of a text is determined by the text. *)
Lemma before_char_unique (c : ascii) a b x y :
  a +:+ String c x = b +:+ String c y →
  has_char c a = false → has_char c b = false → a = b ∧ x = y.
Proof.
  revert b. induction a as [|d a IH]; intros b Heq Ha Hb.
  - destruct b as [|d b].
    + rewrite !app_empty_l in Heq. by injection Heq as <-.
    + rewrite app_empty_l, app_String in Heq. injection Heq as <- _.
      simpl in Hb. by rewrite bool_decide_eq_true_2 in Hb.
  - destruct b as [|d' b].
    + rewrite app_empty_l, app_String in Heq. injection Heq as -> _.
      simpl in Ha. by rewrite bool_decide_eq_true_2 in Ha.
    + rewrite !app_String in Heq. injection Heq as <- Heq.
      simpl in Ha, Hb. apply orb_false_iff in Ha as [_ Ha].
      apply orb_false_iff in Hb as [_ Hb].
      destruct (IH b Heq Ha Hb) as [-> ->]. done.
Qed.

Lemma str_partition_unfold sep s :
  str_partition sep s
  = if String.prefix sep s then Some ("", drop_chars (String.length sep) s)
    else match s with
         | String c s' => prod_map (String c) id <$> str_partition sep s'
         | EmptyString => None
         end.
Proof. by destruct s. Qed.

Lemma str_contains_unfold sub s :
  str_contains sub s
  = String.prefix sub s
    || match s with
       | String _ s' => str_contains sub s'
       | EmptyString => false
       end.
Proof. by destruct s. Qed.

(** A separator that ends with its only [c] is found where it stands, when
    no [c] stands before it. *)
Lemma str_partition_first (c : ascii) body pre post :
  has_char c body = false → has_char c pre = false →
  str_partition (body +:+ String c "") (pre +:+ (body +:+ String c "") +:+ post)
  = Some (pre, post).
Proof.
  intros Hbody Hpre. induction pre as [|d pre IH].
  - rewrite app_empty_l, str_partition_unfold.
    by rewrite prefix_app_true, drop_chars_app.
  - simpl in Hpre. apply orb_false_iff in Hpre as [Hd Hpre].
    rewrite app_String, str_partition_unfold.
    destruct (String.prefix (body +:+ String c "")
                (String d (pre +:+ (body +:+ String c "") +:+ post))) eqn:Hp.
    + apply prefix_app in Hp as (rest & Hrest). exfalso.
      rewrite <-app_String, !app_assoc_string in Hrest.
      rewrite <-(app_assoc_string (String d pre) body) in Hrest.
      rewrite !(app_String c), !app_empty_l in Hrest.
      apply before_char_unique in Hrest as [Hrest _]; [| |done].
      * apply (f_equal String.length) in Hrest.
        rewrite length_app_string in Hrest. simpl in Hrest. lia.
      * rewrite has_char_app. simpl. by rewrite Hd, Hpre, Hbody.
    + rewrite IH by done. done.
Qed.

Lemma str_partition_char (c : ascii) pre post :
  has_char c pre = false →
  str_partition (String c "") (pre +:+ String c post) = Some (pre, post).
Proof. intros Hpre. exact (str_partition_first c "" pre post eq_refl Hpre). Qed.

Lemma str_partition_label body pre post :
  has_char ":" body = false → has_char ":" pre = false →
  str_partition (body +:+ ":") (pre +:+ (body +:+ ":") +:+ post) = Some (pre, post).
Proof. apply (str_partition_first ":"). Qed.

Lemma str_partition_no_colon body s :
  has_char ":" s = false → str_partition (body +:+ ":") s = None.
Proof.
  induction s as [|c s IH]; intros Hs.
  - cbn [str_partition]. by destruct body.
  - cbn [str_partition].
    destruct (String.prefix (body +:+ ":") (String c s)) eqn:Hp.
    + apply prefix_app in Hp as (rest & Hrest). rewrite Hrest in Hs.
      rewrite !has_char_app in Hs. simpl in Hs.
      by rewrite orb_true_r in Hs.
    + simpl in Hs. apply orb_false_iff in Hs as [_ Hs]. by rewrite IH.
Qed.

Lemma str_partition_no_char c s :
  has_char c s = false → str_partition (String c "") s = None.
Proof.
  induction s as [|d s IH]; intros Hs; [done|].
  simpl in Hs. apply orb_false_iff in Hs as [Hd Hs].
  apply bool_decide_eq_false in Hd.
  cbn [str_partition]. simpl. destruct (ascii_dec c d); [done|].
  by rewrite IH.
Qed.

Lemma str_contains_label sep pre post :
  str_contains sep (pre +:+ sep +:+ post) = true.
Proof.
  induction pre as [|c pre IH].
  - rewrite app_empty_l, str_contains_unfold. by rewrite prefix_app_true.
  - rewrite app_String. cbn [str_contains]. by rewrite IH, orb_true_r.
Qed.

(** A line with one label and no other colon: the part the scan takes is
    the rest of the line. *)
Lemma str_split_label body pre post :
  has_char ":" body = false → has_char ":" pre = false → has_char ":" post = false →
  getitem (str_split (body +:+ ":") (pre +:+ (body +:+ ":") +:+ post)) 1 = inr post.
Proof.
  intros Hbody Hpre Hpost. unfold str_split.
  destruct (String.length (pre +:+ (body +:+ ":") +:+ post)) as [|fuel] eqn:Hlen.
  { rewrite !length_app_string in Hlen. simpl in Hlen. lia. }
  cbn [str_split_go]. rewrite str_partition_label by done.
  destruct fuel; cbn [str_split_go]; by rewrite ?str_partition_no_colon.
Qed.

Lemma str_split_no_sep (c : ascii) s :
  has_char c s = false → str_split (String c "") s = [s].
Proof.
  intros Hs. unfold str_split.
  destruct (String.length s); cbn [str_split_go]; by rewrite str_partition_no_char.
Qed.

(** The turn of the loop for a line with the first label and no other
    colon. *)
Lemma scan_line_label metrics pre post :
  has_char ":" pre = false → has_char ":" post = false →
  SimpleDemo.scan_line metrics (pre +:+ "YTD Return:" +:+ post)
  = inr (<["YTD" := str_strip post]> metrics).
Proof.
  intros Hpre Hpost. unfold SimpleDemo.scan_line. unfold_exn.
  rewrite str_contains_label.
  change "YTD Return:" with ("YTD Return" +:+ ":").
  by rewrite str_split_label.
Qed.

(** A line that holds the label of the year-to-date return once and no
    other colon: the scan keeps, under YTD, all that follows the label on
    the line, stripped; a sign, a unit or a remark behind the number
    included. *)
Theorem scan_keeps_text_behind_label (pre post : string) :
  has_char ":" pre = false → has_char ":" post = false →
  has_char "010" pre = false → has_char "010" post = false →
  SimpleDemo.extract_pdf_metrics (inr (pre +:+ "YTD Return:" +:+ post))
  = inr {[ "YTD" := str_strip post ]}.
Proof.
  intros Hpre Hpost Hpre' Hpost'.
  unfold SimpleDemo.extract_pdf_metrics. unfold_exn.
  change LF with (String "010" "").
  rewrite str_split_no_sep by (by rewrite !has_char_app, Hpre', Hpost').
  cbn [SimpleDemo.scan_lines]. unfold mbind at 1. unfold SimpleDemo.exn_bind at 1.
  by rewrite scan_line_label.
Qed.

Lemma scan_keeps_text_behind_label_witness :
  SimpleDemo.extract_pdf_metrics (inr "        YTD Return: -5.5% (net of fees)  ")
  = inr {[ "YTD" := "-5.5% (net of fees)" ]}.
Proof.
  apply (scan_keeps_text_behind_label "        " " -5.5% (net of fees)  ");
    reflexivity.
Defined.

Lemma rstrip_by_end P s c :
  P c = false → rstrip_by P (s +:+ String c "") = s +:+ String c "".
Proof.
  intros Hc. induction s as [|a s IH].
  - rewrite app_empty_l. cbn [rstrip_by]. by rewrite Hc.
  - rewrite app_String. cbn [rstrip_by]. rewrite IH.
    destruct s; by rewrite ?app_empty_l, ?app_String.
Qed.

Lemma decimal_has_no c int frac :
  is_digit c = false → c ≠ "."%char →
  all_digits int = true → from_option all_digits true frac = true →
  has_char c (decimal int frac) = false.
Proof.
  intros Hc Hdot Hint Hfrac. unfold decimal. rewrite has_char_app.
  rewrite (has_char_forall is_digit c int) by done.
  destruct frac as [f|]; cbn [from_option] in *; [|done].
  rewrite app_String, app_empty_l. cbn [has_char].
  rewrite (has_char_forall is_digit c f) by done.
  by rewrite bool_decide_eq_false_2.
Qed.

Lemma str_strip_loss y :
  str_strip (" -" +:+ y +:+ "%") = "-" +:+ y +:+ "%".
Proof.
  unfold str_strip, strip_by.
  change (" -" +:+ y +:+ "%") with (String " " (String "-" (y +:+ "%"))).
  cbn [lstrip_by].
  change (is_space " ") with true. change (is_space "-") with false. cbv iota.
  exact (rstrip_by_end is_space ("-" +:+ y) "%" eq_refl).
Qed.

(** The two extractions of the repository disagree on a negative return:
    from the line that the sample reports have for a loss, the scan of the
    demo keeps the sign, the patterns of the enhanced generator drop it. *)
Theorem the_two_extractions_differ_on_a_loss (int : string) (frac : option string) :
  int ≠ "" → all_digits int = true →
  from_option all_digits true frac = true →
  let line := "YTD Return: -" +:+ decimal int frac +:+ "%" in
  SimpleDemo.extract_pdf_metrics (inr line)
    = inr {[ "YTD" := "-" +:+ decimal int frac +:+ "%" ]}
  ∧ extract_metrics line !! "YTD" = Some (decimal int frac +:+ "%").
Proof.
  intros Hne Hint Hfrac line.
  assert (∀ c, is_digit c = false → c ≠ "."%char →
               has_char c (" -" +:+ decimal int frac +:+ "%")
               = has_char c " -%") as Hchars.
  { intros c Hc Hdot.
    change (" -" +:+ decimal int frac +:+ "%")
      with (String " " (String "-" (decimal int frac +:+ "%"))).
    cbn [has_char]. rewrite has_char_app, decimal_has_no by done. done. }
  split.
  - unfold line, SimpleDemo.extract_pdf_metrics. unfold_exn.
    change ("YTD Return: -" +:+ decimal int frac +:+ "%")
      with ("" +:+ "YTD Return:" +:+ (" -" +:+ decimal int frac +:+ "%")).
    change LF with (String "010" "").
    rewrite str_split_no_sep by (by rewrite 2!has_char_app, Hchars).
    cbn [SimpleDemo.scan_lines]. unfold mbind at 1. unfold SimpleDemo.exn_bind at 1.
    rewrite scan_line_label; [|done|by rewrite Hchars].
    by rewrite str_strip_loss.
  - unfold line.
    change ("YTD Return: -" +:+ decimal int frac +:+ "%")
      with ("" +:+ "YTD" +:+ " Return: -" +:+ decimal int frac +:+ "%" +:+ "").
    unfold extract_metrics. rewrite re_search_ytd by done.
    repeat case_match; by simplify_map_eq.
Qed.

Lemma the_two_extractions_differ_on_a_loss_witness :
  SimpleDemo.extract_pdf_metrics (inr "YTD Return: -5.5%") = inr {[ "YTD" := "-5.5%" ]}
  ∧ extract_metrics "YTD Return: -5.5%" !! "YTD" = Some "5.5%".
Proof.
  apply (the_two_extractions_differ_on_a_loss "5" (Some "5"));
    solve [reflexivity | discriminate].
Defined.

(** ** The batch run of the generator without AI *)

Lemma basic_generate_email_text host (self : Basic.t) client_name metrics convictions :
  ∃ text, ∀ w, ∃ w',
    Basic.generate_email host self client_name metrics convictions w
    = (Returns text, w')
    ∧ written w' = written w
    ∧ ∃ lines, log w' = log w ++ lines.
Proof.
  unfold Basic.generate_email.
  destruct (Basic.email_template self) as [[|c t]|].
  - eexists. intros w. exists w. split_and!; [done..|]. exists []. by rewrite app_nil_r.
  - unfold_m. destruct (str_format _ _ _) as [e|email_content]; simpl.
    + eexists. intros w. eexists. split_and!; [done..|]. by eexists.
    + eexists. intros w. exists w. split_and!; [done..|].
      exists []. by rewrite app_nil_r.
  - eexists. intros w. exists w. split_and!; [done..|]. exists []. by rewrite app_nil_r.
Qed.

Lemma basic_get_top_convictions_text host (self : Basic.t) n :
  ∃ text, ∀ w, ∃ w',
    Basic.get_top_convictions host self n w = (Returns text, w')
    ∧ written w' = written w
    ∧ ∃ lines, log w' = log w ++ lines.
Proof.
  unfold Basic.get_top_convictions.
  destruct (Basic.convictions_df self) as [df|].
  2: { eexists. intros w. exists w. split_and!; [done..|].
       exists []. by rewrite app_nil_r. }
  unfold nlargest. destruct (ytd_numeric df); unfold_m; simpl.
  - eexists. intros w. exists w. split_and!; [done..|]. exists []. by rewrite app_nil_r.
  - eexists. intros w. eexists. split_and!; [done..|]. by eexists.
Qed.

Lemma basic_loop_body_spec host (self : Basic.t) pdf w :
  (∀ path content, write_error host path content = None) →
  ∃ w',
    BasicBatch.loop_body host self (basic_convictions_text host self) pdf w
    = (Returns true, w')
    ∧ written w' = written w ++ [(path_of host pdf, basic_email host self pdf)]
    ∧ ∃ lines, log w' = log w ++ lines.
Proof.
  intros Hwrite.
  destruct (basic_generate_email_text host self (Enhanced.client_name_of pdf)
              sample_data (basic_convictions_text host self)) as (text & Htext).
  assert (basic_email host self pdf = text) as Hemail.
  { unfold basic_email, returned. by destruct (Htext empty_world) as (w1 & -> & _). }
  unfold BasicBatch.loop_body, BasicBatch.process_report, BasicBatch.parse_report.
  unfold mbind, M_bind, try_except, logger, mret, M_ret. cbn [fst snd].
  rewrite decide_False by apply sample_data_not_empty.
  set (w0 := {| log := log w ++ _; written := written w; unfinished := unfinished w |}).
  destruct (Htext w0) as (w1 & -> & Hw1 & lines & Hl1).
  unfold write_file. rewrite Hwrite. eexists. split; [done|]. simpl.
  rewrite Hw1, Hemail. split; [done|]. rewrite Hl1. simpl.
  eexists. by rewrite <-!app_assoc.
Qed.

Lemma basic_process_loop_spec host (self : Basic.t) pdf_files :
  (∀ path content, write_error host path content = None) →
  ∀ processed_count w, ∃ w',
    BasicBatch.process_loop host self (basic_convictions_text host self) pdf_files
      processed_count w
    = (Returns (processed_count + length pdf_files), w')
    ∧ written w'
      = written w ++ ((λ pdf, (path_of host pdf, basic_email host self pdf))
                      <$> pdf_files)
    ∧ ∃ lines, log w' = log w ++ lines.
Proof.
  intros Hwrite. induction pdf_files as [|pdf rest IH]; intros processed_count w.
  { exists w. simpl. rewrite Nat.add_0_r, app_nil_r. split_and!; [done..|].
    exists []. by rewrite app_nil_r. }
  destruct (basic_loop_body_spec host self pdf w Hwrite) as (w1 & Hbody & Hw1 & l1 & Hl1).
  destruct (IH (S processed_count) w1) as (w2 & Hloop & Hw2 & l2 & Hl2).
  exists w2. cbn [BasicBatch.process_loop]. unfold mbind, M_bind.
  rewrite Hbody, Hloop. split; [simpl; do 2 f_equal; lia|].
  split; [by rewrite Hw2, Hw1, <-app_assoc|].
  exists (l1 ++ l2). by rewrite Hl2, Hl1, app_assoc.
Qed.

(** The generator without AI never opens a report: when every file can be
    written, each report of the directory, whatever it holds, gets an email
    with the simulated record, none is passed over, and the run ends with
    the summary report of as many emails as there are reports. *)
Theorem basic_batch_processes_every_report (host : Host) (clock : Clock)
    (self : Basic.t) (w : World) :
  pdf_dir_exists host = true →
  pdf_dir_glob host ≠ [] →
  (∀ path content, write_error host path content = None) →
  ∃ w',
    BasicBatch.process_all_reports host clock self w = (Returns tt, w')
    ∧ written w'
      = written w
        ++ ((λ pdf, (path_of host pdf, basic_email host self pdf))
            <$> pdf_dir_glob host)
        ++ [(BasicBatch.summary_path host,
             BasicBatch.summary host clock self (length (pdf_dir_glob host)))]
    ∧ (INFO, "🎉 Successfully processed " +:+ pretty (length (pdf_dir_glob host))
             +:+ " reports") ∈ log w'.
Proof.
  intros Hdir Hfiles Hwrite. unfold BasicBatch.process_all_reports.
  rewrite Hdir. simpl.
  destruct (pdf_dir_glob host) as [|pdf rest] eqn:Hglob; [done|].
  rewrite <-Hglob.
  destruct (basic_get_top_convictions_text host self 3) as (text & Htext).
  assert (basic_convictions_text host self = text) as Hconv.
  { unfold basic_convictions_text, returned.
    by destruct (Htext empty_world) as (w1 & -> & _). }
  unfold mbind, M_bind. unfold logger at 1.
  set (w0 := {| log := log w ++ _; written := written w; unfinished := unfinished w |}).
  destruct (Htext w0) as (w1 & -> & Hw1 & l1 & Hl1). rewrite <-Hconv.
  destruct (basic_process_loop_spec host self (pdf_dir_glob host) Hwrite 0 w1)
    as (w2 & -> & Hw2 & l2 & Hl2).
  unfold BasicBatch._generate_summary_report, write_file, logger, mbind, M_bind.
  rewrite Hwrite. eexists. split; [done|]. simpl. split.
  - by rewrite Hw2, Hw1, <-app_assoc.
  - apply elem_of_app. left. apply elem_of_app. right. apply list_elem_of_here.
Qed.

Lemma basic_batch_processes_every_report_witness :
  ∃ w',
    BasicBatch.process_all_reports demo_host demo_clock basic_generator empty_world
      = (Returns tt, w')
    ∧ (written w').*1
      = ["PerformanceSystem/output/emails/John Smith.txt";
         "PerformanceSystem/output/emails/Sarah Johnson.txt";
         "PerformanceSystem/output/emails/generation_summary.txt"].
Proof.
  destruct (basic_batch_processes_every_report demo_host demo_clock basic_generator
              empty_world) as (w' & Hrun & Hw & _);
    [reflexivity|discriminate|reflexivity|].
  exists w'. split; [exact Hrun|]. rewrite Hw. reflexivity.
Defined.

Lemma write_samples_spec host client_files w :
  (∀ path content, write_error host path content = None) →
  BasicBatch.write_samples host client_files w
  = (Returns tt,
     {| log := log w;
        written := written w
          ++ ((λ client_file, (PDF_DIR host +:+ "/" +:+ client_file,
                               "Sample PDF placeholder for " +:+ client_file))
              <$> client_files);
        unfinished := unfinished w |}).
Proof.
  intros Hwrite. revert w. induction client_files as [|f rest IH]; intros w.
  { simpl. unfold mret, M_ret. destruct w. simpl. by rewrite app_nil_r. }
  cbn [BasicBatch.write_samples]. unfold mbind, M_bind, write_file.
  rewrite Hwrite, IH. simpl. by rewrite <-app_assoc.
Qed.

(** When the directory of the reports is missing or has no report, the run
    of the generator without AI makes it (when files can be written): it
    writes five placeholder files, one line of text each, and returns with
    no email and no summary. *)
Theorem basic_batch_makes_sample_reports (host : Host) (clock : Clock)
    (self : Basic.t) (w : World) :
  pdf_dir_exists host = false ∨ pdf_dir_glob host = [] →
  (∀ path content, write_error host path content = None) →
  ∃ w',
    BasicBatch.process_all_reports host clock self w = (Returns tt, w')
    ∧ written w'
      = written w
        ++ ((λ client_file, (PDF_DIR host +:+ "/" +:+ client_file,
                             "Sample PDF placeholder for " +:+ client_file))
            <$> ["John_Smith.pdf"; "Sarah_Johnson.pdf"; "Michael_Brown.pdf";
                 "Emily_Davis.pdf"; "Robert_Wilson.pdf"])
    ∧ last (log w')
      = Some (INFO, "Created 5 sample PDF files for demonstration").
Proof.
  intros Hnone Hwrite. unfold BasicBatch.process_all_reports.
  assert (∀ w0, ∃ w',
    BasicBatch._create_sample_pdfs host w0 = (Returns tt, w')
    ∧ written w'
      = written w0
        ++ ((λ client_file, (PDF_DIR host +:+ "/" +:+ client_file,
                             "Sample PDF placeholder for " +:+ client_file))
            <$> BasicBatch.sample_clients)
    ∧ last (log w')
      = Some (INFO, "Created 5 sample PDF files for demonstration")) as Hsamples.
  { intros w0. unfold BasicBatch._create_sample_pdfs, mbind, M_bind.
    rewrite write_samples_spec by done. eexists. split; [done|]. simpl.
    split; [done|]. by rewrite last_snoc. }
  destruct (pdf_dir_exists host) eqn:Hdir; simpl.
  - destruct Hnone as [|Hglob]; [done|]. rewrite Hglob.
    unfold mbind, M_bind. unfold logger at 1.
    set (w0 := {| log := log w ++ _; written := written w; unfinished := unfinished w |}).
    destruct (Hsamples w0) as (w' & Hrun & Hw' & Hlast). by exists w'.
  - unfold mbind, M_bind. unfold logger at 1.
    set (w0 := {| log := log w ++ _; written := written w; unfinished := unfinished w |}).
    destruct (Hsamples w0) as (w' & Hrun & Hw' & Hlast). by exists w'.
Qed.

Lemma basic_batch_makes_sample_reports_witness :
  pdf_dir_exists fresh_host = false
  ∧ ∃ w',
      BasicBatch.process_all_reports fresh_host demo_clock basic_generator empty_world
        = (Returns tt, w')
      ∧ length (written w') = 5.
Proof.
  split; [reflexivity|].
  destruct (basic_batch_makes_sample_reports fresh_host demo_clock basic_generator
              empty_world) as (w' & Hrun & Hw & _);
    [left; reflexivity|reflexivity|].
  exists w'. split; [exact Hrun|]. rewrite Hw. reflexivity.
Defined.

(** ** The template of the repository *)

Lemma template_content_segments :
  template_content = template_of template_segments
  ∧ forallb plain_segment template_segments = true.
Proof. split; vm_compute; reflexivity. Qed.

(** The template that [setup_demo.py] installs is literal text without
    braces and the five placeholders, each once: with it both generators
    return, for every recipient, record and conviction text, the template
    with the values in the places of the placeholders, an absent metric as
    N/A, and never the text of an error. *)
Theorem shipped_template_renders (host : Host) (self : Enhanced.t)
    (basic : Basic.t) (client_name : string) (metrics : gmap string string)
    (convictions : string) (use_ai : bool) (w : World) :
  Enhanced.email_template self = Some template_content →
  Basic.email_template basic = Some template_content →
  Enhanced.ai_enabled self use_ai = false →
  Enhanced.generate_email host self client_name metrics convictions use_ai w
    = (Returns (Some (render client_name metrics convictions template_segments)), w)
  ∧ Basic.generate_email host basic client_name metrics convictions w
    = (Returns (render client_name metrics convictions template_segments), w).
Proof.
  intros Hself Hbasic Hai.
  destruct template_content_segments as [Htemplate Hsegs].
  pose proof (str_format_segments host client_name metrics convictions
                template_segments Hsegs) as Hfmt.
  rewrite <-Htemplate in Hfmt.
  assert (template_content ≠ "") as Hne by (by vm_compute).
  split_and!.
  - rewrite (generate_email_formatted host self _ _ _ _ w _ _ Hself Hne Hfmt).
    by rewrite Hai.
  - by apply (basic_generate_email_formatted host basic _ _ _ w _ _ Hbasic Hne Hfmt).
Qed.

Lemma shipped_template_renders_witness :
  ∃ email,
    Enhanced.generate_email demo_host shipped_generator "John Smith"
      metrics_without_sharpe "(convictions)" true empty_world
    = (Returns (Some email), empty_world)
    ∧ String.prefix ("Hi John Smith," +:+ LF) email = true.
Proof.
  destruct (shipped_template_renders demo_host shipped_generator
              shipped_basic_generator "John Smith" metrics_without_sharpe
              "(convictions)" true empty_world) as (Hrun & _);
    [reflexivity..|].
  eexists. split; [exact Hrun|]. vm_compute. reflexivity.
Defined.

(** ** The run of the demo *)

Lemma demo_loop_body_spec host email_template convictions_text pdf w :
  let turn := demo_turn host email_template convictions_text pdf in
  ∃ w',
    SimpleDemo.loop_body host email_template convictions_text pdf w
    = (Returns (bool_decide (is_Some (demo_turn_file turn))), w')
    ∧ log w' = log w ++ [demo_turn_line pdf turn]
    ∧ written w' = written w ++ option_list (demo_turn_file turn)
    ∧ ∃ files, unfinished w' = unfinished w ++ files
               ∧ length files + length (option_list (demo_turn_file turn)) ≤ 1.
Proof.
  unfold demo_turn, SimpleDemo.loop_body, SimpleDemo.process_report.
  unfold_m.
  destruct (SimpleDemo.extract_pdf_metrics pdf.2) as [e|metrics]; simpl.
  { eexists. split_and!; [done..|by rewrite app_nil_r|].
    exists []. rewrite app_nil_r. split; [done|simpl; lia]. }
  destruct (decide (metrics = ∅)) as [Hempty|Hne]; simpl.
  { eexists. split_and!; [done..|by rewrite app_nil_r|].
    exists []. rewrite app_nil_r. split; [done|simpl; lia]. }
  destruct (str_format _ _ _) as [e|email_content]; simpl.
  { eexists. split_and!; [done..|by rewrite app_nil_r|].
    exists []. rewrite app_nil_r. split; [done|simpl; lia]. }
  unfold write_file.
  destruct (write_error host _ _) as [e|]; simpl.
  - destruct (write_leaves host _ _) as [text|]; simpl.
    + eexists. split_and!; [done..|by rewrite app_nil_r|].
      eexists. split; [done|simpl; lia].
    + eexists. split_and!; [done..|by rewrite app_nil_r|].
      exists []. rewrite app_nil_r. split; [done|simpl; lia].
  - eexists. split_and!; [done..|]. exists []. rewrite app_nil_r. split; [done|simpl; lia].
Qed.

Lemma demo_process_loop_spec host email_template convictions_text pdf_files :
  ∀ processed_count w, ∃ w',
    SimpleDemo.process_loop host email_template convictions_text pdf_files
      processed_count w
    = (Returns (processed_count
                + length (demo_files host email_template convictions_text pdf_files)),
       w')
    ∧ log w' = log w ++ demo_lines host email_template convictions_text pdf_files
    ∧ written w'
      = written w ++ demo_files host email_template convictions_text pdf_files
    ∧ ∃ files, unfinished w' = unfinished w ++ files
               ∧ length files
                 + length (demo_files host email_template convictions_text pdf_files)
                 ≤ length pdf_files.
Proof.
  unfold demo_files, demo_lines.
  induction pdf_files as [|pdf rest IH]; intros processed_count w.
  { exists w. simpl. unfold mret, M_ret.
    rewrite Nat.add_0_r, !app_nil_r. split_and!; [done..|].
    exists []. by rewrite app_nil_r. }
  cbn [SimpleDemo.process_loop]. unfold mbind, M_bind.
  destruct (demo_loop_body_spec host email_template convictions_text pdf w)
    as (w1 & -> & Hl1 & Hw1 & files1 & Hu1 & Hn1).
  cbn [omap list_omap fmap list_fmap].
  destruct (demo_turn_file _) as [file|]; simpl in *.
  - destruct (IH (S processed_count) w1) as (w2 & -> & Hl2 & Hw2 & files2 & Hu2 & Hn2).
    exists w2. split; [do 2 f_equal; lia|].
    split; [by rewrite Hl2, Hl1, <-app_assoc|].
    split; [by rewrite Hw2, Hw1, <-app_assoc|].
    exists (files1 ++ files2). split; [by rewrite Hu2, Hu1, app_assoc|].
    rewrite length_app. lia.
  - destruct (IH processed_count w1) as (w2 & -> & Hl2 & Hw2 & files2 & Hu2 & Hn2).
    exists w2. split; [done|].
    split; [by rewrite Hl2, Hl1, <-app_assoc|].
    split; [by rewrite Hw2, Hw1, app_nil_r|].
    exists (files1 ++ files2). split; [by rewrite Hu2, Hu1, app_assoc|].
    rewrite length_app. lia.
Qed.

Lemma demo_generate_emails_spec host files email_template csv convictions w :
  template_file files = Some (inr email_template) →
  conv_file files = Some csv →
  SimpleDemo.load_convictions_csv files csv = inr convictions →
  let convictions_text := demo_convictions_text host convictions in
  let emails := demo_files host email_template convictions_text (report_files files) in
  ∃ w',
    SimpleDemo.generate_emails host files w
    = (Returns (Some (length emails, "output/emails")), w')
    ∧ log w'
      = log w
        ++ [(INFO, "Processing " +:+ pretty (length (report_files files))
                   +:+ " PDF reports...")]
        ++ demo_lines host email_template convictions_text (report_files files)
        ++ [(INFO, "🎉 Successfully processed " +:+ pretty (length emails)
                   +:+ " reports")]
    ∧ written w' = written w ++ emails
    ∧ ∃ left_behind, unfinished w' = unfinished w ++ left_behind
                     ∧ length left_behind + length emails
                       ≤ length (report_files files).
Proof.
  intros Htemplate Hconv Hload convictions_text emails.
  unfold SimpleDemo.generate_emails. rewrite Htemplate, Hconv.
  unfold mbind, M_bind, lift. unfold mret at 1. unfold M_ret at 1.
  rewrite Hload. unfold mret at 1. unfold M_ret at 1. unfold logger at 1.
  fold (demo_convictions_text host convictions). fold convictions_text.
  match goal with
  | |- context [SimpleDemo.process_loop _ _ _ _ _ ?w0] =>
      destruct (demo_process_loop_spec host email_template convictions_text
                  (report_files files) 0 w0)
        as (w1 & -> & Hl1 & Hw1 & left_behind & Hu1 & Hn1)
  end.
  fold emails in Hw1, Hn1 |- *. simpl in *.
  eexists. split; [done|]. simpl.
  split; [by rewrite Hl1, <-!app_assoc|]. split; [done|]. by exists left_behind.
Qed.

Lemma omap_length {A B} (f : A → option B) (l : list A) :
  length (omap f l) ≤ length l.
Proof.
  induction l as [|x l IH]; [done|]. cbn [omap list_omap].
  fold (omap f l). destruct (f x); cbn [length]; lia.
Qed.

Lemma demo_turn_file_Some host email_template convictions_text pdf path email :
  demo_turn_file (demo_turn host email_template convictions_text pdf)
    = Some (path, email) →
  ∃ text metrics,
    pdf.2 = inr text
    ∧ SimpleDemo.extract_pdf_metrics (inr text) = inr metrics
    ∧ metrics ≠ ∅
    ∧ path = SimpleDemo.output_path (SimpleDemo.client_name_of pdf.1)
    ∧ str_format (format_tail host)
        (email_kwargs (SimpleDemo.client_name_of pdf.1) metrics convictions_text)
        email_template = inr email.
Proof.
  unfold demo_turn. destruct pdf as [name file]. cbn [fst snd].
  destruct (SimpleDemo.extract_pdf_metrics file) as [e|metrics] eqn:Hscan; [done|].
  destruct file as [e|text]; [done|].
  destruct (decide (metrics = ∅)) as [?|Hne]; [done|]. cbv zeta.
  destruct (str_format _ _ _) as [e|email_content] eqn:Hfmt; [done|].
  destruct (write_error host _ _); [done|]. cbn [demo_turn_file].
  intros [= <- <-]. by exists text, metrics.
Qed.

(** Two client names with the same output file of the demo are the same
    name. *)
Lemma demo_output_path_inj : Inj (=) (=) SimpleDemo.output_path.
Proof.
  intros name1 name2 Heq. unfold SimpleDemo.output_path in Heq.
  apply String.app_inj in Heq. apply (String.app_inj "/") in Heq.
  by apply app_inj_r in Heq.
Qed.

(** The files of a batch are output files of its reports, in their order. *)
Lemma demo_files_paths host email_template convictions_text pdf_files :
  (demo_files host email_template convictions_text pdf_files).*1
  `sublist_of` (SimpleDemo.output_path <$> (SimpleDemo.client_name_of <$> pdf_files.*1)).
Proof.
  unfold demo_files. induction pdf_files as [|pdf rest IH]; [done|].
  cbn [omap list_omap fmap list_fmap].
  destruct (demo_turn_file _) as [[path email]|] eqn:Hturn.
  - apply demo_turn_file_Some in Hturn as (_ & _ & _ & _ & _ & -> & _).
    cbn [fmap list_fmap fst]. by apply sublist_skip.
  - by apply sublist_cons.
Qed.

(** When the template and the table of convictions are loaded, the run of
    the demo returns the number of emails it has written in full. A report
    has at most one of the two, an email written in full or a file that a
    write that raised has left behind, which is not counted; when no two
    reports have the same client name, the emails are in files of their
    own. Each email is the template formatted with the metrics the scan has
    found in the text of its report: a report that cannot be read or has no
    labelled line gets no email, from no stand-in record. *)
Theorem demo_run_counts_the_emails_written_in_full (host : Host)
    (files : DemoFiles) (email_template : string) (csv : exn + string)
    (convictions : list DemoConviction) (w : World) :
  template_file files = Some (inr email_template) →
  conv_file files = Some csv →
  SimpleDemo.load_convictions_csv files csv = inr convictions →
  ∃ w' emails left_behind,
    SimpleDemo.generate_emails host files w
      = (Returns (Some (length emails, "output/emails")), w')
    ∧ written w' = written w ++ emails
    ∧ unfinished w' = unfinished w ++ left_behind
    ∧ length emails + length left_behind ≤ length (report_files files)
    ∧ (NoDup (SimpleDemo.client_name_of <$> (report_files files).*1)
       → NoDup emails.*1)
    ∧ ∀ path email, (path, email) ∈ emails →
        ∃ name text metrics,
          (name, inr text) ∈ report_files files
          ∧ SimpleDemo.extract_pdf_metrics (inr text) = inr metrics
          ∧ metrics ≠ ∅
          ∧ path = SimpleDemo.output_path (SimpleDemo.client_name_of name)
          ∧ str_format (format_tail host)
              (email_kwargs (SimpleDemo.client_name_of name) metrics
                 (demo_convictions_text host convictions))
              email_template = inr email.
Proof.
  intros Htemplate Hconv Hload.
  destruct (demo_generate_emails_spec host files email_template csv convictions w
              Htemplate Hconv Hload) as (w' & Hrun & _ & Hw & left_behind & Hu & Hn).
  exists w', (demo_files host email_template (demo_convictions_text host convictions)
                (report_files files)), left_behind.
  split; [done|]. split; [done|]. split; [done|]. split; [lia|]. split.
  - intros Hnames. eapply sublist_NoDup; [|apply demo_files_paths].
    by apply (@NoDup_fmap_2 _ _ _ demo_output_path_inj).
  - intros path email Hin. unfold demo_files in Hin.
    apply list_elem_of_omap in Hin as ([name file] & Hpdf & Hturn).
    apply demo_turn_file_Some in Hturn as (text & metrics & Hfile & Hrest).
    simpl in Hfile. subst file. by exists name, text, metrics.
Qed.

Lemma omap_None {A B} (f : A → option B) (l : list A) :
  (∀ x, f x = None) → omap f l = [].
Proof. intros Hf. induction l as [|x l IH]; [done|]. simpl. by rewrite Hf. Qed.

(** With a template that names a placeholder outside the five, the demo
    writes no email at all: where the generators write the text of the
    error into the file of each recipient, the demo logs the error under
    the name of each report that has metrics, and returns the count 0. *)
Theorem demo_writes_nothing_on_unknown_placeholder (host : Host)
    (files : DemoFiles) (segs : list segment) (field rest : string)
    (csv : exn + string) (convictions : list DemoConviction) (w : World) :
  template_file files
    = Some (inr (template_of segs +:+ "{" +:+ field +:+ "}" +:+ rest)) →
  forallb plain_segment segs = true →
  plain_name field = true →
  field ∉ supported_placeholders →
  conv_file files = Some csv →
  SimpleDemo.load_convictions_csv files csv = inr convictions →
  ∃ w',
    SimpleDemo.generate_emails host files w = (Returns (Some (0, "output/emails")), w')
    ∧ written w' = written w
    ∧ ∀ name text metrics,
        (name, inr text) ∈ report_files files →
        SimpleDemo.extract_pdf_metrics (inr text) = inr metrics →
        metrics ≠ ∅ →
        ∃ e, (ERROR, "Error processing " +:+ name +:+ ": " +:+ exn_str e) ∈ log w'.
Proof.
  intros Htemplate Hsegs Hplain Hfield Hconv Hload.
  set (email_template := template_of segs +:+ "{" +:+ field +:+ "}" +:+ rest) in *.
  set (convictions_text := demo_convictions_text host convictions).
  assert (∀ pdf, demo_turn_file (demo_turn host email_template convictions_text pdf)
                 = None) as Hnone.
  { intros pdf. unfold demo_turn.
    destruct (SimpleDemo.extract_pdf_metrics pdf.2) as [e|metrics]; [done|].
    destruct (decide (metrics = ∅)); [done|]. simpl.
    destruct (str_format_unknown_placeholder host (SimpleDemo.client_name_of pdf.1)
                metrics convictions_text segs field rest Hsegs Hplain Hfield)
      as (e & He & _).
    fold email_template in He. by rewrite He. }
  destruct (demo_generate_emails_spec host files email_template csv convictions w
              Htemplate Hconv Hload) as (w' & Hrun & Hl & Hw & _).
  fold convictions_text in Hrun, Hl, Hw. unfold demo_files in Hrun, Hl, Hw.
  rewrite (omap_None _ _ Hnone) in Hrun, Hl, Hw.
  exists w'. split; [done|]. split; [by rewrite Hw, app_nil_r|].
  intros name text metrics Hin Hscan Hne.
  destruct (str_format_unknown_placeholder host (SimpleDemo.client_name_of name)
              metrics convictions_text segs field rest Hsegs Hplain Hfield)
    as (e & He & _).
  fold email_template in He. exists e. rewrite Hl.
  apply elem_of_app. right. apply elem_of_cons. right.
  apply elem_of_app. left. unfold demo_lines.
  apply list_elem_of_fmap. exists (name, inr text). split; [|done].
  change (SimpleDemo.extract_pdf_metrics (inr text) = inr metrics) in Hscan.
  unfold demo_turn. cbn [fst snd]. rewrite Hscan.
  rewrite decide_False by done. simpl. by rewrite He.
Qed.

Lemma demo_writes_nothing_on_unknown_placeholder_witness :
  ∃ w',
    SimpleDemo.generate_emails demo_host mismatched_files empty_world
      = (Returns (Some (0, "output/emails")), w')
    ∧ written w' = []
    ∧ (Enhanced.generate_email demo_host mismatched_generator "John Smith"
         sample_data "" false empty_world).1
      = Returns (Some "Error generating email: 'Alpha'").
Proof.
  destruct (demo_writes_nothing_on_unknown_placeholder demo_host mismatched_files
              [Text "Hi "; Placeholder "Name"; Text ", your alpha is "] "Alpha" "."
              (inr ("Model,YTD%,Commentary" +:+ LF)) [] empty_world)
    as (w' & Hrun & Hw & _).
  - reflexivity.
  - reflexivity.
  - reflexivity.
  - unfold supported_placeholders. rewrite !elem_of_cons, elem_of_nil.
    intros [H|[H|[H|[H|[H|[]]]]]]; discriminate H.
  - reflexivity.
  - vm_compute. reflexivity.
  - exists w'. split; [exact Hrun|]. split; [exact Hw|]. vm_compute. reflexivity.
Defined.

Lemma demo_run_counts_the_emails_written_in_full_witness :
  ∃ w' emails left_behind,
    SimpleDemo.generate_emails full_disk_host
      {| template_file := Some (inr demo_template);
         conv_file := Some (inr ("Model,YTD%,Commentary" +:+ LF));
         report_files := [("John_Smith.pdf", inr "YTD Return: 5.5%");
                          ("Sarah_Johnson.pdf", inl (OSError "Permission denied"))];
         py_float := λ _, inl (ValueError "could not convert string to float");
         sort_with_nan := id |}
      empty_world
      = (Returns (Some (length emails, "output/emails")), w')
    ∧ written w' = written empty_world ++ emails
    ∧ unfinished w' = unfinished empty_world ++ left_behind
    ∧ length emails + length left_behind ≤ 2.
Proof.
  destruct (demo_run_counts_the_emails_written_in_full full_disk_host
      {| template_file := Some (inr demo_template);
         conv_file := Some (inr ("Model,YTD%,Commentary" +:+ LF));
         report_files := [("John_Smith.pdf", inr "YTD Return: 5.5%");
                          ("Sarah_Johnson.pdf", inl (OSError "Permission denied"))];
         py_float := λ _, inl (ValueError "could not convert string to float");
         sort_with_nan := id |}
      demo_template (inr ("Model,YTD%,Commentary" +:+ LF)) [] empty_world)
    as (w' & emails & left_behind & Hrun & Hw & Hu & Hn & _).
  - reflexivity.
  - reflexivity.
  - vm_compute. reflexivity.
  - exists w', emails, left_behind.
    split; [exact Hrun|]. split; [exact Hw|]. split; [exact Hu|exact Hn].
Defined.

(** On the full disk the demo counts no email and leaves one empty file. *)
Lemma demo_on_full_disk :
  SimpleDemo.generate_emails full_disk_host
    {| template_file := Some (inr demo_template);
       conv_file := Some (inr ("Model,YTD%,Commentary" +:+ LF));
       report_files := [("John_Smith.pdf", inr "YTD Return: 5.5%");
                        ("Sarah_Johnson.pdf", inl (OSError "Permission denied"))];
       py_float := λ _, inl (ValueError "could not convert string to float");
       sort_with_nan := id |}
    empty_world
  = (Returns (Some (0, "output/emails")),
     {| log := [(INFO, "Processing 2 PDF reports...");
                (ERROR, "Error processing John_Smith.pdf: "
                        +:+ "[Errno 28] No space left on device");
                (ERROR, "Error processing Sarah_Johnson.pdf: Permission denied");
                (INFO, "🎉 Successfully processed 0 reports")];
        written := [];
        unfinished := [(0, "output/emails/John Smith.txt", "")] |}).
Proof. vm_compute. reflexivity. Qed.

(** ** The table of convictions read back *)

Lemma snoc_empty c : snoc "" c = String c "".
Proof. reflexivity. Qed.

Lemma readlines_go_line line rest cur :
  has_char "010" line = false →
  readlines_go (line +:+ LF +:+ rest) cur
  = (cur +:+ line +:+ LF) :: readlines_go rest "".
Proof.
  revert cur. induction line as [|c line IH]; intros cur Hline.
  - rewrite !app_empty_l. change (LF +:+ rest) with (String "010" rest).
    cbn [readlines_go]. rewrite decide_True by done. done.
  - simpl in Hline. apply orb_false_iff in Hline as [Hc Hline].
    apply bool_decide_eq_false in Hc.
    rewrite app_String. cbn [readlines_go].
    rewrite decide_False by congruence. rewrite IH by done.
    by rewrite snoc_app.
Qed.

Lemma lstrip_by_length P s : String.length (lstrip_by P s) ≤ String.length s.
Proof.
  induction s as [|c s IH]; [done|]. cbn [lstrip_by].
  destruct (P c); simpl; lia.
Qed.

Lemma lstrip_by_fixed_app P s (c : ascii) t :
  lstrip_by P s = s → P c = false →
  lstrip_by P (s +:+ String c t) = s +:+ String c t.
Proof.
  intros Hs Hc. destruct s as [|d s].
  - rewrite app_empty_l. cbn [lstrip_by]. by rewrite Hc.
  - rewrite app_String. cbn [lstrip_by] in *.
    destruct (P d); [|done].
    pose proof (lstrip_by_length P s) as Hlen. rewrite Hs in Hlen.
    simpl in Hlen. lia.
Qed.

Lemma rstrip_by_snoc_true P s (q : ascii) :
  P q = true → rstrip_by P (s +:+ String q "") = rstrip_by P s.
Proof.
  intros Hq. induction s as [|c s IH].
  - rewrite app_empty_l. cbn [rstrip_by]. by rewrite Hq.
  - rewrite app_String. cbn [rstrip_by]. by rewrite IH.
Qed.

Lemma strip_by_snoc_true P s (q : ascii) :
  P q = true → strip_by P (s +:+ String q "") = strip_by P s.
Proof.
  intros Hq. unfold strip_by. induction s as [|c s IH].
  - rewrite app_empty_l. cbn [lstrip_by]. by rewrite Hq.
  - rewrite app_String. cbn [lstrip_by]. destruct (P c); [done|].
    by rewrite <-app_String, rstrip_by_snoc_true.
Qed.

(** A line without white space at its ends, stripped of its line feed. *)
Lemma str_strip_line body x (c : ascii) :
  lstrip_by is_space body = body → body = x +:+ String c "" → is_space c = false →
  str_strip (body +:+ LF) = body.
Proof.
  intros Hl Hbody Hc. unfold str_strip, strip_by.
  assert (lstrip_by is_space (body +:+ LF) = body +:+ LF) as ->.
  { change LF with (String "010" ""). destruct body as [|d body].
    - by destruct x.
    - rewrite app_String. cbn [lstrip_by] in *.
      destruct (is_space d); [|done].
      pose proof (lstrip_by_length is_space body) as Hlen. rewrite Hl in Hlen.
      simpl in Hlen. lia. }
  change LF with (String "010" "").
  rewrite (rstrip_by_snoc_true is_space body "010") by done.
  rewrite Hbody. by apply rstrip_by_end.
Qed.

(** The fields of a row, read back from its line. *)
Lemma parse_row_csv_row files row :
  csv_safe files row →
  SimpleDemo.parse_row files (csv_row row) = inr (Some row.1).
Proof.
  destruct row as [[model ytd commentary] ytd_text].
  intros (Hm1 & Hm2 & Hm3 & Hy1 & Hy2 & Hc1 & Hc2 & Hfloat & _). simpl in *.
  unfold SimpleDemo.parse_row, csv_row.
  cbn [fst snd demo_model demo_ytd demo_commentary].
  set (field3 := SimpleDemo.quote +:+ commentary +:+ SimpleDemo.quote).
  set (body := model +:+ "," +:+ ytd_text +:+ "," +:+ field3).
  replace (model +:+ "," +:+ ytd_text +:+ "," +:+ SimpleDemo.quote +:+ commentary
           +:+ SimpleDemo.quote +:+ LF)
    with (body +:+ LF)
    by (unfold body, field3; by rewrite !app_assoc_string).
  rewrite (str_strip_line body
             (model +:+ "," +:+ ytd_text +:+ "," +:+ SimpleDemo.quote +:+ commentary)
             "034").
  2: { unfold body. change ("," +:+ ytd_text +:+ "," +:+ field3)
         with (String "," (ytd_text +:+ "," +:+ field3)).
       by apply lstrip_by_fixed_app. }
  2: { unfold body, field3. change SimpleDemo.quote with (String "034" "").
       by rewrite !app_assoc_string. }
  2: done.
  assert (str_split_max "," 2 body = [model; ytd_text; field3]) as ->.
  { unfold str_split_max, body.
    change (model +:+ "," +:+ ytd_text +:+ "," +:+ field3)
      with (model +:+ String "," (ytd_text +:+ String "," field3)).
    cbn [str_split_go].
    rewrite (str_partition_char "," model) by done.
    by rewrite (str_partition_char "," ytd_text). }
  rewrite decide_True by (simpl; lia).
  unfold_exn. unfold getitem. simpl. rewrite Hfloat. do 3 f_equal.
  unfold field3, str_strip_chars in *.
  change (SimpleDemo.quote +:+ commentary +:+ SimpleDemo.quote)
    with (String "034" (commentary +:+ String "034" "")).
  unfold strip_by at 1. cbn [lstrip_by].
  replace (has_char "034" SimpleDemo.quote) with true by reflexivity.
  fold (strip_by (λ c, has_char c SimpleDemo.quote) (commentary +:+ String "034" "")).
  by rewrite strip_by_snoc_true.
Qed.

Lemma parse_rows_csv_rows files rows :
  Forall (csv_safe files) rows →
  SimpleDemo.parse_rows files (csv_row <$> rows) = inr rows.*1.
Proof.
  induction 1 as [|row rows Hrow Hrows IH]; [done|].
  cbn [fmap list_fmap SimpleDemo.parse_rows].
  unfold mbind at 1. unfold SimpleDemo.exn_bind at 1.
  rewrite parse_row_csv_row by done.
  unfold mbind at 1. unfold SimpleDemo.exn_bind at 1.
  change (list_fmap _ _ csv_row rows) with (csv_row <$> rows). rewrite IH. done.
Qed.

Lemma csv_row_line row :
  has_char "010" (demo_model row.1) = false → has_char "010" row.2 = false →
  has_char "010" (demo_commentary row.1) = false →
  ∃ line, csv_row row = line +:+ LF ∧ has_char "010" line = false.
Proof.
  intros Hm Hy Hc. unfold csv_row.
  exists (demo_model row.1 +:+ "," +:+ row.2 +:+ "," +:+ SimpleDemo.quote
          +:+ demo_commentary row.1 +:+ SimpleDemo.quote).
  split; [by rewrite !app_assoc_string|].
  rewrite !has_char_app, Hm, Hy, Hc. done.
Qed.

Lemma readlines_go_csv_rows files rows :
  Forall (csv_safe files) rows →
  readlines_go (foldr (λ row rest, csv_row row +:+ rest) "" rows) ""
  = csv_row <$> rows.
Proof.
  induction 1 as [|row rows Hrow Hrows IH]; [done|]. cbn [foldr].
  destruct Hrow as (_ & Hm & _ & _ & Hy & Hc & _).
  destruct (csv_row_line row Hm Hy Hc) as (line & Hline & Hlf).
  rewrite Hline, app_assoc_string, readlines_go_line by done.
  by rewrite app_empty_l, IH, <-Hline.
Qed.

(** *** The sort of the rows *)

Lemma insert_by_ytd_Permutation x l : insert_by_ytd x l ≡ₚ x :: l.
Proof.
  induction l as [|y l IH]; simpl; [done|].
  destruct (float_lt _ _); [|done].
  rewrite IH. apply Permutation_swap.
Qed.

Lemma sort_by_ytd_Permutation l : sort_by_ytd l ≡ₚ l.
Proof.
  induction l as [|x l IH]; simpl; [done|].
  by rewrite insert_by_ytd_Permutation, IH.
Qed.

Lemma float_lt_irrefl a : float_lt a a = false.
Proof.
  destruct a as [q|[]|]; simpl; [|done..].
  apply bool_decide_eq_false. by apply Qcle_not_lt, Qcle_refl.
Qed.

Lemma float_lt_asym a b : float_lt a b = true → float_lt b a = false.
Proof.
  destruct a as [p|[]|], b as [q|[]|]; simpl; try done.
  intros Hlt%bool_decide_eq_true. apply bool_decide_eq_false.
  by apply Qcle_not_lt, Qclt_le_weak.
Qed.

(** Without nan, "not smaller" is transitive. *)
Lemma float_not_lt_trans a b c :
  b ≠ NaN →
  float_lt a b = false → float_lt b c = false → float_lt a c = false.
Proof.
  intros Hb.
  destruct a as [p|[]|], b as [q|[]|], c as [r|[]|]; simpl; try done.
  intros Hpq%bool_decide_eq_false Hqr%bool_decide_eq_false.
  apply bool_decide_eq_false. apply Qcle_not_lt.
  apply Qcnot_lt_le in Hpq, Hqr. by etrans.
Qed.

Lemma insert_by_ytd_sorted x l :
  Forall (λ y, demo_ytd y ≠ NaN) l →
  StronglySorted no_smaller_return l →
  StronglySorted no_smaller_return (insert_by_ytd x l).
Proof.
  intros Hnan. induction 1 as [|y l Hl IH Hy]; simpl.
  { repeat constructor. }
  apply Forall_cons in Hnan as [Hynan Hnan].
  destruct (float_lt (demo_ytd x) (demo_ytd y)) eqn:Hlt.
  - constructor; [by apply IH|].
    rewrite insert_by_ytd_Permutation. constructor; [|done].
    by apply float_lt_asym.
  - constructor; [by constructor|].
    constructor; [done|].
    apply Forall_forall. intros z Hz. unfold no_smaller_return.
    apply float_not_lt_trans with (demo_ytd y); [done..|].
    by eapply Forall_forall in Hy.
Qed.

Lemma sort_by_ytd_sorted l :
  Forall (λ y, demo_ytd y ≠ NaN) l →
  StronglySorted no_smaller_return (sort_by_ytd l).
Proof.
  induction 1 as [|x l Hx Hl IH]; simpl; [constructor|].
  apply insert_by_ytd_sorted; [|done].
  by rewrite sort_by_ytd_Permutation.
Qed.

(** A row passes only rows with a larger return: the rows with one and the
    same return keep their order. *)
Lemma insert_by_ytd_filter (k : pyfloat) x l :
  filter (λ y, demo_ytd y = k) (insert_by_ytd x l)
  = filter (λ y, demo_ytd y = k) (x :: l).
Proof.
  induction l as [|y l IH]; [done|]. cbn [insert_by_ytd].
  destruct (float_lt (demo_ytd x) (demo_ytd y)) eqn:Hlt; [|done].
  rewrite (filter_cons _ y (insert_by_ytd x l)), IH.
  rewrite (filter_cons _ x (y :: l)), (filter_cons _ y l), (filter_cons _ x l).
  destruct (decide (demo_ytd y = k)) as [Hy|]; [|done].
  destruct (decide (demo_ytd x = k)) as [Hx|]; [|done].
  rewrite Hx, Hy, float_lt_irrefl in Hlt. done.
Qed.

Lemma sort_by_ytd_filter (k : pyfloat) l :
  filter (λ y, demo_ytd y = k) (sort_by_ytd l) = filter (λ y, demo_ytd y = k) l.
Proof.
  induction l as [|x l IH]; [done|]. cbn [sort_by_ytd foldr].
  fold (sort_by_ytd l). rewrite insert_by_ytd_filter.
  by rewrite !(filter_cons _ x), IH.
Qed.

Lemma sort_convictions_without_nan files l :
  Forall (λ y, demo_ytd y ≠ NaN) l →
  SimpleDemo.sort_convictions files l = sort_by_ytd l.
Proof.
  intros Hnan. unfold SimpleDemo.sort_convictions.
  assert (existsb (λ conviction, bool_decide (demo_ytd conviction = NaN)) l = false)
    as ->; [|done].
  induction Hnan as [|x l Hx Hl IH]; [done|]. simpl.
  by rewrite IH, bool_decide_eq_false_2.
Qed.

(** The table read back. A text made of a header line and of rows written
    as the demo writes them (the model, the return, the commentary in
    double quotes, one row a line) is loaded as these rows, a commentary
    with its commas, in descending order of return, an infinite return
    included; rows with the same return stay in the order of the file.
    This is for rows that the text keeps apart: no comma in the model and
    in the text of the return, no end of line in a field, no white space
    before the model, no double quote at the ends of the commentary; and
    for returns that [float] reads and that are not nan. *)
Theorem load_convictions_csv_reads_back (files : DemoFiles) (header : string)
    (rows : list (DemoConviction * string)) :
  has_char "010" header = false →
  Forall (csv_safe files) rows →
  let loaded := sort_by_ytd rows.*1 in
  SimpleDemo.load_convictions_csv files (inr (csv_text header rows)) = inr loaded
  ∧ loaded ≡ₚ rows.*1
  ∧ StronglySorted no_smaller_return loaded
  ∧ (∀ k, filter (λ row, demo_ytd row = k) loaded
          = filter (λ row, demo_ytd row = k) rows.*1).
Proof.
  intros Hheader Hrows loaded.
  assert (Forall (λ y, demo_ytd y ≠ NaN) rows.*1) as Hnan.
  { apply Forall_fmap. eapply Forall_impl; [exact Hrows|].
    by intros row (_ & _ & _ & _ & _ & _ & _ & _ & Hrow). }
  split_and!.
  - unfold SimpleDemo.load_convictions_csv, csv_text, readlines. unfold_exn.
    rewrite readlines_go_line by done.
    unfold getitem. cbn [lookup list_lookup drop].
    rewrite (readlines_go_csv_rows files) by done. rewrite drop_0.
    rewrite parse_rows_csv_rows by done.
    by rewrite sort_convictions_without_nan.
  - apply sort_by_ytd_Permutation.
  - by apply sort_by_ytd_sorted.
  - intros k. apply sort_by_ytd_filter.
Qed.

Lemma load_convictions_csv_reads_back_witness :
  SimpleDemo.load_convictions_csv sample_files
    (inr (csv_text "Model,YTD%,Commentary" sample_rows))
  = inr (sort_by_ytd sample_rows.*1)
  ∧ demo_model <$> sort_by_ytd sample_rows.*1
    = ["Commodities & Energy"; "Emerging Markets"; "Technology Sector Focus";
       "Fixed Income Core"].
Proof.
  split; [|vm_compute; reflexivity].
  apply (load_convictions_csv_reads_back sample_files "Model,YTD%,Commentary"
           sample_rows); [reflexivity|].
  repeat apply Forall_cons_2; [..|apply Forall_nil_2];
    (split_and!; solve [vm_compute; reflexivity | discriminate]).
Defined.

(** A table file that is empty has no header line to read: the load raises
    the index error, outside of any [try] block, and with it the run of the
    demo, before any report is read. *)
Theorem demo_run_raises_on_empty_table (host : Host) (files : DemoFiles)
    (email_template : string) (w : World) :
  template_file files = Some (inr email_template) →
  conv_file files = Some (inr "") →
  SimpleDemo.load_convictions_csv files (inr "")
    = inl (IndexError "list index out of range")
  ∧ SimpleDemo.generate_emails host files w
    = (Raises (IndexError "list index out of range"), w).
Proof.
  intros Htemplate Hconv. split; [reflexivity|].
  unfold SimpleDemo.generate_emails. by rewrite Htemplate, Hconv.
Qed.

Lemma demo_run_raises_on_empty_table_witness :
  SimpleDemo.generate_emails demo_host
    {| template_file := Some (inr demo_template); conv_file := Some (inr "");
       report_files := [("John_Smith.pdf", inr "YTD Return: 5.5%")];
       py_float := λ _, inl (ValueError "could not convert string to float");
       sort_with_nan := id |}
    empty_world
  = (Raises (IndexError "list index out of range"), empty_world).
Proof.
  apply (demo_run_raises_on_empty_table demo_host
           {| template_file := Some (inr demo_template); conv_file := Some (inr "");
              report_files := [("John_Smith.pdf", inr "YTD Return: 5.5%")];
              py_float := λ _, inl (ValueError "could not convert string to float");
       sort_with_nan := id |}
           demo_template empty_world); reflexivity.
Defined.
